(** * Factory barcode scanner: barcode-to-PDF lookup, file index, persistence

    A shallow embedding of [App.tsx] in its two variants:
    - [Picker]: the document-picker based application, which keeps an explicit
      list of [PDFFile] records and persists it in AsyncStorage;
    - [Saf]: the storage-access-framework application, which re-lists a
      remembered directory and keeps a list of document URIs.

    JavaScript strings are sequences of UTF-16 code units ([list N]); React
    state is a record; AsyncStorage is a finite map from keys to strings; the
    asynchronous handlers are run to completion in call order inside a small
    monad that threads the state, records the platform calls they make and
    propagates rejected promises to the enclosing [try]/[catch]. *)

From Stdlib Require Import ZArith NArith List String Ascii Bool Lia.
From stdpp Require Import base option list gmap strings.
Import ListNotations.

Local Open Scope N_scope.

(** ** JavaScript strings *)

Module JsString.

(** A string is the list of its UTF-16 code units. *)
Abbreviation jsstring := (list N).

(** The code units of a source-text literal (all literals of the program
    are ASCII). *)
Definition lit (s : string) : jsstring :=
  (fun a => N_of_ascii a) <$> list_ascii_of_string s.

(** [a === b] on strings. *)
Definition str_eqb (a b : jsstring) : bool := bool_decide (a = b).

(** [s.substring(start, end)]: both indices are clamped to the length and
    swapped when out of order. *)
Definition substring (s : jsstring) (start stop : nat) : jsstring :=
  let len := length s in
  let a := Nat.min start len in
  let b := Nat.min stop len in
  let from := Nat.min a b in
  let to := Nat.max a b in
  take (to - from) (drop from s).

(** [s.substring(start)]. *)
Definition substringFrom (s : jsstring) (start : nat) : jsstring :=
  substring s start (length s).

(** [s.startsWith(pat)]. *)
Fixpoint startsWith (s pat : jsstring) {struct pat} : bool :=
  match pat, s with
  | [], _ => true
  | _ :: _, [] => false
  | p :: pat', c :: s' => (c =? p) && startsWith s' pat'
  end.

(** [s.endsWith(suffix)]. *)
Definition endsWith (s suffix : jsstring) : bool :=
  (length suffix <=? length s)%nat
  && str_eqb (drop (length s - length suffix) s) suffix.

(** [s.lastIndexOf(pat)]: the greatest index at which [pat] occurs in [s],
    or [-1]. The auxiliary function scans the suffixes of [s]; [i] is the
    index of the current suffix. *)
Fixpoint lastIndexOf_from (s pat : jsstring) (i : Z) : Z :=
  match s with
  | [] => if startsWith [] pat then i else (-1)%Z
  | _ :: s' =>
      let later := lastIndexOf_from s' pat (i + 1) in
      if (later =? -1)%Z
      then (if startsWith s pat then i else (-1)%Z)
      else later
  end.

Definition lastIndexOf (s pat : jsstring) : Z := lastIndexOf_from s pat 0.

(** *** The two regular expressions of the program *)

(** The character class [[a-zA-Z0-9]]. *)
Definition is_alnum (c : N) : bool :=
  ((97 <=? c) && (c <=? 122)) || ((65 <=? c) && (c <=? 90))
  || ((48 <=? c) && (c <=? 57)).

(** [/^[a-zA-Z0-9]+$/.test(s)]: without the [m] flag the anchors are the
    two ends of the input. *)
Definition test_alnum (s : jsstring) : bool :=
  match s with
  | [] => false
  | _ :: _ => forallb is_alnum s
  end.

(** One pattern character of [/\.pdf$/i]. With the [i] flag and without the
    [u] flag a code unit matches a letter of the pattern when both have the
    same canonical (upper-case) form, and a non-ASCII unit is never
    canonicalised to an ASCII one: only the two ASCII cases match. *)
Definition eq_ignore_case (upper lower c : N) : bool :=
  (c =? upper) || (c =? lower).

(** The whole remaining input is [\.pdf] (then [$] holds). *)
Definition is_dot_pdf (s : jsstring) : bool :=
  match s with
  | [c0; c1; c2; c3] =>
      (c0 =? 46) && eq_ignore_case 80 112 c1
      && eq_ignore_case 68 100 c2 && eq_ignore_case 70 102 c3
  | _ => false
  end.

(** [s.replace(/\.pdf$/i, empty)]: the matcher tries the start positions from
    the left; at the first one where the rest of the input is the extension
    the match is replaced by the empty string. *)
Fixpoint replace_pdf_ext (s : jsstring) : jsstring :=
  if is_dot_pdf s then []
  else match s with
       | [] => []
       | c :: s' => c :: replace_pdf_ext s'
       end.

(** *** Decimal numerals, as template literals and [JSON.stringify] print
    non-negative integers *)

Definition digit (d : N) : N := 48 + d.

Fixpoint decimal_pos (fuel : nat) (n : N) (acc : jsstring) : jsstring :=
  match fuel with
  | O => acc
  | S fuel' =>
      if n <? 10 then digit n :: acc
      else decimal_pos fuel' (n / 10) (digit (n mod 10) :: acc)
  end.

Definition decimal (n : N) : jsstring :=
  decimal_pos (S (N.to_nat (N.log2 n))) n [].

(** [s] between double quotes, as the alert messages show a name. *)
Definition quoted (s : jsstring) : jsstring := 34 :: s ++ [34].

End JsString.
Import JsString.


(** ** Handlers as state-passing computations *)

Module Act.

(** What a platform call or a handler body yields: a value, or a thrown
    exception (a rejected promise at an [await]). *)
Inductive result (A : Type) : Type :=
| Ok (a : A)
| Thrown.
Arguments Ok {A} a.
Arguments Thrown {A}.

(** Callbacks that the program attaches to alert buttons. *)
Inductive Callback : Type :=
| CbAddPDFFiles
| CbRemovePDFFile (uri : jsstring)
| CbRefreshFiles.

Record Button : Type := MkButton {
  text : string;
  onPress : option Callback
}.

(** The calls the program makes into the platform, in the order made.
    [Query key] marks a call [searchAndOpenPDF(key)], the query of the file
    index for [key]. *)
Inductive Effect : Type :=
| Alert (title : string) (message : jsstring) (buttons : list Button)
| StartActivity (action : string) (data : jsstring) (type : string) (flags : N)
| GetDocument
| GetInfo (uri : jsstring)
| ReadDirectory (uri : jsstring)
| SetItem (key value : jsstring)
| GetItem (key : jsstring)
| SetTimeout (ms : N)
| ConsoleError (message : string)
| ConsoleLog (message : jsstring)
| Query (key : jsstring).

(** A computation over a state [S]: it ends with a value or an exception,
    a new state, and the effects it performed. *)
Definition Act (S A : Type) : Type := S -> result A * S * list Effect.

Section Combinators.
Context {S : Type}.

Definition ret {A} (a : A) : Act S A := fun s => (Ok a, s, []).

Definition bind {A B} (m : Act S A) (k : A -> Act S B) : Act S B :=
  fun s =>
    match m s with
    | (Ok a, s1, t1) => let '(r, s2, t2) := k a s1 in (r, s2, t1 ++ t2)
    | (Thrown, s1, t1) => (Thrown, s1, t1)
    end.

Definition emit (e : Effect) : Act S unit := fun s => (Ok tt, s, [e]).

Definition gets {A} (f : S -> A) : Act S A := fun s => (Ok (f s), s, []).

Definition modify (f : S -> S) : Act S unit := fun s => (Ok tt, f s, []).

(** [await p] where the platform settles [p] with [r]. *)
Definition settle {A} (r : result A) : Act S A := fun s => (r, s, []).

(** [try { body } catch (error) { handler }]. *)
Definition try_catch {A} (body handler : Act S A) : Act S A :=
  fun s =>
    match body s with
    | (Ok a, s1, t1) => (Ok a, s1, t1)
    | (Thrown, s1, t1) => let '(r, s2, t2) := handler s1 in (r, s2, t1 ++ t2)
    end.

(** [try { body } finally { cleanup }]: the cleanup always runs, and the
    outcome of the body is kept unless the cleanup itself throws. *)
Definition finally {A} (body : Act S A) (cleanup : Act S unit) : Act S A :=
  fun s =>
    let '(r, s1, t1) := body s in
    match cleanup s1 with
    | (Ok _, s2, t2) => (r, s2, t1 ++ t2)
    | (Thrown, s2, t2) => (Thrown, s2, t1 ++ t2)
    end.

(** [if (c) { m }] with no else branch. *)
Definition when (c : bool) (m : Act S unit) : Act S unit :=
  if c then m else ret tt.

End Combinators.

(** The final state and the trace of a handler run. *)
Definition exec {S A} (m : Act S A) (s : S) : S := snd (fst (m s)).
Definition trace {S A} (m : Act S A) (s : S) : list Effect := snd (m s).
Definition outcome {S A} (m : Act S A) (s : S) : result A := fst (fst (m s)).

End Act.
Import Act.

#[global] Instance act_ret {S} : MRet (Act S) := fun A a => ret a.
#[global] Instance act_bind {S} : MBind (Act S) := fun A B k m => bind m k.

(** ** JSON text, as [JSON.stringify] writes it and [JSON.parse] reads it

    Numbers are the integers: every number the program stores (a file size,
    a millisecond timestamp) is an integer that prints as plain digits.
    An object is the list of its properties in insertion order, which is the
    order of enumeration for keys that are not array indices; every key the
    program stores is of that kind. *)

Module JSON.

#[warnings="-register-all"]
Inductive value : Type :=
| JNull
| JBool (b : bool)
| JNumber (n : Z)
| JString (s : jsstring)
| JArray (elements : list value)
| JObject (members : list (jsstring * value)).

(** *** Writing *)

(** Lower-case hexadecimal digit of [d < 16]. *)
Definition hex_digit (d : N) : N := if d <? 10 then 48 + d else 87 + d.

(** The six-character escape [\uXXXX]. *)
Definition unicode_escape (c : N) : jsstring :=
  [92; 117; hex_digit ((c / 4096) mod 16); hex_digit ((c / 256) mod 16);
   hex_digit ((c / 16) mod 16); hex_digit (c mod 16)].

(** How one code unit that is not a surrogate is written inside quotes. *)
Definition quote_unit (c : N) : jsstring :=
  if c =? 8 then [92; 98]
  else if c =? 9 then [92; 116]
  else if c =? 10 then [92; 110]
  else if c =? 12 then [92; 102]
  else if c =? 13 then [92; 114]
  else if c =? 34 then [92; 34]
  else if c =? 92 then [92; 92]
  else if c <? 32 then unicode_escape c
  else [c].

Definition is_lead_surrogate (c : N) : bool := (55296 <=? c) && (c <=? 56319).
Definition is_trail_surrogate (c : N) : bool := (56320 <=? c) && (c <=? 57343).

(** The body of a quoted string: a surrogate pair is written as it is, a
    lone surrogate as an escape. *)
Fixpoint quote_body (s : jsstring) : jsstring :=
  match s with
  | [] => []
  | c :: s' =>
      if is_lead_surrogate c then
        match s' with
        | d :: s'' =>
            if is_trail_surrogate d then c :: d :: quote_body s''
            else unicode_escape c ++ quote_body s'
        | [] => unicode_escape c
        end
      else if is_trail_surrogate c then unicode_escape c ++ quote_body s'
      else quote_unit c ++ quote_body s'
  end.

Definition quote (s : jsstring) : jsstring := 34 :: quote_body s ++ [34].

Definition number_text (n : Z) : jsstring :=
  if (n <? 0)%Z then 45 :: decimal (Z.abs_N n) else decimal (Z.to_N n).

(** [JSON.stringify(v)] (no indentation argument): the elements of an array
    and the members of an object are separated by commas. *)
Fixpoint stringify (v : value) : jsstring :=
  match v with
  | JNull => lit "null"
  | JBool true => lit "true"
  | JBool false => lit "false"
  | JNumber n => number_text n
  | JString s => quote s
  | JArray elements =>
      91 :: match elements with
            | [] => []
            | x :: rest =>
                stringify x
                ++ (fix tail (l : list value) : jsstring :=
                      match l with
                      | [] => []
                      | y :: l' => 44 :: stringify y ++ tail l'
                      end) rest
            end ++ [93]
  | JObject members =>
      123 :: match members with
             | [] => []
             | (k, x) :: rest =>
                 quote k ++ 58 :: stringify x
                 ++ (fix tail (l : list (jsstring * value)) : jsstring :=
                       match l with
                       | [] => []
                       | (k', y) :: l' =>
                           44 :: quote k' ++ 58 :: stringify y ++ tail l'
                       end) rest
             end ++ [125]
  end.

(** *** Reading *)

Definition is_ws (c : N) : bool :=
  (c =? 32) || (c =? 9) || (c =? 10) || (c =? 13).

Fixpoint skip_ws (s : jsstring) : jsstring :=
  match s with
  | c :: s' => if is_ws c then skip_ws s' else s
  | [] => []
  end.

Definition is_digit (c : N) : bool := (48 <=? c) && (c <=? 57).

Definition unhex (c : N) : option N :=
  if is_digit c then Some (c - 48)
  else if (97 <=? c) && (c <=? 102) then Some (c - 87)
  else if (65 <=? c) && (c <=? 70) then Some (c - 55)
  else None.

Definition unhex4 (h1 h2 h3 h4 : N) : option N :=
  match unhex h1, unhex h2, unhex h3, unhex h4 with
  | Some a, Some b, Some c, Some d => Some (a * 4096 + b * 256 + c * 16 + d)
  | _, _, _, _ => None
  end.

(** The unit denoted by the single-character escape [\e]. *)
Definition unescape (e : N) : option N :=
  if e =? 34 then Some 34
  else if e =? 92 then Some 92
  else if e =? 47 then Some 47
  else if e =? 98 then Some 8
  else if e =? 102 then Some 12
  else if e =? 110 then Some 10
  else if e =? 114 then Some 13
  else if e =? 116 then Some 9
  else None.

(** The characters of a string after its opening quote, up to and including
    the closing quote; the result is the string and the rest of the input. *)
Fixpoint parse_string_body (s : jsstring) : option (jsstring * jsstring) :=
  match s with
  | [] => None
  | c :: s' =>
      if c =? 34 then Some ([], s')
      else if c =? 92 then
        match s' with
        | [] => None
        | e :: s'' =>
            if e =? 117 then
              match s'' with
              | h1 :: h2 :: h3 :: h4 :: s3 =>
                  match unhex4 h1 h2 h3 h4, parse_string_body s3 with
                  | Some u, Some (str, rest) => Some (u :: str, rest)
                  | _, _ => None
                  end
              | _ => None
              end
            else
              match unescape e, parse_string_body s'' with
              | Some u, Some (str, rest) => Some (u :: str, rest)
              | _, _ => None
              end
        end
      else if c <? 32 then None
      else match parse_string_body s' with
           | Some (str, rest) => Some (c :: str, rest)
           | None => None
           end
  end.

Fixpoint parse_digits (s : jsstring) (acc : N) : N * jsstring :=
  match s with
  | c :: s' => if is_digit c then parse_digits s' (acc * 10 + (c - 48))
               else (acc, s)
  | [] => (acc, [])
  end.

(** The integer part of a numeral: [0], or a non-zero digit followed by
    digits. *)
Definition parse_int (s : jsstring) : option (N * jsstring) :=
  match s with
  | c :: s' =>
      if c =? 48 then Some (0, s')
      else if is_digit c then Some (parse_digits s' (c - 48))
      else None
  | [] => None
  end.

(** A numeral with a fraction or an exponent is not an integer. *)
Definition starts_fraction (s : jsstring) : bool :=
  match s with
  | c :: _ => (c =? 46) || (c =? 101) || (c =? 69)
  | [] => false
  end.

Definition parse_number (s : jsstring) : option (value * jsstring) :=
  match s with
  | c :: s' =>
      '(n, rest) ← parse_int (if c =? 45 then s' else s);
      if starts_fraction rest then None
      else Some (JNumber (if c =? 45 then (- Z.of_N n)%Z else Z.of_N n), rest)
  | [] => None
  end.

(** The reserved word [w] at the head of the input. *)
Definition parse_word (w : string) (v : value) (s : jsstring)
  : option (value * jsstring) :=
  if startsWith s (lit w) then Some (v, drop (length (lit w)) s) else None.

(** Setting property [k] of an object under construction: a repeated key
    keeps its place and takes the later value. *)
Fixpoint obj_set (k : jsstring) (v : value) (o : list (jsstring * value))
  : list (jsstring * value) :=
  match o with
  | [] => [(k, v)]
  | (k', v') :: o' => if str_eqb k' k then (k', v) :: o'
                      else (k', v') :: obj_set k v o'
  end.

Definition build_object (raw : list (jsstring * value)) : value :=
  JObject (foldl (fun o kv => obj_set kv.1 kv.2 o) [] raw).

(** The input continues, after white space, with the character [c]. *)
Definition expect (c : N) (s : jsstring) : option jsstring :=
  match skip_ws s with
  | c' :: rest => if c' =? c then Some rest else None
  | [] => None
  end.

(** A value, the elements of an array after its first, one member of an
    object, and the members of an object after its first; [fuel] bounds the
    number of nested calls. *)
Fixpoint parse_value (fuel : nat) (s : jsstring) : option (value * jsstring) :=
  match fuel with
  | O => None
  | S fuel' =>
      match skip_ws s with
      | [] => None
      | c :: s' =>
          if c =? 110 then parse_word "null" JNull (c :: s')
          else if c =? 116 then parse_word "true" (JBool true) (c :: s')
          else if c =? 102 then parse_word "false" (JBool false) (c :: s')
          else if c =? 34 then
            '(str, rest) ← parse_string_body s'; Some (JString str, rest)
          else if c =? 91 then
            match expect 93 s' with
            | Some rest => Some (JArray [], rest)
            | None =>
                '(x, rest) ← parse_value fuel' s';
                '(xs, rest') ← parse_elements fuel' rest;
                Some (JArray (x :: xs), rest')
            end
          else if c =? 123 then
            match expect 125 s' with
            | Some rest => Some (JObject [], rest)
            | None =>
                '(m, rest) ← parse_member fuel' s';
                '(ms, rest') ← parse_members fuel' rest;
                Some (build_object (m :: ms), rest')
            end
          else parse_number (c :: s')
      end
  end
with parse_elements (fuel : nat) (s : jsstring)
  : option (list value * jsstring) :=
  match fuel with
  | O => None
  | S fuel' =>
      match expect 93 s with
      | Some rest => Some ([], rest)
      | None =>
          s' ← expect 44 s;
          '(x, rest) ← parse_value fuel' s';
          '(xs, rest') ← parse_elements fuel' rest;
          Some (x :: xs, rest')
      end
  end
with parse_member (fuel : nat) (s : jsstring)
  : option (jsstring * value * jsstring) :=
  match fuel with
  | O => None
  | S fuel' =>
      s' ← expect 34 s;
      '(k, rest) ← parse_string_body s';
      rest' ← expect 58 rest;
      '(x, rest'') ← parse_value fuel' rest';
      Some (k, x, rest'')
  end
with parse_members (fuel : nat) (s : jsstring)
  : option (list (jsstring * value) * jsstring) :=
  match fuel with
  | O => None
  | S fuel' =>
      match expect 125 s with
      | Some rest => Some ([], rest)
      | None =>
          s' ← expect 44 s;
          '(m, rest) ← parse_member fuel' s';
          '(ms, rest') ← parse_members fuel' rest;
          Some (m :: ms, rest')
      end
  end.

(** [JSON.parse(text)]: one value, then only white space. [None] is the
    [SyntaxError] (and a numeral that is not an integer). Every nested call
    consumes a character, so the length of the text is fuel enough. *)
Definition parse (text : jsstring) : option value :=
  match parse_value (S (length text)) text with
  | Some (v, rest) => match skip_ws rest with [] => Some v | _ => None end
  | None => None
  end.

(** Reading a property. *)
Fixpoint get (k : jsstring) (o : list (jsstring * value)) : option value :=
  match o with
  | [] => None
  | (k', v) :: o' => if str_eqb k' k then Some v else get k o'
  end.

(** Values that are objects of the running program: no object has a
    repeated key or a key that starts with a digit. *)
Definition key_ok (k : jsstring) : bool :=
  match k with
  | c :: _ => negb (is_digit c)
  | [] => true
  end.

Fixpoint distinct_keys (ks : list jsstring) : bool :=
  match ks with
  | [] => true
  | k :: ks' => negb (existsb (str_eqb k) ks') && distinct_keys ks'
  end.

Fixpoint wf (v : value) : bool :=
  match v with
  | JArray l => forallb wf l
  | JObject l =>
      forallb key_ok (fst <$> l) && distinct_keys (fst <$> l)
      && forallb (fun kv => wf kv.2) l
  | _ => true
  end.

End JSON.

(** [value] is truthy as a string-or-null. *)
Definition truthy (s : option jsstring) : bool :=
  match s with
  | Some (_ :: _) => true
  | _ => false
  end.

(** [Platform.OS]. *)
Inductive PlatformOS : Type := android | ios | windows | macos | web.

(** A call that is not awaited: a rejection does not reach the caller. *)
Definition detached {S} (m : Act S unit) : Act S unit := try_catch m (mret tt).

(** ** The picker-based application *)

Module Picker.

Definition STORAGE_KEY : jsstring := lit "@factory_scanner_pdfs".

Record ScanResult : Type := MkScanResult {
  data : jsstring;
  timestamp : N
}.

Record PDFFile : Type := MkPDFFile {
  name : jsstring;
  uri : jsstring;
  size : N;
  barcode : jsstring
}.

(** An asset of a document-picker result; [assetSize] is optional. *)
Record DocumentPickerAsset : Type := MkAsset {
  assetName : jsstring;
  assetUri : jsstring;
  assetSize : option N
}.

Inductive DocumentPickerResult : Type :=
| Canceled
| Picked (assets : list DocumentPickerAsset).

(** The React state of [App], and the contents of AsyncStorage. *)
Record State : Type := MkState {
  hasPermission : option bool;
  scanned : bool;
  pdfFiles : list PDFFile;
  isLoading : bool;
  lastScan : option ScanResult;
  isProcessing : bool;
  isManaging : bool;
  storage : gmap jsstring jsstring
}.

Definition initial (disk : gmap jsstring jsstring) : State :=
  MkState None false [] true None false false disk.

(** What the platform answers during one handler run. *)
Record World : Type := MkWorld {
  Platform_OS : PlatformOS;
  Date_now : N;
  toLowerCase : jsstring -> jsstring;
  (** [Camera.requestCameraPermissionsAsync()]: [status === "granted"]. *)
  requestCameraPermissionsAsync : result bool;
  (** [FileSystem.getInfoAsync(uri)]: the [exists] field. *)
  getInfoAsync : jsstring -> result bool;
  (** [IntentLauncher.startActivityAsync(VIEW, {data})]. *)
  startActivityAsync : jsstring -> result unit;
  (** [DocumentPicker.getDocumentAsync(...)]. *)
  getDocumentAsync : result DocumentPickerResult
}.

(** *** State setters *)

Definition setHasPermission (v : bool) : Act State unit :=
  modify (fun s => MkState (Some v) (scanned s) (pdfFiles s) (isLoading s)
                           (lastScan s) (isProcessing s) (isManaging s) (storage s)).

Definition setScanned (v : bool) : Act State unit :=
  modify (fun s => MkState (hasPermission s) v (pdfFiles s) (isLoading s)
                           (lastScan s) (isProcessing s) (isManaging s) (storage s)).

Definition setPdfFiles (v : list PDFFile) : Act State unit :=
  modify (fun s => MkState (hasPermission s) (scanned s) v (isLoading s)
                           (lastScan s) (isProcessing s) (isManaging s) (storage s)).

Definition setIsLoading (v : bool) : Act State unit :=
  modify (fun s => MkState (hasPermission s) (scanned s) (pdfFiles s) v
                           (lastScan s) (isProcessing s) (isManaging s) (storage s)).

Definition setLastScan (v : option ScanResult) : Act State unit :=
  modify (fun s => MkState (hasPermission s) (scanned s) (pdfFiles s) (isLoading s)
                           v (isProcessing s) (isManaging s) (storage s)).

Definition setIsProcessing (v : bool) : Act State unit :=
  modify (fun s => MkState (hasPermission s) (scanned s) (pdfFiles s) (isLoading s)
                           (lastScan s) v (isManaging s) (storage s)).

Definition setIsManaging (v : bool) : Act State unit :=
  modify (fun s => MkState (hasPermission s) (scanned s) (pdfFiles s) (isLoading s)
                           (lastScan s) (isProcessing s) v (storage s)).

Definition AsyncStorage_setItem (key value : jsstring) : Act State unit :=
  emit (SetItem key value);;
  modify (fun s => MkState (hasPermission s) (scanned s) (pdfFiles s) (isLoading s)
                           (lastScan s) (isProcessing s) (isManaging s)
                           (<[key := value]> (storage s))).

Definition AsyncStorage_getItem (key : jsstring) : Act State (option jsstring) :=
  emit (GetItem key);;
  gets (fun s => storage s !! key).

(** *** The persisted form of the file list *)

Definition PDFFile_to_json (f : PDFFile) : JSON.value :=
  JSON.JObject [(lit "name", JSON.JString (name f));
                (lit "uri", JSON.JString (uri f));
                (lit "size", JSON.JNumber (Z.of_N (size f)));
                (lit "barcode", JSON.JString (barcode f))].

(** [JSON.stringify(files)]. *)
Definition stringify_files (files : list PDFFile) : jsstring :=
  JSON.stringify (JSON.JArray (PDFFile_to_json <$> files)).

Definition as_string (v : JSON.value) : option jsstring :=
  match v with JSON.JString s => Some s | _ => None end.

Definition as_size (v : JSON.value) : option N :=
  match v with
  | JSON.JNumber n => if (0 <=? n)%Z then Some (Z.to_N n) else None
  | _ => None
  end.

(** The cast [as PDFFile[]] of a parsed value: the four properties are read
    from every element. A value of another shape is outside the type. *)
Definition PDFFile_of_json (v : JSON.value) : option PDFFile :=
  match v with
  | JSON.JObject o =>
      n ← JSON.get (lit "name") o ≫= as_string;
      u ← JSON.get (lit "uri") o ≫= as_string;
      sz ← JSON.get (lit "size") o ≫= as_size;
      b ← JSON.get (lit "barcode") o ≫= as_string;
      Some (MkPDFFile n u sz b)
  | _ => None
  end.

(** [JSON.parse(text) as PDFFile[]]. *)
Definition parse_files (text : jsstring) : option (list PDFFile) :=
  v ← JSON.parse text;
  match v with
  | JSON.JArray l => mapM PDFFile_of_json l
  | _ => None
  end.

(** *** Functions of the component *)

Definition extractBarcodeFromFilename (filename : jsstring) : option jsstring :=
  let nameWithoutExt := replace_pdf_ext filename in
  if test_alnum nameWithoutExt then Some nameWithoutExt else None.

(** The three accumulators of the loop of [addPDFFiles]. *)
Record Tally : Type := MkTally {
  newFiles : list PDFFile;
  duplicateCount : N;
  invalidCount : N
}.

(** [asset.name || "unknown.pdf"]. *)
Definition fileNameOf (asset : DocumentPickerAsset) : jsstring :=
  match assetName asset with
  | [] => lit "unknown.pdf"
  | n => n
  end.

(** One iteration of [for (const asset of result.assets)]. *)
Definition visitAsset (existingUris : gset jsstring) (t : Tally)
  (asset : DocumentPickerAsset) : Tally :=
  if bool_decide (assetUri asset ∈ existingUris) then
    MkTally (newFiles t) (duplicateCount t + 1) (invalidCount t)
  else
    let fileName := fileNameOf asset in
    let barcode := extractBarcodeFromFilename fileName in
    if truthy barcode then
      MkTally (newFiles t ++ [MkPDFFile fileName (assetUri asset)
                                (default 0 (assetSize asset))
                                (default [] barcode)])
              (duplicateCount t) (invalidCount t)
    else
      MkTally (newFiles t) (duplicateCount t) (invalidCount t + 1).

Definition visitAssets (files : list PDFFile)
  (assets : list DocumentPickerAsset) : Tally :=
  let existingUris : gset jsstring := list_to_set (uri <$> files) in
  foldl (visitAsset existingUris) (MkTally [] 0 0) assets.

Definition count (n : nat) : jsstring := decimal (N.of_nat n).

Definition filesAddedMessage (t : Tally) : jsstring :=
  let alertMessage :=
    lit "Added " ++ count (length (newFiles t))
    ++ lit " new PDF file(s) successfully!" in
  let alertMessage :=
    if 0 <? duplicateCount t
    then alertMessage ++ [10] ++ decimal (duplicateCount t)
         ++ lit " duplicate(s) were ignored."
    else alertMessage in
  if 0 <? invalidCount t
  then alertMessage ++ [10] ++ decimal (invalidCount t)
       ++ lit " file(s) with invalid names were ignored."
  else alertMessage.

Definition noFilesAddedMessage (t : Tally) : jsstring :=
  if 0 <? duplicateCount t
  then decimal (duplicateCount t)
       ++ lit " selected file(s) were already in the list."
  else if 0 <? invalidCount t
  then lit "The selected file(s) did not have valid barcode names (e.g., "
       ++ quoted (lit "12345.pdf") ++ lit ")."
  else lit "No new valid files were added.".

Definition okButton : list Button := [MkButton "OK" None].

Section Handlers.
Context (w : World).

Definition getCameraPermissions : Act State unit :=
  granted ← settle (requestCameraPermissionsAsync w);
  setHasPermission granted.

(** The loop of [loadPDFFiles] that keeps the files that still exist. *)
Fixpoint keepExisting (files validFiles : list PDFFile)
  : Act State (list PDFFile) :=
  match files with
  | [] => mret validFiles
  | file :: rest =>
      validFiles' ←
        try_catch
          (emit (GetInfo (uri file));;
           fileExists ← settle (getInfoAsync w (uri file));
           mret (if fileExists : bool then validFiles ++ [file] else validFiles))
          (emit (ConsoleLog (lit "File no longer accessible: " ++ name file));;
           mret validFiles);
      keepExisting rest validFiles'
  end.

Definition loadPDFFiles : Act State unit :=
  finally
    (try_catch
       (savedFiles ← AsyncStorage_getItem STORAGE_KEY;
        when (truthy savedFiles)
          (files ← settle (match parse_files (default [] savedFiles) with
                           | Some files => Ok files
                           | None => Thrown
                           end);
           validFiles ← keepExisting files [];
           setPdfFiles validFiles;;
           when (negb (length validFiles =? length files)%nat)
             (AsyncStorage_setItem STORAGE_KEY (stringify_files validFiles))))
       (emit (ConsoleError "Error loading PDF files:")))
    (setIsLoading false).

Definition addPDFFiles : Act State unit :=
  setIsManaging true;;
  finally
    (try_catch
       (emit GetDocument;;
        result ← settle (getDocumentAsync w);
        match result with
        | Canceled => mret tt
        | Picked assets =>
            when (0 <? length assets)%nat
              (files ← gets pdfFiles;
               let t := visitAssets files assets in
               if (0 <? length (newFiles t))%nat then
                 let updatedFiles := files ++ newFiles t in
                 setPdfFiles updatedFiles;;
                 AsyncStorage_setItem STORAGE_KEY (stringify_files updatedFiles);;
                 emit (Alert "Files Added" (filesAddedMessage t) okButton)
               else
                 emit (Alert "No Files Added" (noFilesAddedMessage t) okButton))
        end)
       (emit (ConsoleError "Error adding PDFs:");;
        emit (Alert "Error" (lit "Failed to add PDF files. Please try again.") [])))
    (setIsManaging false).

Definition removePDFFile (target : jsstring) : Act State unit :=
  try_catch
    (files ← gets pdfFiles;
     let updatedFiles :=
       List.filter (fun file => negb (str_eqb (uri file) target)) files in
     when (length updatedFiles =? 0)%nat
       (managing ← gets isManaging; setIsManaging (negb managing));;
     setPdfFiles updatedFiles;;
     AsyncStorage_setItem STORAGE_KEY (stringify_files updatedFiles))
    (emit (ConsoleError "Error removing PDF file:")).

Definition openPDFWithIntent (target filename : jsstring) : Act State unit :=
  match Platform_OS w with
  | android =>
      try_catch
        (emit (StartActivity "android.intent.action.VIEW" target
                 "application/pdf" 1);;
         settle (startActivityAsync w target))
        (emit (ConsoleError "Error opening PDF with intent:");;
         emit (Alert "Error"
                 (lit "Could not open PDF. Please ensure you have Adobe Acrobat or another PDF app installed.")
                 []))
  | _ =>
      try_catch
        (emit GetDocument;;
         result ← settle (getDocumentAsync w);
         match result with
         | Canceled =>
             emit (Alert "Open PDF"
                     (lit "Please use the share button to open with your preferred PDF app.")
                     okButton)
         | Picked _ => mret tt
         end)
        (emit (ConsoleError "Error opening PDF on iOS:");;
         emit (Alert "Error" (lit "Could not open PDF file.") []))
  end.

(** [pdfFiles.find(file => file.barcode.toLowerCase() === barcode.toLowerCase())]. *)
Definition findMatchingFile (files : list PDFFile) (key : jsstring)
  : option PDFFile :=
  List.find (fun file => str_eqb (toLowerCase w (barcode file))
                                 (toLowerCase w key)) files.

Definition searchAndOpenPDF (key : jsstring) : Act State unit :=
  emit (Query key);;
  files ← gets pdfFiles;
  if (length files =? 0)%nat then
    emit (Alert "No PDFs Available" (lit "Please add PDF files first.") [])
  else
    setIsProcessing true;;
    finally
      (try_catch
         (match findMatchingFile files key with
          | Some matchingFile =>
              emit (GetInfo (uri matchingFile));;
              fileExists ← settle (getInfoAsync w (uri matchingFile));
              if fileExists : bool then
                openPDFWithIntent (uri matchingFile) (name matchingFile)
              else
                emit (Alert "File Not Found"
                        (lit "PDF file " ++ quoted (name matchingFile)
                         ++ lit " is no longer available. Please re-add it.")
                        [MkButton "Remove from List"
                           (Some (CbRemovePDFFile (uri matchingFile)));
                         MkButton "Cancel" None])
          | None =>
              emit (Alert "File Not Found"
                      (lit "No PDF found for barcode " ++ quoted key
                       ++ lit ". Available files: " ++ count (length files))
                      [MkButton "Add Files" (Some CbAddPDFFiles);
                       MkButton "OK" None])
          end)
         (emit (ConsoleError "Error opening PDF:");;
          emit (Alert "Error" (lit "Failed to open PDF file.") [])))
      (setIsProcessing false).

Definition handleBarCodeScanned (payload : jsstring) : Act State unit :=
  isScanned ← gets scanned;
  processing ← gets isProcessing;
  if isScanned || processing then mret tt
  else if negb (length payload =? 14)%nat then mret tt
  else
    setScanned true;;
    setLastScan (Some (MkScanResult payload (Date_now w)));;
    let key := substring payload 0 8 in
    detached (searchAndOpenPDF key);;
    emit (SetTimeout 2000).

(** The callback given to [setTimeout]. *)
Definition scanTimeout : Act State unit := setScanned false.

End Handlers.

(** *** What [App] renders *)

Inductive Screen : Type :=
| LoadingScreen
| RequestingPermissionScreen
| PermissionDeniedScreen
| SetupScreen (addButton : bool)
| MainScreen (fileManager : bool) (camera : bool) (onBarcodeScanned : bool).

Definition render (s : State) : Screen :=
  if isLoading s then LoadingScreen
  else match hasPermission s with
       | None => RequestingPermissionScreen
       | Some false => PermissionDeniedScreen
       | Some true =>
           if (length (pdfFiles s) =? 0)%nat
           then SetupScreen (negb (isManaging s))
           else MainScreen (isManaging s) (negb (isManaging s))
                           (negb (isManaging s) && negb (scanned s))
       end.

(** The scan handler is attached to a rendered camera view. *)
Definition handlerAttached (v : Screen) : bool :=
  match v with
  | MainScreen _ _ attached => attached
  | _ => false
  end.

(** *** The component as a state machine *)

Inductive UiEvent : Type :=
| Mount
| BarcodeScanned (payload : jsstring)
| PressGrantPermission
| PressAddFiles
| PressManage
| PressRemove (target : jsstring)
| PressAlertButton (cb : Callback)
| TimeoutFired.

(** An event can occur when the rendered screen offers its control. Alert
    buttons and timers outlive the render that created them. *)
Definition enabled (s : State) (ev : UiEvent) : bool :=
  match ev, render s with
  | Mount, _ => false
  | BarcodeScanned _, v => handlerAttached v
  | PressGrantPermission, PermissionDeniedScreen => true
  | PressAddFiles, SetupScreen addButton => addButton
  | PressAddFiles, MainScreen _ _ _ => true
  | PressManage, MainScreen _ _ _ => true
  | PressRemove target, MainScreen true _ _ =>
      existsb (fun file => str_eqb (uri file) target) (pdfFiles s)
  | PressAlertButton _, _ => true
  | TimeoutFired, _ => true
  | _, _ => false
  end.

Definition dispatch (w : World) (ev : UiEvent) : Act State unit :=
  match ev with
  | Mount => detached (getCameraPermissions w);; detached (loadPDFFiles w)
  | BarcodeScanned payload => handleBarCodeScanned w payload
  | PressGrantPermission => detached (getCameraPermissions w)
  | PressAddFiles => detached (addPDFFiles w)
  | PressManage => managing ← gets isManaging; setIsManaging (negb managing)
  | PressRemove target => detached (removePDFFile target)
  | PressAlertButton CbAddPDFFiles => detached (addPDFFiles w)
  | PressAlertButton (CbRemovePDFFile target) => detached (removePDFFile target)
  | PressAlertButton CbRefreshFiles => mret tt
  | TimeoutFired => scanTimeout
  end.

(** States of the running application: the state after the mount effect,
    then any enabled event. *)
Inductive reachable : State -> Prop :=
| reach_mount disk w :
    reachable (exec (dispatch w Mount) (initial disk))
| reach_step s w ev :
    reachable s -> enabled s ev = true ->
    reachable (exec (dispatch w ev) s).

End Picker.

(** ** The storage-access-framework application *)

Module Saf.

Definition STORAGE_KEY : jsstring := lit "@factory_scanner_directory".
Definition LAST_SCAN_KEY : jsstring := lit "@factory_scanner_last_scan".

Record ScanResult : Type := MkScanResult {
  data : jsstring;
  timestamp : N
}.

Record DirectoryPermission : Type := MkDirectoryPermission {
  granted : bool;
  directoryUri : jsstring
}.

(** The React state of [App], and the contents of AsyncStorage. *)
Record State : Type := MkState {
  hasPermission : option bool;
  scanned : bool;
  isLoading : bool;
  lastScan : option ScanResult;
  isProcessing : bool;
  directoryPermission : option DirectoryPermission;
  pdfFiles : list jsstring;
  isFlashlightOn : bool;
  storage : gmap jsstring jsstring
}.

Definition initial (disk : gmap jsstring jsstring) : State :=
  MkState None false true None false None [] false disk.

(** What the platform answers during one handler run. *)
Record World : Type := MkWorld {
  Platform_OS : PlatformOS;
  Date_now : N;
  toLowerCase : jsstring -> jsstring;
  requestCameraPermissionsAsync : result bool;
  (** [StorageAccessFramework.requestDirectoryPermissionsAsync()]. *)
  requestDirectoryPermissionsAsync : result DirectoryPermission;
  (** [StorageAccessFramework.readDirectoryAsync(directoryUri)]. *)
  readDirectoryAsync : jsstring -> result (list jsstring);
  startActivityAsync : jsstring -> result unit
}.

(** *** State setters *)

Definition setHasPermission (v : bool) : Act State unit :=
  modify (fun s => MkState (Some v) (scanned s) (isLoading s) (lastScan s)
                           (isProcessing s) (directoryPermission s) (pdfFiles s)
                           (isFlashlightOn s) (storage s)).

Definition setScanned (v : bool) : Act State unit :=
  modify (fun s => MkState (hasPermission s) v (isLoading s) (lastScan s)
                           (isProcessing s) (directoryPermission s) (pdfFiles s)
                           (isFlashlightOn s) (storage s)).

Definition setIsLoading (v : bool) : Act State unit :=
  modify (fun s => MkState (hasPermission s) (scanned s) v (lastScan s)
                           (isProcessing s) (directoryPermission s) (pdfFiles s)
                           (isFlashlightOn s) (storage s)).

Definition setLastScan (v : option ScanResult) : Act State unit :=
  modify (fun s => MkState (hasPermission s) (scanned s) (isLoading s) v
                           (isProcessing s) (directoryPermission s) (pdfFiles s)
                           (isFlashlightOn s) (storage s)).

Definition setIsProcessing (v : bool) : Act State unit :=
  modify (fun s => MkState (hasPermission s) (scanned s) (isLoading s) (lastScan s)
                           v (directoryPermission s) (pdfFiles s)
                           (isFlashlightOn s) (storage s)).

Definition setDirectoryPermission (v : option DirectoryPermission)
  : Act State unit :=
  modify (fun s => MkState (hasPermission s) (scanned s) (isLoading s) (lastScan s)
                           (isProcessing s) v (pdfFiles s)
                           (isFlashlightOn s) (storage s)).

Definition setPdfFiles (v : list jsstring) : Act State unit :=
  modify (fun s => MkState (hasPermission s) (scanned s) (isLoading s) (lastScan s)
                           (isProcessing s) (directoryPermission s) v
                           (isFlashlightOn s) (storage s)).

Definition setIsFlashlightOn (v : bool) : Act State unit :=
  modify (fun s => MkState (hasPermission s) (scanned s) (isLoading s) (lastScan s)
                           (isProcessing s) (directoryPermission s) (pdfFiles s)
                           v (storage s)).

Definition AsyncStorage_setItem (key value : jsstring) : Act State unit :=
  emit (SetItem key value);;
  modify (fun s => MkState (hasPermission s) (scanned s) (isLoading s) (lastScan s)
                           (isProcessing s) (directoryPermission s) (pdfFiles s)
                           (isFlashlightOn s) (<[key := value]> (storage s))).

Definition AsyncStorage_getItem (key : jsstring) : Act State (option jsstring) :=
  emit (GetItem key);;
  gets (fun s => storage s !! key).

(** *** Persisted forms *)

Definition stringify_permission (p : DirectoryPermission) : jsstring :=
  JSON.stringify (JSON.JObject [(lit "granted", JSON.JBool (granted p));
                                (lit "directoryUri", JSON.JString (directoryUri p))]).

(** [JSON.parse(text) as DirectoryPermission]. *)
Definition parse_permission (text : jsstring) : option DirectoryPermission :=
  v ← JSON.parse text;
  match v with
  | JSON.JObject o =>
      Some (MkDirectoryPermission
              (match JSON.get (lit "granted") o with
               | Some (JSON.JBool b) => b
               | _ => false
               end)
              (match JSON.get (lit "directoryUri") o with
               | Some (JSON.JString u) => u
               | _ => []
               end))
  | _ => None
  end.

Definition stringify_scan (r : ScanResult) : jsstring :=
  JSON.stringify (JSON.JObject [(lit "data", JSON.JString (data r));
                                (lit "timestamp", JSON.JNumber (Z.of_N (timestamp r)))]).

Definition parse_scan (text : jsstring) : option ScanResult :=
  v ← JSON.parse text;
  match v with
  | JSON.JObject o =>
      match JSON.get (lit "data") o, JSON.get (lit "timestamp") o with
      | Some (JSON.JString d), Some (JSON.JNumber t) =>
          Some (MkScanResult d (Z.to_N t))
      | _, _ => None
      end
  | _ => None
  end.

(** *** Functions of the component *)

Definition getStringAfterLastSlash (target : jsstring) : jsstring :=
  let lastSlashIndex := lastIndexOf target (lit "%2F") in
  if negb (lastSlashIndex =? -1)%Z
  then substringFrom target (Z.to_nat (lastSlashIndex + 3))
  else target.

Definition count (n : nat) : jsstring := decimal (N.of_nat n).

Section Handlers.
Context (w : World).

Definition getCameraPermissions : Act State unit :=
  isGranted ← settle (requestCameraPermissionsAsync w);
  setHasPermission isGranted.

Definition toggleFlashlight : Act State unit :=
  prev ← gets isFlashlightOn;
  setIsFlashlightOn (negb prev).

Definition loadPDFFilesFromDirectory (directory : jsstring) : Act State unit :=
  finally
    (try_catch
       (setIsLoading true;;
        emit (ReadDirectory directory);;
        files ← settle (readDirectoryAsync w directory);
        let pdfFiles :=
          List.filter (fun target => endsWith (toLowerCase w target) (lit ".pdf"))
                      files in
        setPdfFiles files;;
        emit (ConsoleLog (lit "Found " ++ count (length pdfFiles)
                          ++ lit " PDF files in the selected directory")))
       (emit (ConsoleError "Error loading PDF files from directory:");;
        emit (Alert "Error"
                (lit "Failed to load PDF files from the selected directory.") [])))
    (setIsLoading false).

Definition loadSavedDirectory : Act State unit :=
  finally
    (try_catch
       (savedDirectory ← AsyncStorage_getItem STORAGE_KEY;
        when (truthy savedDirectory)
          (directoryData ← settle (match parse_permission (default [] savedDirectory) with
                                   | Some d => Ok d
                                   | None => Thrown
                                   end);
           setDirectoryPermission (Some directoryData);;
           when (granted directoryData)
             (loadPDFFilesFromDirectory (directoryUri directoryData))))
       (emit (ConsoleError "Error loading saved directory:")))
    (setIsLoading false).

Definition loadLastScan : Act State unit :=
  try_catch
    (savedLastScan ← AsyncStorage_getItem LAST_SCAN_KEY;
     when (truthy savedLastScan)
       (scan ← settle (match parse_scan (default [] savedLastScan) with
                       | Some r => Ok r
                       | None => Thrown
                       end);
        setLastScan (Some scan)))
    (emit (ConsoleError "Error loading last scan:")).

Definition saveLastScan (scanResult : ScanResult) : Act State unit :=
  try_catch
    (AsyncStorage_setItem LAST_SCAN_KEY (stringify_scan scanResult))
    (emit (ConsoleError "Error saving last scan:")).

Definition requestDirectoryPermission : Act State unit :=
  try_catch
    (permissions ← settle (requestDirectoryPermissionsAsync w);
     if granted permissions then
       setDirectoryPermission (Some permissions);;
       AsyncStorage_setItem STORAGE_KEY (stringify_permission permissions);;
       loadPDFFilesFromDirectory (directoryUri permissions)
     else
       emit (Alert "Permission Required"
               (lit "Folder access is required to scan and open PDF files.") []))
    (emit (ConsoleError "Error requesting directory permissions:");;
     emit (Alert "Error" (lit "Failed to request directory permissions.") [])).

Definition openPDFWithIntent (target : jsstring) : Act State unit :=
  match Platform_OS w with
  | android =>
      try_catch
        (emit (StartActivity "android.intent.action.VIEW" target
                 "application/pdf" 1);;
         settle (startActivityAsync w target))
        (emit (ConsoleError "Error opening PDF with intent:");;
         emit (Alert "Error"
                 (lit "Could not open PDF. Please ensure you have Adobe Acrobat or another PDF app installed.")
                 []))
  | _ => mret tt
  end.

(** The callback of [pdfFiles.filter] in [searchAndOpenPDF]. *)
Definition matchesBarcode (key target : jsstring) : bool :=
  let extractedBarcode := getStringAfterLastSlash target in
  str_eqb (toLowerCase w extractedBarcode) (toLowerCase w key ++ lit ".pdf").

Definition isGranted (p : option DirectoryPermission) : bool :=
  match p with
  | Some d => granted d
  | None => false
  end.

Definition searchAndOpenPDF (key : jsstring) : Act State unit :=
  emit (Query key);;
  permission ← gets directoryPermission;
  files ← gets pdfFiles;
  if negb (isGranted permission) || (length files =? 0)%nat then
    emit (Alert "No PDFs Available"
            (lit "Please select a folder with PDF files first.") [])
  else
    setIsProcessing true;;
    finally
      (try_catch
         (let matchingFiles := List.filter (matchesBarcode key) files in
          match matchingFiles with
          | first :: _ => openPDFWithIntent first
          | [] =>
              emit (Alert "File Not Found"
                      (lit "No PDF found for barcode " ++ quoted key
                       ++ lit ". Available files: " ++ count (length files))
                      [MkButton "Refresh Files" (Some CbRefreshFiles);
                       MkButton "OK" None])
          end)
         (emit (ConsoleError "Error opening PDF:");;
          emit (Alert "Error" (lit "Failed to open PDF file.") [])))
      (setIsProcessing false).

Definition handleBarCodeScanned (payload : jsstring) : Act State unit :=
  isScanned ← gets scanned;
  processing ← gets isProcessing;
  if isScanned || processing then mret tt
  else if negb (length payload =? 14)%nat then mret tt
  else
    setScanned true;;
    let scanResult := MkScanResult payload (Date_now w) in
    setLastScan (Some scanResult);;
    detached (saveLastScan scanResult);;
    let key := substring payload 0 8 in
    detached (searchAndOpenPDF key);;
    emit (SetTimeout 2000).

Definition scanTimeout : Act State unit := setScanned false.

(** [directoryPermission && loadPDFFilesFromDirectory(directoryPermission.directoryUri)]. *)
Definition refreshFiles : Act State unit :=
  permission ← gets directoryPermission;
  match permission with
  | Some d => loadPDFFilesFromDirectory (directoryUri d)
  | None => mret tt
  end.

End Handlers.

(** *** What [App] renders *)

Inductive Screen : Type :=
| LoadingScreen
| RequestingPermissionScreen
| PermissionDeniedScreen
| SetupScreen
| MainScreen (onBarcodeScanned : bool) (flashlightButton : bool).

Definition render (s : State) : Screen :=
  if isLoading s then LoadingScreen
  else match hasPermission s with
       | None => RequestingPermissionScreen
       | Some false => PermissionDeniedScreen
       | Some true =>
           if negb (isGranted (directoryPermission s)) then SetupScreen
           else MainScreen (negb (scanned s)) (negb (isProcessing s))
       end.

Definition handlerAttached (v : Screen) : bool :=
  match v with
  | MainScreen attached _ => attached
  | _ => false
  end.

(** *** The component as a state machine *)

Inductive UiEvent : Type :=
| Mount
| BarcodeScanned (payload : jsstring)
| PressGrantPermission
| PressSelectFolder
| PressRefresh
| PressFlashlight
| PressAlertButton (cb : Callback)
| TimeoutFired.

Definition enabled (s : State) (ev : UiEvent) : bool :=
  match ev, render s with
  | Mount, _ => false
  | BarcodeScanned _, v => handlerAttached v
  | PressGrantPermission, PermissionDeniedScreen => true
  | PressSelectFolder, SetupScreen => true
  | PressSelectFolder, MainScreen _ _ => true
  | PressRefresh, MainScreen _ _ => true
  | PressFlashlight, MainScreen _ flashlightButton => flashlightButton
  | PressAlertButton _, _ => true
  | TimeoutFired, _ => true
  | _, _ => false
  end.

Definition dispatch (w : World) (ev : UiEvent) : Act State unit :=
  match ev with
  | Mount =>
      detached (getCameraPermissions w);;
      detached (loadSavedDirectory w);;
      detached loadLastScan
  | BarcodeScanned payload => handleBarCodeScanned w payload
  | PressGrantPermission => detached (getCameraPermissions w)
  | PressSelectFolder => detached (requestDirectoryPermission w)
  | PressRefresh => detached (refreshFiles w)
  | PressFlashlight => toggleFlashlight
  | PressAlertButton CbRefreshFiles => detached (refreshFiles w)
  | PressAlertButton _ => mret tt
  | TimeoutFired => scanTimeout
  end.

Inductive reachable : State -> Prop :=
| reach_mount disk w :
    reachable (exec (dispatch w Mount) (initial disk))
| reach_step s w ev :
    reachable s -> enabled s ev = true ->
    reachable (exec (dispatch w ev) s).

End Saf.

(** ** Vocabulary of the properties *)

(** The keys of the index queries in a trace. *)
Definition queries (t : list Effect) : list jsstring :=
  omap (fun e => match e with Query k => Some k | _ => None end) t.

(** The documents handed to the launcher in a trace. *)
Definition launches (t : list Effect) : list jsstring :=
  omap (fun e => match e with StartActivity _ d _ _ => Some d | _ => None end) t.

(** The alerts shown in a trace. *)
Definition alerts (t : list Effect) : list string :=
  omap (fun e => match e with Alert title _ _ => Some title | _ => None end) t.

(** Equality of two strings under case-insensitive comparison, as the
    program compares them: their lower-case forms are the same string. *)
Definition same_ignoring_case (lower : jsstring -> jsstring) (a b : jsstring)
  : Prop :=
  lower a = lower b.


(** The file name of a document URI matches the key: without regard to
    case it is the key followed by [.pdf]. *)
Definition names_key (w : Saf.World) (key target : jsstring) : Prop :=
  Saf.toLowerCase w (Saf.getStringAfterLastSlash target)
  = Saf.toLowerCase w key ++ lit ".pdf".

(** The documents a search of the picker-based application hands to the
    launcher, read off the answers of the platform. *)
Definition picker_launched (w : Picker.World) (files : list Picker.PDFFile)
  (key : jsstring) : list jsstring :=
  match Picker.findMatchingFile w files key with
  | Some f =>
      match Picker.getInfoAsync w (Picker.uri f), Picker.Platform_OS w with
      | Ok true, android => [Picker.uri f]
      | _, _ => []
      end
  | None => []
  end.

(** The titles of the alerts a search of the picker-based application
    shows. *)
Definition picker_alerted (w : Picker.World) (files : list Picker.PDFFile)
  (key : jsstring) : list string :=
  match files with
  | [] => ["No PDFs Available"%string]
  | _ :: _ =>
      match Picker.findMatchingFile w files key with
      | None => ["File Not Found"%string]
      | Some f =>
          match Picker.getInfoAsync w (Picker.uri f) with
          | Thrown => ["Error"%string]
          | Ok false => ["File Not Found"%string]
          | Ok true =>
              match Picker.Platform_OS w with
              | android =>
                  match Picker.startActivityAsync w (Picker.uri f) with
                  | Ok _ => []
                  | Thrown => ["Error"%string]
                  end
              | _ =>
                  match Picker.getDocumentAsync w with
                  | Thrown => ["Error"%string]
                  | Ok Picker.Canceled => ["Open PDF"%string]
                  | Ok (Picker.Picked _) => []
                  end
              end
          end
      end
  end.

(** The same two tables for the storage-access-framework application. *)
Definition saf_launched (w : Saf.World) (s : Saf.State) (key : jsstring)
  : list jsstring :=
  if Saf.isGranted (Saf.directoryPermission s) then
    match List.filter (Saf.matchesBarcode w key) (Saf.pdfFiles s),
          Saf.Platform_OS w with
    | first :: _, android => [first]
    | _, _ => []
    end
  else [].

(** The titles of the alerts a search of that application shows. *)
Definition saf_alerted (w : Saf.World) (s : Saf.State) (key : jsstring)
  : list string :=
  if negb (Saf.isGranted (Saf.directoryPermission s))
     || (length (Saf.pdfFiles s) =? 0)%nat
  then ["No PDFs Available"%string]
  else
    match List.filter (Saf.matchesBarcode w key) (Saf.pdfFiles s) with
    | [] => ["File Not Found"%string]
    | first :: _ =>
        match Saf.Platform_OS w with
        | android =>
            match Saf.startActivityAsync w first with
            | Ok _ => []
            | Thrown => ["Error"%string]
            end
        | _ => []
        end
    end.



(** Neither a query of the index nor a launch. *)
Definition quiet (t : list Effect) : Prop := queries t = [] /\ launches t = [].

(** A [.pdf] extension in any letter case. *)
Definition pdf_extension (ext : jsstring) : Prop :=
  exists p d f,
    ext = [46; p; d; f]
    /\ (p = 80 \/ p = 112) /\ (d = 68 \/ d = 100) /\ (f = 70 \/ f = 102).

(** [stem] is [filename] with one trailing extension removed: what precedes
    the extension when the name ends in one, the whole name otherwise. *)
Definition stem_of (filename stem : jsstring) : Prop :=
  (exists ext, pdf_extension ext /\ filename = stem ++ ext)
  \/ (stem = filename
      /\ ~ exists before ext, pdf_extension ext /\ filename = before ++ ext).

(** The code unit of an ASCII digit or letter. *)
Definition ascii_letter_or_digit (c : N) : Prop :=
  48 <= c <= 57 \/ 65 <= c <= 90 \/ 97 <= c <= 122.

(** A non-empty string of ASCII letters and digits. *)
Definition alphanumeric (s : jsstring) : Prop :=
  s <> [] /\ Forall ascii_letter_or_digit s.

(** The asset's URI is already in the list. *)
Definition alreadyListed (files : list Picker.PDFFile)
  (asset : Picker.DocumentPickerAsset) : bool :=
  bool_decide (Picker.assetUri asset ∈ Picker.uri <$> files).

(** The asset's file name has an alphanumeric stem. *)
Definition wellNamed (asset : Picker.DocumentPickerAsset) : bool :=
  match Picker.extractBarcodeFromFilename (Picker.fileNameOf asset) with
  | Some _ => true
  | None => false
  end.

(** The entry made for an asset. *)
Definition entryOf (asset : Picker.DocumentPickerAsset) : Picker.PDFFile :=
  Picker.MkPDFFile
    (Picker.fileNameOf asset) (Picker.assetUri asset)
    (default 0 (Picker.assetSize asset))
    (default [] (Picker.extractBarcodeFromFilename (Picker.fileNameOf asset))).

(** The asset is given an entry: it is new and well named. *)
Definition accepted (files : list Picker.PDFFile)
  (asset : Picker.DocumentPickerAsset) : bool :=
  negb (alreadyListed files asset) && wellNamed asset.

(** The asset is new and badly named. *)
Definition rejectedAsInvalid (files : list Picker.PDFFile)
  (asset : Picker.DocumentPickerAsset) : bool :=
  negb (alreadyListed files asset) && negb (wellNamed asset).

(** The assets of the pick that an add operation receives. *)
Definition picked (w : Picker.World) : list Picker.DocumentPickerAsset :=
  match Picker.getDocumentAsync w with
  | Ok (Picker.Picked assets) => assets
  | _ => []
  end.

(** The state after a sequence of add operations, one pick each. *)
Definition after_adds (picks : list Picker.World) (s : Picker.State)
  : Picker.State :=
  foldl (fun st w => exec (Picker.addPDFFiles w) st) s picks.

(** An entry made for an asset: its name is its alphanumeric barcode stem,
    alone or followed by a [.pdf] extension in any letter case. *)
Definition named_by_stem (f : Picker.PDFFile) : Prop :=
  alphanumeric (Picker.barcode f)
  /\ (Picker.name f = Picker.barcode f
      \/ exists ext, pdf_extension ext
                     /\ Picker.name f = Picker.barcode f ++ ext).

(** *** Reading back what was written *)

Import JSON.

(** The text after a numeral does not continue it. *)
Definition ends_numeral (rest : jsstring) : Prop :=
  match rest with
  | [] => True
  | c :: _ => is_digit c = false /\ starts_fraction rest = false
  end.

(** The first character of a numeral: a digit or the minus sign. *)
Definition starts_numeral (c : N) : Prop := c = 45 \/ is_digit c = true.

(** What reading makes of the rest of the input, with [c] put in front. *)
Definition cons_result (c : N) (r : option (jsstring * jsstring))
  : option (jsstring * jsstring) :=
  match r with
  | Some (str, rest) => Some (c :: str, rest)
  | None => None
  end.

(** The text of the elements of an array after the first. *)
Fixpoint elements_tail (l : list value) : jsstring :=
  match l with
  | [] => []
  | x :: l' => 44 :: stringify x ++ elements_tail l'
  end.

(** The text of one member. *)
Definition member_text (kv : jsstring * value) : jsstring :=
  quote kv.1 ++ 58 :: stringify kv.2.

(** The text of the members after the first. *)
Fixpoint members_tail (l : list (jsstring * value)) : jsstring :=
  match l with
  | [] => []
  | kv :: l' => 44 :: member_text kv ++ members_tail l'
  end.

(** The first character of the text of a value is no white space and none
    of the separators. *)
Definition value_head (c : N) : Prop :=
  is_ws c = false
  /\ c <> 93 /\ c <> 125 /\ c <> 44 /\ c <> 58.

(** What is proved of every value: its text, followed by text that does not
    continue a numeral, is read back as the value, with fuel for its
    length. *)
Definition reads_back (v : value) : Prop :=
  wf v = true ->
  forall fuel rest,
    (length (stringify v) <= fuel)%nat -> ends_numeral rest ->
    parse_value fuel (stringify v ++ rest) = Some (v, rest).

(** ** Concrete devices, files and scans *)

Module Demo.

(** Lower-casing of the ASCII letters, which is what [toLowerCase] does on
    the ASCII strings of these examples. *)
Definition ascii_lower (s : jsstring) : jsstring :=
  (fun c => if (65 <=? c) && (c <=? 90) then c + 32 else c) <$> s.

Definition manual : Picker.PDFFile :=
  Picker.MkPDFFile (lit "AB123456.pdf") (lit "content://documents/AB123456.pdf")
                   2048 (lit "AB123456").

(** A scanned payload of 14 characters whose first 8 are the barcode of
    [manual] in lower case, and one of 13 characters. *)
Definition payload : jsstring := lit "ab123456000017".
Definition short_payload : jsstring := lit "ab12345600001".

(** A device on which every file exists and every launch succeeds. *)
Definition device (os : PlatformOS) : Picker.World :=
  Picker.MkWorld os 1700000000000 ascii_lower (Ok true) (fun _ => Ok true)
                 (fun _ => Ok tt) (Ok (Picker.Picked [])).

(** A device whose user denies the camera permission. *)
Definition denying : Picker.World :=
  Picker.MkWorld android 1700000000000 ascii_lower (Ok false) (fun _ => Ok true)
                 (fun _ => Ok tt) (Ok Picker.Canceled).

(** The camera screen with [manual] in the file list. *)
Definition scanning : Picker.State :=
  Picker.MkState (Some true) false [manual] false None false false ∅.

Definition folder : jsstring := lit "content://tree/primary%3ADocs".

Definition listed : jsstring :=
  lit "content://tree/primary%3ADocs/document/primary%3ADocs%2FAB123456.pdf".

Definition saf_device (os : PlatformOS) : Saf.World :=
  Saf.MkWorld os 1700000000000 ascii_lower (Ok true)
              (Ok (Saf.MkDirectoryPermission true folder))
              (fun _ => Ok [listed]) (fun _ => Ok tt).

Definition saf_scanning : Saf.State :=
  Saf.MkState (Some true) false false None false
              (Some (Saf.MkDirectoryPermission true folder)) [listed] false ∅.

(** A picked document whose name has no extension. *)
Definition bare : Picker.DocumentPickerAsset :=
  Picker.MkAsset (lit "12345") (lit "content://documents/12345") None.

(** The document of [manual] picked again after it was renamed. *)
Definition renamed : Picker.DocumentPickerAsset :=
  Picker.MkAsset (lit "pump manual.pdf") (lit "content://documents/AB123456.pdf")
                 (Some 2048).

(** The answer of a document picker. *)
Definition picking (assets : list Picker.DocumentPickerAsset) : Picker.World :=
  Picker.MkWorld android 1700000000000 ascii_lower (Ok true) (fun _ => Ok true)
                 (fun _ => Ok tt) (Ok (Picker.Picked assets)).

(** Documents with pairwise different URIs, all named [1.pdf]. *)
Definition numbered (i : nat) : Picker.DocumentPickerAsset :=
  Picker.MkAsset (lit "1.pdf")
                 (lit "content://documents/" ++ decimal (N.of_nat i)) None.

(** The state after the mount effect on a device that denies the camera. *)
Definition denied : Picker.State :=
  exec (Picker.dispatch denying Picker.Mount) (Picker.initial ∅).


(** The state after picking [bare], once and twice in one pick, from the
    empty list. *)
Definition after_bare : Picker.State :=
  exec (Picker.addPDFFiles (picking [bare])) (Picker.initial ∅).

Definition after_twice : Picker.State :=
  exec (Picker.addPDFFiles (picking [bare; bare])) (Picker.initial ∅).

(** A directory that lists a PDF and a text file. *)
Definition mixed_folder : Saf.World :=
  Saf.MkWorld android 1700000000000 ascii_lower (Ok true)
              (Ok (Saf.MkDirectoryPermission true folder))
              (fun _ => Ok [listed; lit "content://tree/notes.txt"])
              (fun _ => Ok tt).

End Demo.

(** ** Vocabulary of the further properties *)

(** [getInfoAsync] answers that the file of an entry exists. *)
Definition stillExists (w : Picker.World) (f : Picker.PDFFile) : bool :=
  match Picker.getInfoAsync w (Picker.uri f) with
  | Ok true => true
  | _ => false
  end.


(** [pat] occurs in [s], at some index. *)
Definition occurs_in (pat s : jsstring) : Prop :=
  exists k : nat, startsWith (drop k s) pat = true.

(** ** Examples for the further properties *)

Module Tour.

(** A storage that holds the written list of one file. *)
Definition saved : Picker.State :=
  Picker.initial (<[Picker.STORAGE_KEY :=
                      Picker.stringify_files [Demo.manual]]> ∅).

(** The picker-based application after its mount effect on an empty
    storage, and after one document without extension was added from its
    setup screen. *)
Definition mounted : Picker.State :=
  exec (Picker.dispatch (Demo.device android) Picker.Mount) (Picker.initial ∅).

Definition added : Picker.State :=
  exec (Picker.dispatch (Demo.picking [Demo.bare]) Picker.PressAddFiles) mounted.

(** A picked document named by a barcode. *)
Definition document : Picker.DocumentPickerAsset :=
  Picker.MkAsset (lit "AB123456.pdf") (lit "content://documents/AB123456.pdf")
                 (Some 2048).

(** A URI that no entry carries. *)
Definition elsewhere : jsstring := lit "content://documents/none".

(** The part of [Demo.listed] before its last encoded slash. *)
Definition tree : jsstring :=
  lit "content://tree/primary%3ADocs/document/primary%3ADocs".

(** Devices on which the camera permission request fails. *)
Definition camera_failing : Picker.World :=
  Picker.MkWorld android 1700000000000 Demo.ascii_lower Thrown
                 (fun _ => Ok true) (fun _ => Ok tt) (Ok Picker.Canceled).

Definition saf_camera_failing : Saf.World :=
  Saf.MkWorld android 1700000000000 Demo.ascii_lower Thrown
              (Ok (Saf.MkDirectoryPermission true Demo.folder))
              (fun _ => Ok [Demo.listed]) (fun _ => Ok tt).

Definition stuck : Picker.State :=
  exec (Picker.dispatch camera_failing Picker.Mount) (Picker.initial ∅).

Definition saf_stuck : Saf.State :=
  exec (Saf.dispatch saf_camera_failing Saf.Mount) (Saf.initial ∅).

(** A device whose user leaves the folder dialog without granting access,
    and one whose directory cannot be read. *)
Definition refusing : Saf.World :=
  Saf.MkWorld android 1700000000000 Demo.ascii_lower (Ok true)
              (Ok (Saf.MkDirectoryPermission false []))
              (fun _ => Ok []) (fun _ => Ok tt).

Definition unreadable : Saf.World :=
  Saf.MkWorld android 1700000000000 Demo.ascii_lower (Ok true)
              (Ok (Saf.MkDirectoryPermission true Demo.folder))
              (fun _ => Thrown) (fun _ => Ok tt).

End Tour.

(** * Properties *)

(** ** Strings *)

Lemma substring_prefix (s : jsstring) (n : nat) : substring s 0 n = take n s.
Proof.
  unfold substring. cbn [Nat.min drop].
  rewrite Nat.max_0_l, Nat.sub_0_r.
  destruct (Nat.le_gt_cases n (length s)) as [Hle | Hgt].
  - rewrite Nat.min_l by exact Hle. reflexivity.
  - rewrite Nat.min_r by lia. rewrite (take_ge s n) by lia. apply take_ge. lia.
Qed.

(** ** Traces *)

(** Symbolic execution of a handler: the combinators are unfolded and the
    state projections are reduced; what remains are the tests on the state
    and on the answers of the platform. *)
Ltac run_act :=
  cbv beta iota zeta delta
    [mbind act_bind bind mret act_ret ret emit gets modify settle
     try_catch finally when detached trace exec outcome];
  cbn [fst snd app
       Picker.hasPermission Picker.scanned Picker.pdfFiles Picker.isLoading
       Picker.lastScan Picker.isProcessing Picker.isManaging Picker.storage
       Saf.hasPermission Saf.scanned Saf.isLoading Saf.lastScan
       Saf.isProcessing Saf.directoryPermission Saf.pdfFiles
       Saf.isFlashlightOn Saf.storage].

Lemma picker_search_queries w key s :
  queries (trace (Picker.searchAndOpenPDF w key) s) = [key].
Proof.
  unfold Picker.searchAndOpenPDF, Picker.openPDFWithIntent,
    Picker.setIsProcessing. run_act.
  destruct (length (Picker.pdfFiles s) =? 0)%nat; run_act; [reflexivity|].
  destruct (Picker.findMatchingFile w (Picker.pdfFiles s) key) as [f|]; run_act.
  - destruct (Picker.getInfoAsync w (Picker.uri f)) as [[]|]; run_act;
      try reflexivity.
    destruct (Picker.Platform_OS w); run_act.
    all: try (destruct (Picker.startActivityAsync w (Picker.uri f)); run_act; reflexivity).
    all: destruct (Picker.getDocumentAsync w) as [[]|]; run_act; reflexivity.
  - reflexivity.
Qed.

Lemma saf_search_queries w key s :
  queries (trace (Saf.searchAndOpenPDF w key) s) = [key].
Proof.
  unfold Saf.searchAndOpenPDF, Saf.openPDFWithIntent, Saf.setIsProcessing.
  run_act.
  destruct (negb (Saf.isGranted (Saf.directoryPermission s))
            || (length (Saf.pdfFiles s) =? 0)%nat); run_act; [reflexivity|].
  destruct (List.filter (Saf.matchesBarcode w key) (Saf.pdfFiles s))
    as [|first rest]; run_act; [reflexivity|].
  destruct (Saf.Platform_OS w); run_act; try reflexivity.
  destruct (Saf.startActivityAsync w first); run_act; reflexivity.
Qed.

Lemma queries_app (t1 t2 : list Effect) :
  queries (t1 ++ t2) = queries t1 ++ queries t2.
Proof. apply omap_app. Qed.

(** The scan handler of the picker-based application, case by case. *)
Lemma picker_handle_cases w payload s :
  (Picker.scanned s || Picker.isProcessing s = true \/ length payload <> 14%nat) /\
    Picker.handleBarCodeScanned w payload s = (Ok tt, s, [])
  \/ (Picker.scanned s = false /\ Picker.isProcessing s = false /\
      length payload = 14%nat) /\
     exists s1 r s2 t,
       Picker.pdfFiles s1 = Picker.pdfFiles s /\
       Picker.storage s1 = Picker.storage s /\
       Picker.searchAndOpenPDF w (substring payload 0 8) s1 = (r, s2, t) /\
       Picker.handleBarCodeScanned w payload s
       = (Ok tt, s2, t ++ [SetTimeout 2000]).
Proof.
  unfold Picker.handleBarCodeScanned, Picker.setScanned, Picker.setLastScan.
  run_act.
  destruct (Picker.scanned s) eqn:Hsc, (Picker.isProcessing s) eqn:Hpr;
    cbn [orb]; try (left; split; [left|]; reflexivity).
  destruct (Nat.eqb_spec (length payload) 14) as [Hlen|Hlen]; cbn [negb].
  - right. split; [auto|].
    match goal with
    | |- context [Picker.searchAndOpenPDF w ?k ?st] =>
        exists st;
        destruct (Picker.searchAndOpenPDF w k st) as [[r s2] t] eqn:Hrun
    end.
    exists r, s2, t. repeat split.
    destruct r as [[]|]; run_act; rewrite ?app_nil_r; reflexivity.
  - left. split; [right; exact Hlen | reflexivity].
Qed.

(** The scan handler of the storage-access-framework application, case by
    case: it also saves the scan under [LAST_SCAN_KEY]. *)
Lemma saf_handle_cases w payload s :
  (Saf.scanned s || Saf.isProcessing s = true \/ length payload <> 14%nat) /\
    Saf.handleBarCodeScanned w payload s = (Ok tt, s, [])
  \/ (Saf.scanned s = false /\ Saf.isProcessing s = false /\
      length payload = 14%nat) /\
     exists s1 r s2 t,
       let saved := Saf.stringify_scan (Saf.MkScanResult payload (Saf.Date_now w)) in
       Saf.pdfFiles s1 = Saf.pdfFiles s /\
       Saf.directoryPermission s1 = Saf.directoryPermission s /\
       Saf.storage s1 = <[Saf.LAST_SCAN_KEY := saved]> (Saf.storage s) /\
       Saf.searchAndOpenPDF w (substring payload 0 8) s1 = (r, s2, t) /\
       Saf.handleBarCodeScanned w payload s
       = (Ok tt, s2, SetItem Saf.LAST_SCAN_KEY saved :: t ++ [SetTimeout 2000]).
Proof.
  unfold Saf.handleBarCodeScanned, Saf.setScanned, Saf.setLastScan,
    Saf.saveLastScan, Saf.AsyncStorage_setItem.
  run_act.
  destruct (Saf.scanned s) eqn:Hsc, (Saf.isProcessing s) eqn:Hpr;
    cbn [orb]; try (left; split; [left|]; reflexivity).
  destruct (Nat.eqb_spec (length payload) 14) as [Hlen|Hlen]; cbn [negb].
  - right. split; [auto|].
    match goal with
    | |- context [Saf.searchAndOpenPDF w ?k ?st] =>
        exists st;
        destruct (Saf.searchAndOpenPDF w k st) as [[r s2] t] eqn:Hrun
    end.
    exists r, s2, t. cbn zeta. repeat split.
    destruct r as [[]|]; run_act; rewrite ?app_nil_r; reflexivity.
  - left. split; [right; exact Hlen | reflexivity].
Qed.

(** C1. The scan handler acts only on a payload of exactly 14 characters,
    and the key with which it then queries the file index is the first 8
    characters of the payload: on a payload of another length it returns
    with the state unchanged and no platform call made; every query it makes
    is for that prefix of a 14-character payload; and when it is not already
    busy with a scan, a 14-character payload leads to exactly that one query.
    This holds in both variants of the application. *)
Theorem C1_scan_handler_length_and_key (payload : jsstring) :
  (forall w s,
      (length payload <> 14%nat ->
       Picker.handleBarCodeScanned w payload s = (Ok tt, s, []))
      /\ (forall key,
             key ∈ queries (trace (Picker.handleBarCodeScanned w payload) s) ->
             length payload = 14%nat /\ key = take 8 payload /\ length key = 8%nat)
      /\ (length payload = 14%nat ->
          Picker.scanned s = false -> Picker.isProcessing s = false ->
          queries (trace (Picker.handleBarCodeScanned w payload) s)
          = [take 8 payload]))
  /\
  (forall w s,
      (length payload <> 14%nat ->
       Saf.handleBarCodeScanned w payload s = (Ok tt, s, []))
      /\ (forall key,
             key ∈ queries (trace (Saf.handleBarCodeScanned w payload) s) ->
             length payload = 14%nat /\ key = take 8 payload /\ length key = 8%nat)
      /\ (length payload = 14%nat ->
          Saf.scanned s = false -> Saf.isProcessing s = false ->
          queries (trace (Saf.handleBarCodeScanned w payload) s)
          = [take 8 payload])).
Proof.
  split; intros w s.
  - assert (Hq : forall s1 r s2 t,
               Picker.searchAndOpenPDF w (substring payload 0 8) s1 = (r, s2, t) ->
               queries (t ++ [SetTimeout 2000]) = [take 8 payload]).
    { intros s1 r s2 t Hrun.
      pose proof (picker_search_queries w (substring payload 0 8) s1) as Hk.
      unfold trace in Hk. rewrite Hrun in Hk. cbn [snd] in Hk.
      rewrite queries_app, Hk, substring_prefix. reflexivity. }
    destruct (picker_handle_cases w payload s)
      as [[Hidle Hrun] | [(Hsc & Hpr & Hlen) (s1 & r & s2 & t & _ & _ & Hs & Hrun)]].
    + split; [intros _; exact Hrun|]. split.
      * intros key Hin. unfold trace in Hin. rewrite Hrun in Hin.
        inversion Hin.
      * intros Hlen Hsc Hpr. destruct Hidle as [Hbusy | Hne]; [|contradiction].
        rewrite Hsc, Hpr in Hbusy. discriminate.
    + assert (Hkeys : queries (trace (Picker.handleBarCodeScanned w payload) s)
                      = [take 8 payload]).
      { unfold trace. rewrite Hrun. cbn [snd]. eapply Hq, Hs. }
      split; [intros Hne; contradiction|]. split.
      * intros key Hin. rewrite Hkeys in Hin. apply list_elem_of_singleton in Hin.
        subst key. repeat split; [exact Hlen|]. rewrite length_take. lia.
      * intros _ _ _. exact Hkeys.
  - assert (Hq : forall s1 r s2 t v,
               Saf.searchAndOpenPDF w (substring payload 0 8) s1 = (r, s2, t) ->
               queries (SetItem Saf.LAST_SCAN_KEY v :: t ++ [SetTimeout 2000])
               = [take 8 payload]).
    { intros s1 r s2 t v Hrun.
      pose proof (saf_search_queries w (substring payload 0 8) s1) as Hk.
      unfold trace in Hk. rewrite Hrun in Hk. cbn [snd] in Hk.
      change (queries (SetItem Saf.LAST_SCAN_KEY v :: t ++ [SetTimeout 2000]))
        with (queries (t ++ [SetTimeout 2000])).
      rewrite queries_app, Hk, substring_prefix. reflexivity. }
    destruct (saf_handle_cases w payload s)
      as [[Hidle Hrun] | [(Hsc & Hpr & Hlen) (s1 & r & s2 & t & _ & _ & _ & Hs & Hrun)]].
    + split; [intros _; exact Hrun|]. split.
      * intros key Hin. unfold trace in Hin. rewrite Hrun in Hin.
        inversion Hin.
      * intros Hlen Hsc Hpr. destruct Hidle as [Hbusy | Hne]; [|contradiction].
        rewrite Hsc, Hpr in Hbusy. discriminate.
    + assert (Hkeys : queries (trace (Saf.handleBarCodeScanned w payload) s)
                      = [take 8 payload]).
      { unfold trace. rewrite Hrun. cbn [snd]. eapply Hq, Hs. }
      split; [intros Hne; contradiction|]. split.
      * intros key Hin. rewrite Hkeys in Hin. apply list_elem_of_singleton in Hin.
        subst key. repeat split; [exact Hlen|]. rewrite length_take. lia.
      * intros _ _ _. exact Hkeys.
Qed.

(** ** The lookup *)

Lemma str_eqb_eq (a b : jsstring) : str_eqb a b = true <-> a = b.
Proof. unfold str_eqb. apply bool_decide_eq_true. Qed.

Lemma str_eqb_neq (a b : jsstring) : str_eqb a b = false <-> a <> b.
Proof. unfold str_eqb. apply bool_decide_eq_false. Qed.

Section LinearScan.
Context {A : Type} (p : A -> bool).

(** [find] stops at the first element that satisfies the test. *)
Lemma find_first (l : list A) (x : A) :
  List.find p l = Some x <->
  exists before after,
    l = before ++ x :: after /\ p x = true
    /\ Forall (fun y => p y = false) before.
Proof.
  induction l as [|a l IH]; cbn [List.find].
  - split; [discriminate|]. intros (before & after & Heq & _).
    destruct before; discriminate.
  - destruct (p a) eqn:Hpa.
    + split.
      * intros [= <-]. exists [], l. repeat split; [exact Hpa | constructor].
      * intros (before & after & Heq & Hpx & Hbefore).
        destruct before as [|b before]; cbn in Heq.
        -- injection Heq as -> _. reflexivity.
        -- injection Heq as -> _. inversion Hbefore; congruence.
    + rewrite IH. split.
      * intros (before & after & -> & Hpx & Hbefore).
        exists (a :: before), after. repeat split; [exact Hpx|].
        constructor; assumption.
      * intros (before & after & Heq & Hpx & Hbefore).
        destruct before as [|b before]; cbn in Heq.
        -- injection Heq as -> _. congruence.
        -- injection Heq as -> ->. exists before, after.
           repeat split; [exact Hpx|]. inversion Hbefore; assumption.
Qed.



End LinearScan.




(** ** What a search shows and launches *)

(** A search of the picker-based application ends normally, leaves the file
    list and the storage as they were, and shows and launches what the two
    tables say. *)
Lemma picker_search_summary w key s :
  let search := Picker.searchAndOpenPDF w key in
  outcome search s = Ok tt
  /\ Picker.pdfFiles (exec search s) = Picker.pdfFiles s
  /\ Picker.storage (exec search s) = Picker.storage s
  /\ launches (trace search s) = picker_launched w (Picker.pdfFiles s) key
  /\ alerts (trace search s) = picker_alerted w (Picker.pdfFiles s) key.
Proof.
  unfold Picker.searchAndOpenPDF, Picker.openPDFWithIntent,
    Picker.setIsProcessing, picker_launched, picker_alerted.
  run_act.
  destruct (Picker.pdfFiles s) as [|f0 files] eqn:Hfiles; cbn [length Nat.eqb].
  { run_act. rewrite Hfiles. repeat split. }
  destruct (Picker.findMatchingFile w (f0 :: files) key) as [f|]; run_act;
    [|rewrite ?Hfiles; repeat split].
  destruct (Picker.getInfoAsync w (Picker.uri f)) as [[]|]; run_act.
  2,3: rewrite ?Hfiles; repeat split; destruct (Picker.Platform_OS w); reflexivity.
  destruct (Picker.Platform_OS w); run_act.
  all: try (destruct (Picker.startActivityAsync w (Picker.uri f)) as [[]|];
            run_act; rewrite ?Hfiles; repeat split; fail).
  all: destruct (Picker.getDocumentAsync w) as [[]|]; run_act;
    rewrite ?Hfiles; repeat split.
Qed.

Lemma saf_search_summary w key s :
  let search := Saf.searchAndOpenPDF w key in
  outcome search s = Ok tt
  /\ Saf.pdfFiles (exec search s) = Saf.pdfFiles s
  /\ Saf.storage (exec search s) = Saf.storage s
  /\ launches (trace search s) = saf_launched w s key
  /\ alerts (trace search s) = saf_alerted w s key.
Proof.
  unfold Saf.searchAndOpenPDF, Saf.openPDFWithIntent, Saf.setIsProcessing,
    saf_launched, saf_alerted.
  run_act.
  destruct (Saf.isGranted (Saf.directoryPermission s)); cbn [negb orb];
    [|run_act; repeat split].
  destruct (Saf.pdfFiles s) as [|u0 files] eqn:Hfiles; cbn [length Nat.eqb].
  { run_act. rewrite Hfiles. repeat split. }
  destruct (List.filter (Saf.matchesBarcode w key) (u0 :: files))
    as [|first rest]; run_act.
  { rewrite ?Hfiles. repeat split. }
  destruct (Saf.Platform_OS w); run_act;
    try (rewrite ?Hfiles; repeat split; fail).
  destruct (Saf.startActivityAsync w first) as [[]|]; run_act;
    rewrite ?Hfiles; repeat split.
Qed.

Lemma launches_app (t1 t2 : list Effect) :
  launches (t1 ++ t2) = launches t1 ++ launches t2.
Proof. apply omap_app. Qed.

Lemma alerts_app (t1 t2 : list Effect) :
  alerts (t1 ++ t2) = alerts t1 ++ alerts t2.
Proof. apply omap_app. Qed.


(** A scan that is acted on launches and shows what the search for the
    first 8 characters launches and shows. *)
Lemma picker_scan_summary w payload s :
  Picker.scanned s = false -> Picker.isProcessing s = false ->
  length payload = 14%nat ->
  let t := trace (Picker.handleBarCodeScanned w payload) s in
  launches t = picker_launched w (Picker.pdfFiles s) (take 8 payload)
  /\ alerts t = picker_alerted w (Picker.pdfFiles s) (take 8 payload).
Proof.
  intros Hsc Hpr Hlen. unfold trace.
  destruct (picker_handle_cases w payload s)
    as [[[Hbusy | Hne] _] | [_ (s1 & r & s2 & t & Hf & _ & Hs & ->)]].
  - rewrite Hsc, Hpr in Hbusy. discriminate.
  - contradiction.
  - pose proof (picker_search_summary w (substring payload 0 8) s1) as Hsum.
    unfold outcome, exec, trace in Hsum. rewrite Hs in Hsum.
    cbn [fst snd] in Hsum.
    destruct Hsum as (_ & _ & _ & Hl & Ha).
    cbn zeta. cbn [snd]. rewrite launches_app, alerts_app, Hl, Ha, Hf, substring_prefix.
    cbn. rewrite !app_nil_r. split; reflexivity.
Qed.


Lemma saf_scan_summary w payload s :
  Saf.scanned s = false -> Saf.isProcessing s = false ->
  length payload = 14%nat ->
  let t := trace (Saf.handleBarCodeScanned w payload) s in
  launches t = saf_launched w s (take 8 payload)
  /\ alerts t = saf_alerted w s (take 8 payload).
Proof.
  intros Hsc Hpr Hlen. unfold trace.
  destruct (saf_handle_cases w payload s)
    as [[[Hbusy | Hne] _] | [_ (s1 & r & s2 & t & Hf & Hd & _ & Hs & ->)]].
  - rewrite Hsc, Hpr in Hbusy. discriminate.
  - contradiction.
  - pose proof (saf_search_summary w (substring payload 0 8) s1) as Hsum.
    unfold outcome, exec, trace in Hsum. rewrite Hs in Hsum.
    cbn [fst snd] in Hsum.
    destruct Hsum as (_ & _ & _ & Hl & Ha).
    cbn zeta. cbn [snd].
    change (launches (SetItem ?k ?v :: ?t)) with (launches t).
    change (alerts (SetItem ?k ?v :: ?t)) with (alerts t).
    rewrite launches_app, alerts_app, Hl, Ha, substring_prefix.
    unfold saf_launched, saf_alerted. rewrite Hf, Hd.
    cbn. rewrite !app_nil_r. split; reflexivity.
Qed.

(** C5 (as amended). On Android, whenever the lookup of a scan finds a
    matching file and that file still exists, the launcher is invoked once,
    with the URI of the matched entry; and on every platform a document
    handed to the launcher during a scan is the URI of the entry the lookup
    found. (The storage-access-framework variant launches the first match
    without asking whether the file exists.) *)
Theorem C5_android_launches_matched_uri :
  (forall (w : Picker.World) s payload f,
      Picker.Platform_OS w = android ->
      Picker.scanned s = false -> Picker.isProcessing s = false ->
      length payload = 14%nat ->
      Picker.findMatchingFile w (Picker.pdfFiles s) (take 8 payload) = Some f ->
      Picker.getInfoAsync w (Picker.uri f) = Ok true ->
      launches (trace (Picker.handleBarCodeScanned w payload) s) = [Picker.uri f])
  /\
  (forall (w : Saf.World) s payload target,
      Saf.Platform_OS w = android ->
      Saf.scanned s = false -> Saf.isProcessing s = false ->
      length payload = 14%nat ->
      Saf.isGranted (Saf.directoryPermission s) = true ->
      head (List.filter (Saf.matchesBarcode w (take 8 payload)) (Saf.pdfFiles s))
      = Some target ->
      launches (trace (Saf.handleBarCodeScanned w payload) s) = [target])
  /\
  (forall (w : Picker.World) s payload u,
      u ∈ launches (trace (Picker.handleBarCodeScanned w payload) s) ->
      exists f,
        Picker.findMatchingFile w (Picker.pdfFiles s) (take 8 payload) = Some f
        /\ u = Picker.uri f)
  /\
  (forall (w : Saf.World) s payload u,
      u ∈ launches (trace (Saf.handleBarCodeScanned w payload) s) ->
      head (List.filter (Saf.matchesBarcode w (take 8 payload)) (Saf.pdfFiles s))
      = Some u).
Proof.
  split; [|split; [|split]].
  - intros w s payload f Hos Hsc Hpr Hlen Hfind Hinfo.
    destruct (picker_scan_summary w payload s Hsc Hpr Hlen) as [-> _].
    unfold picker_launched. rewrite Hfind, Hinfo, Hos. reflexivity.
  - intros w s payload target Hos Hsc Hpr Hlen Hgr Hhead.
    destruct (saf_scan_summary w payload s Hsc Hpr Hlen) as [-> _].
    unfold saf_launched. rewrite Hgr, Hos.
    destruct (List.filter _ _) as [|first rest]; [discriminate|].
    injection Hhead as ->. reflexivity.
  - intros w s payload u Hin.
    destruct (picker_handle_cases w payload s)
      as [[_ Hrun] | [(Hsc & Hpr & Hlen) _]].
    + unfold trace in Hin. rewrite Hrun in Hin. inversion Hin.
    + destruct (picker_scan_summary w payload s Hsc Hpr Hlen) as [Hl _].
      rewrite Hl in Hin. unfold picker_launched in Hin.
      destruct (Picker.findMatchingFile _ _ _) as [f|]; [|inversion Hin].
      exists f. split; [reflexivity|].
      destruct (Picker.getInfoAsync w (Picker.uri f)) as [[]|];
        destruct (Picker.Platform_OS w);
        first [ apply list_elem_of_singleton in Hin; exact Hin | inversion Hin ].
  - intros w s payload u Hin.
    destruct (saf_handle_cases w payload s)
      as [[_ Hrun] | [(Hsc & Hpr & Hlen) _]].
    + unfold trace in Hin. rewrite Hrun in Hin. inversion Hin.
    + destruct (saf_scan_summary w payload s Hsc Hpr Hlen) as [Hl _].
      rewrite Hl in Hin. unfold saf_launched in Hin.
      destruct (Saf.isGranted _); [|inversion Hin].
      destruct (List.filter _ _) as [|first rest]; [inversion Hin|].
      destruct (Saf.Platform_OS w);
        first [ apply list_elem_of_singleton in Hin; subst u; reflexivity
              | inversion Hin ].
Qed.


(** ** The permission gate *)

Lemma picker_add_quiet w s : quiet (trace (Picker.addPDFFiles w) s).
Proof.
  unfold Picker.addPDFFiles, Picker.setIsManaging, Picker.setPdfFiles,
    Picker.AsyncStorage_setItem, quiet.
  run_act.
  destruct (Picker.getDocumentAsync w) as [[|assets]|]; run_act;
    try (split; reflexivity).
  destruct (0 <? length assets)%nat; run_act; try (split; reflexivity).
  destruct (0 <? length (Picker.newFiles (Picker.visitAssets (Picker.pdfFiles s) assets)))%nat;
    run_act; split; reflexivity.
Qed.

Lemma picker_remove_quiet target s : quiet (trace (Picker.removePDFFile target) s).
Proof.
  unfold Picker.removePDFFile, Picker.setIsManaging, Picker.setPdfFiles,
    Picker.AsyncStorage_setItem, quiet.
  run_act.
  destruct (length _ =? 0)%nat; run_act; split; reflexivity.
Qed.

Lemma picker_permission_quiet w s : quiet (trace (Picker.getCameraPermissions w) s).
Proof.
  unfold Picker.getCameraPermissions, Picker.setHasPermission, quiet. run_act.
  destruct (Picker.requestCameraPermissionsAsync w); run_act; split; reflexivity.
Qed.

Lemma detached_trace {S} (m : Act S unit) (s : S) :
  trace (detached m) s = trace m s.
Proof.
  unfold detached, try_catch, trace. destruct (m s) as [[[[]|] s1] t1]; cbn.
  - reflexivity.
  - apply app_nil_r.
Qed.

(** Without the camera permission the picker-based application renders no
    camera view, and nothing that can happen queries or launches. *)
Lemma picker_gate s :
  Picker.hasPermission s <> Some true ->
  Picker.handlerAttached (Picker.render s) = false
  /\ forall w ev, Picker.enabled s ev = true ->
                  quiet (trace (Picker.dispatch w ev) s).
Proof.
  intros Hno.
  assert (Hscreen : Picker.render s = Picker.LoadingScreen
                    \/ Picker.render s = Picker.RequestingPermissionScreen
                    \/ Picker.render s = Picker.PermissionDeniedScreen).
  { unfold Picker.render. destruct (Picker.isLoading s); [auto|].
    destruct (Picker.hasPermission s) as [[]|]; [congruence | auto | auto]. }
  split.
  - destruct Hscreen as [-> | [-> | ->]]; reflexivity.
  - intros w ev Hen. unfold Picker.enabled in Hen.
    destruct ev as [|payload| | | |target|cb|]; cbn [Picker.dispatch].
    + discriminate.
    + destruct Hscreen as [H | [H | H]]; rewrite H in Hen; discriminate.
    + rewrite detached_trace. apply picker_permission_quiet.
    + destruct Hscreen as [H | [H | H]]; rewrite H in Hen; discriminate.
    + destruct Hscreen as [H | [H | H]]; rewrite H in Hen; discriminate.
    + destruct Hscreen as [H | [H | H]]; rewrite H in Hen; discriminate.
    + destruct cb as [|target|].
      * rewrite detached_trace. apply picker_add_quiet.
      * rewrite detached_trace. apply picker_remove_quiet.
      * split; reflexivity.
    + split; reflexivity.
Qed.

Lemma saf_load_quiet w directory s :
  quiet (trace (Saf.loadPDFFilesFromDirectory w directory) s).
Proof.
  unfold Saf.loadPDFFilesFromDirectory, Saf.setIsLoading, Saf.setPdfFiles, quiet.
  run_act.
  destruct (Saf.readDirectoryAsync w directory); run_act; split; reflexivity.
Qed.

Lemma saf_refresh_quiet w s : quiet (trace (Saf.refreshFiles w) s).
Proof.
  unfold Saf.refreshFiles. run_act.
  destruct (Saf.directoryPermission s) as [d|]; [|split; reflexivity].
  pose proof (saf_load_quiet w (Saf.directoryUri d) s) as H.
  unfold trace in H.
  destruct (Saf.loadPDFFilesFromDirectory w (Saf.directoryUri d) s) as [[r s1] t].
  exact H.
Qed.

Lemma saf_permission_quiet w s : quiet (trace (Saf.getCameraPermissions w) s).
Proof.
  unfold Saf.getCameraPermissions, Saf.setHasPermission, quiet. run_act.
  destruct (Saf.requestCameraPermissionsAsync w); run_act; split; reflexivity.
Qed.

Lemma saf_gate s :
  Saf.hasPermission s <> Some true ->
  Saf.handlerAttached (Saf.render s) = false
  /\ forall w ev, Saf.enabled s ev = true ->
                  quiet (trace (Saf.dispatch w ev) s).
Proof.
  intros Hno.
  assert (Hscreen : Saf.render s = Saf.LoadingScreen
                    \/ Saf.render s = Saf.RequestingPermissionScreen
                    \/ Saf.render s = Saf.PermissionDeniedScreen).
  { unfold Saf.render. destruct (Saf.isLoading s); [auto|].
    destruct (Saf.hasPermission s) as [[]|]; [congruence | auto | auto]. }
  split.
  - destruct Hscreen as [-> | [-> | ->]]; reflexivity.
  - intros w ev Hen. unfold Saf.enabled in Hen.
    destruct ev as [|payload| | | | |cb|]; cbn [Saf.dispatch].
    + discriminate.
    + destruct Hscreen as [H | [H | H]]; rewrite H in Hen; discriminate.
    + rewrite detached_trace. apply saf_permission_quiet.
    + destruct Hscreen as [H | [H | H]]; rewrite H in Hen; discriminate.
    + destruct Hscreen as [H | [H | H]]; rewrite H in Hen; discriminate.
    + destruct Hscreen as [H | [H | H]]; rewrite H in Hen; discriminate.
    + destruct cb as [|target|].
      * split; reflexivity.
      * split; reflexivity.
      * rewrite detached_trace. apply saf_refresh_quiet.
    + split; reflexivity.
Qed.

(** C8. In every reachable state in which the camera permission has not
    been granted ([hasPermission] is null or false) the scan handler is not
    attached, and no event that can occur there queries the file index or
    invokes the launcher. This holds in both variants. *)
Theorem C8_permission_gates_scanning :
  (forall s, Picker.reachable s -> Picker.hasPermission s <> Some true ->
             Picker.handlerAttached (Picker.render s) = false
             /\ (forall payload, Picker.enabled s (Picker.BarcodeScanned payload) = false)
             /\ forall w ev, Picker.enabled s ev = true ->
                             quiet (trace (Picker.dispatch w ev) s))
  /\
  (forall s, Saf.reachable s -> Saf.hasPermission s <> Some true ->
             Saf.handlerAttached (Saf.render s) = false
             /\ (forall payload, Saf.enabled s (Saf.BarcodeScanned payload) = false)
             /\ forall w ev, Saf.enabled s ev = true ->
                             quiet (trace (Saf.dispatch w ev) s)).
Proof.
  split; intros s _ Hno.
  - destruct (picker_gate s Hno) as [Hoff Hquiet].
    split; [exact Hoff|]. split; [|exact Hquiet].
    intros payload. exact Hoff.
  - destruct (saf_gate s Hno) as [Hoff Hquiet].
    split; [exact Hoff|]. split; [|exact Hquiet].
    intros payload. exact Hoff.
Qed.

(** ** File names *)

Lemma is_dot_pdf_spec (s : jsstring) : is_dot_pdf s = true <-> pdf_extension s.
Proof.
  unfold is_dot_pdf, pdf_extension, eq_ignore_case. split.
  - destruct s as [|c0 [|c1 [|c2 [|c3 [|]]]]]; try discriminate.
    rewrite !andb_true_iff, !orb_true_iff, !N.eqb_eq.
    intros [[[-> Hp] Hd] Hf]. exists c1, c2, c3. auto.
  - intros (p & d & f & -> & Hp & Hd & Hf).
    rewrite !andb_true_iff, !orb_true_iff, !N.eqb_eq. auto.
Qed.

Lemma pdf_extension_length (ext : jsstring) :
  pdf_extension ext -> length ext = 4%nat.
Proof. intros (p & d & f & -> & _). reflexivity. Qed.

Lemma replace_pdf_ext_stem (filename : jsstring) :
  stem_of filename (replace_pdf_ext filename).
Proof.
  induction filename as [|c rest IH]; cbn [replace_pdf_ext].
  - cbn. right. split; [reflexivity|].
    intros (before & ext & Hext & Heq).
    apply pdf_extension_length in Hext. destruct before, ext; discriminate.
  - destruct (is_dot_pdf (c :: rest)) eqn:Hdot.
    + left. exists (c :: rest). split; [apply is_dot_pdf_spec, Hdot | reflexivity].
    + destruct IH as [(ext & Hext & Heq) | [Heq Hnone]].
      * left. exists ext. split; [exact Hext|]. rewrite Heq at 1. reflexivity.
      * right. split; [rewrite Heq; reflexivity|].
        intros (before & ext & Hext & Hsplit).
        destruct before as [|b before]; cbn in Hsplit.
        -- subst ext. apply is_dot_pdf_spec in Hext. congruence.
        -- injection Hsplit as -> Hrest. apply Hnone. eauto.
Qed.

Lemma stem_of_unique (filename a b : jsstring) :
  stem_of filename a -> stem_of filename b -> a = b.
Proof.
  intros [(e1 & He1 & H1) | [H1 N1]] [(e2 & He2 & H2) | [H2 N2]].
  - apply pdf_extension_length in He1, He2.
    rewrite H1 in H2. apply app_inj_2 in H2; [tauto | congruence].
  - exfalso. apply N2. eauto.
  - exfalso. apply N1. eauto.
  - congruence.
Qed.

Lemma is_alnum_spec (c : N) : is_alnum c = true <-> ascii_letter_or_digit c.
Proof.
  unfold is_alnum, ascii_letter_or_digit.
  rewrite !orb_true_iff, !andb_true_iff, !N.leb_le. tauto.
Qed.

Lemma test_alnum_spec (s : jsstring) : test_alnum s = true <-> alphanumeric s.
Proof.
  unfold test_alnum, alphanumeric. destruct s as [|c s].
  - split; [discriminate | intros [H _]; congruence].
  - rewrite forallb_forall, List.Forall_forall. split.
    + intros H. split; [discriminate|]. intros x Hx. apply is_alnum_spec, H, Hx.
    + intros [_ H] x Hx. apply is_alnum_spec, H, Hx.
Qed.

(** [extractBarcodeFromFilename] returns the stem exactly when the stem is
    alphanumeric, and null otherwise. *)
Lemma extract_some (filename stem : jsstring) :
  Picker.extractBarcodeFromFilename filename = Some stem
  <-> stem_of filename stem /\ alphanumeric stem.
Proof.
  unfold Picker.extractBarcodeFromFilename.
  pose proof (replace_pdf_ext_stem filename) as Hstem.
  destruct (test_alnum (replace_pdf_ext filename)) eqn:Hal.
  - apply test_alnum_spec in Hal. split.
    + intros [= <-]. auto.
    + intros [Hs _]. f_equal. eapply stem_of_unique; eassumption.
  - split; [discriminate|]. intros [Hs Ha].
    rewrite (stem_of_unique _ _ _ Hs Hstem) in Ha.
    apply test_alnum_spec in Ha. congruence.
Qed.

Lemma extract_none (filename : jsstring) :
  Picker.extractBarcodeFromFilename filename = None
  <-> forall stem, stem_of filename stem -> ~ alphanumeric stem.
Proof.
  split.
  - intros Hnone stem Hs Ha.
    assert (H : Picker.extractBarcodeFromFilename filename = Some stem)
      by (apply extract_some; auto).
    congruence.
  - intros H.
    destruct (Picker.extractBarcodeFromFilename filename) as [stem|] eqn:He;
      [|reflexivity].
    apply extract_some in He as [Hs Ha]. destruct (H stem Hs Ha).
Qed.

(** With the lower-casing of ASCII letters the comparison of the
    storage-access-framework variant says that the file name is a stem that
    equals the key without regard to case, followed by a [.pdf] extension in
    any letter case. *)
Lemma names_key_ascii (w : Saf.World) (key target : jsstring) :
  Saf.toLowerCase w = Demo.ascii_lower ->
  names_key w key target
  <-> exists stem ext,
        Saf.getStringAfterLastSlash target = stem ++ ext
        /\ pdf_extension ext
        /\ same_ignoring_case Demo.ascii_lower stem key.
Proof.
  intros Hlower. unfold names_key, same_ignoring_case. rewrite Hlower.
  set (name := Saf.getStringAfterLastSlash target). clearbody name.
  unfold Demo.ascii_lower.
  set (low := fun c : N => if (65 <=? c) && (c <=? 90) then c + 32 else c).
  assert (Hlow : forall c k, low c = k ->
                             c = k \/ (c + 32 = k /\ 65 <= c <= 90)).
  { intros c k <-. unfold low.
    destruct ((65 <=? c) && (c <=? 90)) eqn:Hup; [|auto].
    apply andb_true_iff in Hup. rewrite !N.leb_le in Hup. auto. }
  split.
  - intros Heq.
    exists (take (length key) name), (drop (length key) name).
    split; [symmetry; apply take_drop|].
    assert (Hstem : low <$> take (length key) name = low <$> key).
    { rewrite fmap_take, Heq, take_app_length'; [reflexivity|].
      symmetry. apply length_fmap. }
    assert (Hext : low <$> drop (length key) name = lit ".pdf").
    { rewrite fmap_drop, Heq, drop_app_length'; [reflexivity|].
      symmetry. apply length_fmap. }
    split; [|exact Hstem].
    destruct (drop (length key) name) as [|c0 [|c1 [|c2 [|c3 [|c4 rest]]]]];
      try discriminate.
    injection Hext as H0 H1 H2 H3.
    apply Hlow in H0, H1, H2, H3.
    exists c1, c2, c3. repeat split; [f_equal| | |]; lia.
  - intros (stem & ext & -> & (p & d & f & -> & Hp & Hd & Hf) & Hstem).
    rewrite fmap_app, Hstem. f_equal.
    destruct Hp as [-> | ->], Hd as [-> | ->], Hf as [-> | ->]; reflexivity.
Qed.

(** ** The loop of [addPDFFiles] *)

Lemma truthy_extract (filename : jsstring) :
  truthy (Picker.extractBarcodeFromFilename filename)
  = match Picker.extractBarcodeFromFilename filename with
    | Some _ => true
    | None => false
    end.
Proof.
  destruct (Picker.extractBarcodeFromFilename filename) as [stem|] eqn:He;
    [|reflexivity].
  apply extract_some in He as [_ [Hne _]].
  destruct stem; [congruence | reflexivity].
Qed.

Lemma visitAsset_cases (files : list Picker.PDFFile) (t : Picker.Tally)
  (asset : Picker.DocumentPickerAsset) :
  Picker.visitAsset (list_to_set (Picker.uri <$> files)) t asset
  = if alreadyListed files asset then
      Picker.MkTally (Picker.newFiles t) (Picker.duplicateCount t + 1)
                     (Picker.invalidCount t)
    else if wellNamed asset then
      Picker.MkTally (Picker.newFiles t ++ [entryOf asset])
                     (Picker.duplicateCount t) (Picker.invalidCount t)
    else
      Picker.MkTally (Picker.newFiles t) (Picker.duplicateCount t)
                     (Picker.invalidCount t + 1).
Proof.
  unfold Picker.visitAsset, alreadyListed, wellNamed, entryOf.
  rewrite truthy_extract.
  assert (Hdec : bool_decide (Picker.assetUri asset
                              ∈ (list_to_set (Picker.uri <$> files) : gset jsstring))
                 = bool_decide (Picker.assetUri asset ∈ Picker.uri <$> files)).
  { apply bool_decide_ext, elem_of_list_to_set. }
  rewrite Hdec. reflexivity.
Qed.

Lemma visit_fold (files : list Picker.PDFFile)
  (assets : list Picker.DocumentPickerAsset) (t : Picker.Tally) :
  foldl (Picker.visitAsset (list_to_set (Picker.uri <$> files))) t assets
  = Picker.MkTally
      (Picker.newFiles t ++ (entryOf <$> List.filter (accepted files) assets))
      (Picker.duplicateCount t
       + N.of_nat (length (List.filter (alreadyListed files) assets)))
      (Picker.invalidCount t
       + N.of_nat (length (List.filter (rejectedAsInvalid files) assets))).
Proof.
  revert t. induction assets as [|a assets IH]; intros t; cbn [foldl List.filter].
  - cbn. rewrite app_nil_r, !N.add_0_r. destruct t; reflexivity.
  - rewrite IH, visitAsset_cases. unfold accepted, rejectedAsInvalid.
    destruct (alreadyListed files a); cbn [negb andb].
    + cbn [Picker.newFiles Picker.duplicateCount Picker.invalidCount length].
      f_equal. lia.
    + destruct (wellNamed a); cbn [negb andb];
        cbn [Picker.newFiles Picker.duplicateCount Picker.invalidCount length fmap list_fmap].
      * rewrite <- app_assoc. reflexivity.
      * f_equal. lia.
Qed.

(** The result of the loop: the entries of the accepted assets in the order
    picked, the number of assets already listed, and the number of the
    others that are badly named. *)
Lemma visitAssets_spec (files : list Picker.PDFFile)
  (assets : list Picker.DocumentPickerAsset) :
  Picker.visitAssets files assets
  = Picker.MkTally
      (entryOf <$> List.filter (accepted files) assets)
      (N.of_nat (length (List.filter (alreadyListed files) assets)))
      (N.of_nat (length (List.filter (rejectedAsInvalid files) assets))).
Proof. unfold Picker.visitAssets. rewrite visit_fold. reflexivity. Qed.

(** An add operation appends the new entries of the loop to the list. *)
Lemma picker_add_files w s :
  Picker.pdfFiles (exec (Picker.addPDFFiles w) s)
  = Picker.pdfFiles s
    ++ Picker.newFiles (Picker.visitAssets (Picker.pdfFiles s) (picked w)).
Proof.
  unfold Picker.addPDFFiles, Picker.setIsManaging, Picker.setPdfFiles,
    Picker.AsyncStorage_setItem, picked.
  run_act.
  destruct (Picker.getDocumentAsync w) as [[|assets]|]; run_act;
    try (cbn; rewrite app_nil_r; reflexivity).
  destruct assets as [|a assets]; cbn [length Nat.ltb Nat.leb].
  { run_act. cbn. rewrite app_nil_r. reflexivity. }
  run_act.
  destruct (Picker.newFiles (Picker.visitAssets (Picker.pdfFiles s) (a :: assets)))
    as [|f new]; cbn [length Nat.ltb Nat.leb]; run_act.
  - rewrite app_nil_r. reflexivity.
  - reflexivity.
Qed.

Lemma picker_remove_files target s :
  Picker.pdfFiles (exec (Picker.removePDFFile target) s)
  = List.filter (fun file => negb (str_eqb (Picker.uri file) target))
                (Picker.pdfFiles s).
Proof.
  unfold Picker.removePDFFile, Picker.setIsManaging, Picker.setPdfFiles,
    Picker.AsyncStorage_setItem.
  run_act.
  destruct (length _ =? 0)%nat; run_act; reflexivity.
Qed.

Lemma entryOf_shape (files : list Picker.PDFFile)
  (assets : list Picker.DocumentPickerAsset) :
  Forall (fun f => stem_of (Picker.name f) (Picker.barcode f)
                   /\ alphanumeric (Picker.barcode f))
         (entryOf <$> List.filter (accepted files) assets).
Proof.
  apply Forall_fmap, List.Forall_forall. intros a Ha.
  apply filter_In in Ha as [_ Hacc]. unfold accepted in Hacc.
  apply andb_true_iff in Hacc as [_ Hname]. unfold wellNamed in Hname.
  cbn. unfold entryOf.
  destruct (Picker.extractBarcodeFromFilename (Picker.fileNameOf a)) as [stem|] eqn:He;
    [|discriminate].
  cbn. apply extract_some, He.
Qed.

(** C9 (as amended). [extractBarcodeFromFilename] returns the file name with
    one trailing [.pdf] extension, in any letter case, removed if and only if
    that stem is a non-empty string of ASCII letters and digits, and null
    otherwise. So every entry that [addPDFFiles] adds has as barcode the
    alphanumeric stem of its file name; and the picked files of another name
    shape whose URI is not already in the list are counted as invalid and not
    added. *)
Theorem C9_barcode_is_alphanumeric_stem :
  (forall filename,
      (forall stem,
          Picker.extractBarcodeFromFilename filename = Some stem
          <-> stem_of filename stem /\ alphanumeric stem)
      /\ (Picker.extractBarcodeFromFilename filename = None
          <-> forall stem, stem_of filename stem -> ~ alphanumeric stem))
  /\
  (forall w s,
      let files := Picker.pdfFiles s in
      let t := Picker.visitAssets files (picked w) in
      Picker.pdfFiles (exec (Picker.addPDFFiles w) s) = files ++ Picker.newFiles t
      /\ Forall (fun f => stem_of (Picker.name f) (Picker.barcode f)
                          /\ alphanumeric (Picker.barcode f))
                (Picker.newFiles t)
      /\ Picker.newFiles t = entryOf <$> List.filter (accepted files) (picked w)
      /\ Picker.invalidCount t
         = N.of_nat (length (List.filter (rejectedAsInvalid files) (picked w)))).
Proof.
  split.
  - intros filename. split; [intros stem; apply extract_some | apply extract_none].
  - intros w s files t. subst t. rewrite visitAssets_spec.
    cbn [Picker.newFiles Picker.invalidCount].
    split; [|split; [apply entryOf_shape | split; reflexivity]].
    rewrite picker_add_files, visitAssets_spec. reflexivity.
Qed.

(** ** The file list under additions and removals *)

Lemma filter_all {A} (p : A -> bool) (l : list A) :
  Forall (fun x => p x = true) l -> List.filter p l = l.
Proof.
  induction 1 as [|x l Hx _ IH]; cbn [List.filter]; [reflexivity|].
  rewrite Hx, IH. reflexivity.
Qed.

(** From the empty list, a pick of [n] numbered assets gives [n] entries. *)
Lemma picker_add_numbered (n : nat) (disk : gmap jsstring jsstring) :
  length (Picker.pdfFiles
            (exec (Picker.addPDFFiles (Demo.picking (Demo.numbered <$> seq 0 n)))
                  (Picker.initial disk))) = n.
Proof.
  rewrite picker_add_files, visitAssets_spec.
  cbn [Picker.newFiles Picker.pdfFiles Picker.initial app].
  change (picked (Demo.picking (Demo.numbered <$> seq 0 n))) with (Demo.numbered <$> seq 0 n).
  rewrite filter_all.
  - rewrite !length_fmap, length_seq. reflexivity.
  - apply Forall_fmap, List.Forall_forall. intros i _. reflexivity.
Qed.

(** C2 (as amended). In the picker-based variant an add operation appends
    entries to the list and changes no other entry, and every entry it
    appends refers to a file whose name is a non-empty string of ASCII
    letters and digits, alone or followed by a [.pdf] extension in any
    letter case. *)
Theorem C2_added_entries_named_by_stem :
  forall w s, exists added,
    Picker.pdfFiles (exec (Picker.addPDFFiles w) s) = Picker.pdfFiles s ++ added
    /\ Forall named_by_stem added.
Proof.
  intros w s.
  exists (Picker.newFiles (Picker.visitAssets (Picker.pdfFiles s) (picked w))).
  split; [apply picker_add_files|].
  rewrite visitAssets_spec. cbn [Picker.newFiles].
  eapply Forall_impl; [apply entryOf_shape|].
  intros f [[(ext & Hext & Heq) | [Heq _]] Hal]; split; auto.
  right. exists ext. auto.
Qed.

(** The storage-access-framework variant stores the directory listing as it
    is read: the list filtered by extension is only counted for the log. *)
Lemma saf_relisting_stores_listing w directory files s :
  Saf.readDirectoryAsync w directory = Ok files ->
  Saf.pdfFiles (exec (Saf.loadPDFFilesFromDirectory w directory) s) = files.
Proof.
  intros Hread.
  unfold Saf.loadPDFFilesFromDirectory, Saf.setIsLoading, Saf.setPdfFiles.
  run_act. rewrite Hread. run_act. reflexivity.
Qed.

(** C7 (as amended). The file index has no fixed bound. An add operation
    lengthens the list by the number of picked assets that are not already
    listed and are well named, and for every bound there is a pick, and in the
    storage-access-framework variant a directory listing, after which the
    list is longer than the bound. *)
Theorem C7_index_has_no_bound :
  (forall w s,
      length (Picker.pdfFiles (exec (Picker.addPDFFiles w) s))
      = (length (Picker.pdfFiles s)
         + length (List.filter (accepted (Picker.pdfFiles s)) (picked w)))%nat)
  /\ (forall bound : nat, exists w,
         (bound < length (Picker.pdfFiles
                            (exec (Picker.addPDFFiles w) (Picker.initial ∅))))%nat)
  /\ (forall bound : nat, exists w directory,
         (bound < length (Saf.pdfFiles
                            (exec (Saf.loadPDFFilesFromDirectory w directory)
                                  (Saf.initial ∅))))%nat).
Proof.
  split; [|split].
  - intros w s. rewrite picker_add_files, visitAssets_spec.
    cbn [Picker.newFiles]. rewrite length_app, length_fmap. reflexivity.
  - intros bound. exists (Demo.picking (Demo.numbered <$> seq 0 (S bound))).
    rewrite picker_add_numbered. lia.
  - intros bound.
    exists (Saf.MkWorld android 0 (fun s => s) (Ok true)
              (Ok (Saf.MkDirectoryPermission true (lit "content://tree")))
              (fun _ => Ok (replicate (S bound) (lit "content://tree%2F1.pdf")))
              (fun _ => Ok tt)),
      (lit "content://tree").
    erewrite saf_relisting_stores_listing by reflexivity.
    rewrite length_replicate. lia.
Qed.

Lemma filter_bool_prop (target : jsstring) (files : list Picker.PDFFile) :
  List.filter (fun file => negb (str_eqb (Picker.uri file) target)) files
  = filter (fun file => Picker.uri file <> target) files.
Proof.
  induction files as [|f files IH]; cbn [List.filter]; [reflexivity|].
  rewrite filter_cons. unfold str_eqb at 1.
  destruct (decide (Picker.uri f <> target)) as [Hne | Heq].
  - rewrite bool_decide_eq_false_2 by exact Hne. cbn [negb]. rewrite IH.
    reflexivity.
  - apply dec_stable in Heq. rewrite bool_decide_eq_true_2 by exact Heq.
    cbn [negb]. exact IH.
Qed.

Lemma accepted_not_listed (files : list Picker.PDFFile)
  (assets : list Picker.DocumentPickerAsset) :
  Forall (fun f => Picker.uri f ∉ Picker.uri <$> files)
         (entryOf <$> List.filter (accepted files) assets).
Proof.
  apply Forall_fmap, List.Forall_forall. intros a Ha.
  apply filter_In in Ha as [_ Hacc]. unfold accepted in Hacc.
  apply andb_true_iff in Hacc as [Hfresh _].
  apply negb_true_iff in Hfresh. unfold alreadyListed in Hfresh.
  apply bool_decide_eq_false in Hfresh. exact Hfresh.
Qed.

Lemma filter_fmap_NoDup {A B} (f : A -> B) (p : A -> bool) (l : list A) :
  NoDup (f <$> l) -> NoDup (f <$> List.filter p l).
Proof.
  induction l as [|a l IH]; cbn [List.filter fmap list_fmap];
    [constructor|].
  intros Hnd. apply NoDup_cons in Hnd as [Hnotin Hnd].
  destruct (p a); [|auto].
  cbn [fmap list_fmap]. apply NoDup_cons. split; [|auto].
  intros Hin. apply Hnotin.
  apply list_elem_of_fmap in Hin as (b & Heq & Hb).
  apply list_elem_of_fmap. exists b. split; [exact Heq|].
  apply list_elem_of_In. apply list_elem_of_In in Hb.
  apply filter_In in Hb. tauto.
Qed.

Lemma entry_uris (assets : list Picker.DocumentPickerAsset) :
  Picker.uri <$> (entryOf <$> assets) = Picker.assetUri <$> assets.
Proof. rewrite <- list_fmap_compose. reflexivity. Qed.

(** C10 (as amended). [addPDFFiles] skips, and counts as duplicates, every
    picked asset whose URI already occurs in the list, and [removePDFFile]
    removes every entry that carries the given URI and leaves the others
    unchanged and in their order. Hence a list in which no two entries share
    a URI stays so under a removal, and under an addition whose picked assets
    carry pairwise different URIs. *)
Theorem C10_unique_uris_preserved :
  (forall files assets,
      let t := Picker.visitAssets files assets in
      Forall (fun f => Picker.uri f ∉ Picker.uri <$> files) (Picker.newFiles t)
      /\ Picker.duplicateCount t
         = N.of_nat (length (List.filter (alreadyListed files) assets)))
  /\ (forall target s,
         Picker.pdfFiles (exec (Picker.removePDFFile target) s)
         = filter (fun file => Picker.uri file <> target) (Picker.pdfFiles s))
  /\ (forall target s,
         NoDup (Picker.uri <$> Picker.pdfFiles s) ->
         NoDup (Picker.uri <$> Picker.pdfFiles (exec (Picker.removePDFFile target) s)))
  /\ (forall w s,
         NoDup (Picker.uri <$> Picker.pdfFiles s) ->
         NoDup (Picker.assetUri <$> picked w) ->
         NoDup (Picker.uri <$> Picker.pdfFiles (exec (Picker.addPDFFiles w) s))).
Proof.
  split; [|split; [|split]].
  - intros files assets t. subst t. rewrite visitAssets_spec.
    cbn [Picker.newFiles Picker.duplicateCount].
    split; [apply accepted_not_listed | reflexivity].
  - intros target s. rewrite picker_remove_files. apply filter_bool_prop.
  - intros target s Hnd. rewrite picker_remove_files.
    apply filter_fmap_NoDup, Hnd.
  - intros w s Hnd Hpick. rewrite picker_add_files, visitAssets_spec.
    cbn [Picker.newFiles]. rewrite fmap_app, entry_uris.
    apply NoDup_app. split; [exact Hnd|]. split.
    + intros u Hu Hin.
      apply list_elem_of_fmap in Hin as (a & -> & Ha).
      apply list_elem_of_In, filter_In in Ha as [_ Hacc].
      unfold accepted in Hacc. apply andb_true_iff in Hacc as [Hfresh _].
      apply negb_true_iff, bool_decide_eq_false in Hfresh. contradiction.
    + apply filter_fmap_NoDup, Hpick.
Qed.

(** ** JSON: what is written is read back *)

(** *** Numerals *)

Lemma is_digit_digit (d : N) : d < 10 -> is_digit (digit d) = true.
Proof.
  intros Hd. unfold is_digit, digit.
  apply andb_true_iff. rewrite !N.leb_le. lia.
Qed.

Lemma parse_digits_digit (d : N) (s : jsstring) (acc : N) :
  d < 10 -> parse_digits (digit d :: s) acc = parse_digits s (acc * 10 + d).
Proof.
  intros Hd. cbn [parse_digits]. rewrite is_digit_digit by exact Hd.
  unfold digit. f_equal. lia.
Qed.

(** Reading the digits written for [n] after an accumulated value [acc]
    gives a value that ends in [n]; [k] is the number of digits, which the
    statement leaves open. *)
Lemma parse_decimal_pos (fuel : nat) :
  forall (n : N) (tail rest : jsstring) (acc : N),
    n < 2 ^ N.of_nat fuel ->
    exists k : N,
      parse_digits (decimal_pos fuel n tail ++ rest) acc
      = parse_digits (tail ++ rest) (acc * 10 ^ k + n).
Proof.
  induction fuel as [|fuel IH]; intros n tail rest acc Hn.
  - exists 0. cbn [decimal_pos]. f_equal. cbn in Hn. lia.
  - cbn [decimal_pos]. destruct (N.ltb_spec n 10) as [Hlt | Hge].
    + exists 1. cbn [app]. rewrite parse_digits_digit by exact Hlt.
      f_equal.
    + assert (Hdiv : n / 10 < 2 ^ N.of_nat fuel).
      { rewrite Nat2N.inj_succ, N.pow_succ_r' in Hn.
        apply N.Div0.div_lt_upper_bound. lia. }
      destruct (IH (n / 10) (digit (n mod 10) :: tail) rest acc Hdiv)
        as [k Hk].
      exists (N.succ k). rewrite Hk. cbn [app].
      rewrite parse_digits_digit by (apply N.mod_lt; lia).
      f_equal. rewrite N.pow_succ_r'.
      pose proof (N.div_mod n 10 ltac:(lia)) as Hdm. lia.
Qed.

Lemma decimal_enough (n : N) : n < 2 ^ N.of_nat (S (N.to_nat (N.log2 n))).
Proof.
  rewrite Nat2N.inj_succ, N2Nat.id.
  destruct n as [|p]; [reflexivity|].
  apply N.log2_spec. lia.
Qed.

(** The first digit written for a positive number is not [0]. *)
Lemma decimal_pos_head (fuel : nat) :
  forall (n : N) (tail : jsstring),
    0 < n -> n < 2 ^ N.of_nat fuel ->
    exists d rest, decimal_pos fuel n tail = digit d :: rest /\ 0 < d < 10.
Proof.
  induction fuel as [|fuel IH]; intros n tail Hpos Hn.
  - cbn in Hn. lia.
  - cbn [decimal_pos]. destruct (N.ltb_spec n 10) as [Hlt | Hge].
    + exists n, tail. split; [reflexivity | lia].
    + apply IH.
      * apply N.div_str_pos. lia.
      * rewrite Nat2N.inj_succ, N.pow_succ_r' in Hn.
        apply N.Div0.div_lt_upper_bound. lia.
Qed.

Lemma parse_digits_stop (rest : jsstring) (acc : N) :
  ends_numeral rest -> parse_digits rest acc = (acc, rest).
Proof.
  destruct rest as [|c rest]; [reflexivity|]. intros [Hc _].
  cbn [parse_digits]. rewrite Hc. reflexivity.
Qed.

Lemma parse_int_decimal (n : N) (rest : jsstring) :
  ends_numeral rest -> parse_int (decimal n ++ rest) = Some (n, rest).
Proof.
  intros Hrest. destruct (N.eq_dec n 0) as [-> | Hpos].
  - reflexivity.
  - pose proof (decimal_enough n) as Hfuel.
    destruct (parse_decimal_pos _ n [] rest 0 Hfuel) as [k Hk].
    destruct (decimal_pos_head _ n [] ltac:(lia) Hfuel) as (d & tl & Hhead & Hd).
    unfold decimal in *. rewrite Hhead in *. cbn [app] in *.
    rewrite parse_digits_digit in Hk by lia.
    rewrite (parse_digits_stop rest) in Hk by exact Hrest.
    cbn [parse_int]. rewrite is_digit_digit by lia.
    replace (digit d =? 48) with false
      by (symmetry; apply N.eqb_neq; unfold digit; lia).
    replace (digit d - 48) with (0 * 10 + d) by (unfold digit; lia).
    rewrite Hk. replace (0 * 10 ^ k + n) with n by lia. reflexivity.
Qed.

Lemma decimal_head (n : N) :
  exists c tl, decimal n = c :: tl /\ is_digit c = true.
Proof.
  destruct (N.eq_dec n 0) as [-> | Hpos].
  - exists 48, []. split; reflexivity.
  - destruct (decimal_pos_head _ n [] ltac:(lia) (decimal_enough n))
      as (d & tl & Hhead & Hd).
    exists (digit d), tl. split; [exact Hhead | apply is_digit_digit; lia].
Qed.

Lemma number_text_head (n : Z) :
  exists c tl, number_text n = c :: tl /\ starts_numeral c.
Proof.
  unfold number_text, starts_numeral. destruct (n <? 0)%Z.
  - eauto.
  - destruct (decimal_head (Z.to_N n)) as (c & tl & -> & Hc). eauto.
Qed.

Lemma parse_number_text (n : Z) (rest : jsstring) :
  ends_numeral rest ->
  parse_number (number_text n ++ rest) = Some (JNumber n, rest).
Proof.
  intros Hrest. unfold number_text.
  assert (Hfrac : starts_fraction rest = false).
  { destruct rest; [reflexivity | apply Hrest]. }
  destruct (Z.ltb_spec n 0) as [Hneg | Hnn].
  - cbn [app parse_number]. change (45 =? 45) with true. cbn iota.
    rewrite parse_int_decimal by exact Hrest. cbn.
    rewrite Hfrac. replace (- Z.of_N (Z.abs_N n))%Z with n by lia.
    reflexivity.
  - destruct (decimal_head (Z.to_N n)) as (c & tl & Hhead & Hc).
    pose proof (parse_int_decimal (Z.to_N n) rest Hrest) as Hparse.
    rewrite Hhead in *. cbn [app parse_number].
    assert (Hminus : (c =? 45) = false).
    { apply N.eqb_neq. intros ->. discriminate. }
    rewrite Hminus. cbn [app] in Hparse. rewrite Hparse. cbn.
    rewrite Hfrac. rewrite Z2N.id by exact Hnn. reflexivity.
Qed.

(** *** Strings *)

Lemma unhex_hex_digit (d : N) : d < 16 -> unhex (hex_digit d) = Some d.
Proof.
  intros Hd. unfold unhex, hex_digit, is_digit.
  destruct (N.ltb_spec d 10) as [Hlt | Hge].
  - replace ((48 <=? 48 + d) && (48 + d <=? 57)) with true
      by (symmetry; apply andb_true_iff; rewrite !N.leb_le; lia).
    f_equal. lia.
  - replace ((48 <=? 87 + d) && (87 + d <=? 57)) with false
      by (symmetry; apply andb_false_iff; right; apply N.leb_gt; lia).
    replace ((97 <=? 87 + d) && (87 + d <=? 102)) with true
      by (symmetry; apply andb_true_iff; rewrite !N.leb_le; lia).
    f_equal. lia.
Qed.

Lemma unhex4_escape (c : N) :
  c < 65536 ->
  unhex4 (hex_digit ((c / 4096) mod 16)) (hex_digit ((c / 256) mod 16))
         (hex_digit ((c / 16) mod 16)) (hex_digit (c mod 16)) = Some c.
Proof.
  intros Hc. unfold unhex4.
  rewrite !unhex_hex_digit by (apply N.mod_lt; lia).
  f_equal.
  pose proof (N.div_mod c 16 ltac:(lia)) as H0.
  pose proof (N.div_mod (c / 16) 16 ltac:(lia)) as H1.
  pose proof (N.div_mod (c / 256) 16 ltac:(lia)) as H2.
  replace (c / 16 / 16) with (c / 256) in H1
    by (rewrite N.Div0.div_div; reflexivity).
  replace (c / 256 / 16) with (c / 4096) in H2
    by (rewrite N.Div0.div_div; reflexivity).
  assert (H3 : c / 4096 < 16) by (apply N.Div0.div_lt_upper_bound; lia).
  rewrite (N.mod_small (c / 4096) 16) by exact H3. lia.
Qed.

Lemma parse_unicode_escape (c : N) (s : jsstring) :
  c < 65536 ->
  parse_string_body (unicode_escape c ++ s) = cons_result c (parse_string_body s).
Proof.
  intros Hc. unfold unicode_escape. cbn [app parse_string_body].
  change (92 =? 34) with false. change (92 =? 92) with true.
  change (117 =? 117) with true. cbn iota.
  rewrite unhex4_escape by exact Hc.
  unfold cons_result. destruct (parse_string_body s) as [[str rest]|]; reflexivity.
Qed.

Lemma parse_literal (c : N) (s : jsstring) :
  c <> 34 -> c <> 92 -> 32 <= c ->
  parse_string_body (c :: s) = cons_result c (parse_string_body s).
Proof.
  intros H34 H92 H32. cbn [parse_string_body].
  rewrite (proj2 (N.eqb_neq c 34) H34), (proj2 (N.eqb_neq c 92) H92).
  rewrite (proj2 (N.ltb_ge c 32) H32). reflexivity.
Qed.

Lemma parse_quote_unit (c : N) (s : jsstring) :
  parse_string_body (quote_unit c ++ s) = cons_result c (parse_string_body s).
Proof.
  unfold quote_unit.
  repeat match goal with
         | |- context [if ?x =? ?k then _ else _] =>
             destruct (N.eqb_spec x k) as [-> | ?];
             [unfold cons_result; cbn;
              destruct (parse_string_body s) as [[? ?]|]; reflexivity|]
         end.
  destruct (N.ltb_spec c 32) as [Hlt | Hge].
  - apply parse_unicode_escape. lia.
  - apply parse_literal; assumption.
Qed.

Lemma surrogate_bounds (c : N) :
  is_lead_surrogate c = true \/ is_trail_surrogate c = true ->
  55296 <= c < 65536.
Proof.
  unfold is_lead_surrogate, is_trail_surrogate.
  rewrite !andb_true_iff, !N.leb_le. lia.
Qed.

(** Reading the body written for [s], then the closing quote, gives [s]. *)
Lemma parse_quote_body (n : nat) :
  forall (s rest : jsstring),
    (length s <= n)%nat ->
    parse_string_body (quote_body s ++ 34 :: rest) = Some (s, rest).
Proof.
  induction n as [|n IH]; intros s rest Hlen.
  - destruct s; [reflexivity | cbn in Hlen; lia].
  - destruct s as [|c s]; [reflexivity|]. cbn [length] in Hlen.
    cbn [quote_body].
    destruct (is_lead_surrogate c) eqn:Hlead.
    + pose proof (surrogate_bounds c (or_introl Hlead)) as Hc.
      destruct s as [|d s].
      * rewrite parse_unicode_escape by lia. reflexivity.
      * destruct (is_trail_surrogate d) eqn:Htrail.
        -- pose proof (surrogate_bounds d (or_intror Htrail)) as Hd.
           cbn [app]. rewrite parse_literal by lia.
           rewrite parse_literal by lia.
           rewrite IH by (cbn [length] in Hlen; lia). reflexivity.
        -- rewrite <- app_assoc, parse_unicode_escape by lia.
           rewrite IH by lia. reflexivity.
    + destruct (is_trail_surrogate c) eqn:Htrail.
      * pose proof (surrogate_bounds c (or_intror Htrail)) as Hc.
        rewrite <- app_assoc, parse_unicode_escape by lia.
        rewrite IH by lia. reflexivity.
      * rewrite <- app_assoc, parse_quote_unit.
        rewrite IH by lia. reflexivity.
Qed.

Lemma parse_quoted (s rest : jsstring) :
  parse_string_body (quote_body s ++ 34 :: rest) = Some (s, rest).
Proof. apply (parse_quote_body (length s)). lia. Qed.

(** *** Values *)

Lemma stringify_array (x : value) (l : list value) :
  stringify (JArray (x :: l)) = 91 :: stringify x ++ elements_tail l ++ [93].
Proof.
  cbn [stringify]. f_equal. rewrite <- app_assoc. reflexivity.
Qed.

Lemma stringify_object (kv : jsstring * value) (l : list (jsstring * value)) :
  stringify (JObject (kv :: l)) = 123 :: member_text kv ++ members_tail l ++ [125].
Proof.
  destruct kv as [k x]. cbn [stringify]. unfold member_text at 1. cbn [fst snd].
  f_equal. rewrite <- !app_assoc. f_equal. cbn [app]. f_equal.
  rewrite <- app_assoc. do 2 f_equal.
  induction l as [|[k' y] l IH]; [reflexivity|].
  cbn [members_tail]. unfold member_text at 1. cbn [fst snd].
  rewrite <- IH, <- app_assoc. reflexivity.
Qed.

Lemma starts_numeral_head (c : N) : starts_numeral c -> value_head c.
Proof.
  unfold starts_numeral, value_head, is_digit, is_ws.
  intros [-> | Hd]; [repeat split; discriminate|].
  apply andb_true_iff in Hd. rewrite !N.leb_le in Hd.
  repeat split; try lia.
  rewrite !orb_false_iff, !N.eqb_neq. lia.
Qed.

Lemma stringify_head (v : value) :
  exists c tl, stringify v = c :: tl /\ value_head c.
Proof.
  destruct v as [|[]|n|s|l|l]; cbn [stringify].
  1-3: eexists _, _; split; [reflexivity | repeat split; discriminate].
  - destruct (number_text_head n) as (c & tl & -> & Hc).
    exists c, tl. split; [reflexivity | apply starts_numeral_head, Hc].
  - eexists _, _. split; [reflexivity | repeat split; discriminate].
  - eexists _, _. split; [reflexivity | repeat split; discriminate].
  - eexists _, _. split; [reflexivity | repeat split; discriminate].
Qed.

Lemma expect_here (c : N) (rest : jsstring) :
  is_ws c = false -> expect c (c :: rest) = Some rest.
Proof.
  intros Hws. unfold expect. cbn [skip_ws]. rewrite Hws, N.eqb_refl.
  reflexivity.
Qed.

Lemma expect_other (c d : N) (rest : jsstring) :
  is_ws d = false -> d <> c -> expect c (d :: rest) = None.
Proof.
  intros Hws Hne. unfold expect. cbn [skip_ws]. rewrite Hws.
  rewrite (proj2 (N.eqb_neq d c) Hne). reflexivity.
Qed.

Lemma expect_value (c : N) (v : value) (rest : jsstring) :
  c = 93 \/ c = 125 \/ c = 44 \/ c = 58 ->
  expect c (stringify v ++ rest) = None.
Proof.
  intros Hc. destruct (stringify_head v) as (d & tl & -> & Hws & Hd).
  cbn [app]. apply expect_other; [exact Hws | lia].
Qed.

(** The text that follows a value inside an array or an object. *)
Lemma ends_numeral_separator (c : N) (rest : jsstring) :
  c = 44 \/ c = 93 \/ c = 125 -> ends_numeral (c :: rest).
Proof. intros [-> | [-> | ->]]; split; reflexivity. Qed.

Lemma ends_numeral_elements (l : list value) (rest : jsstring) :
  ends_numeral (elements_tail l ++ 93 :: rest).
Proof. destruct l; apply ends_numeral_separator; auto. Qed.

Lemma ends_numeral_members (l : list (jsstring * value)) (rest : jsstring) :
  ends_numeral (members_tail l ++ 125 :: rest).
Proof. destruct l; apply ends_numeral_separator; auto. Qed.

(** Induction on values, with the hypothesis for every element and every
    member value. *)
Lemma value_induction (P : value -> Prop) :
  P JNull -> (forall b, P (JBool b)) -> (forall n, P (JNumber n)) ->
  (forall s, P (JString s)) ->
  (forall l, Forall P l -> P (JArray l)) ->
  (forall l, Forall (fun kv => P kv.2) l -> P (JObject l)) ->
  forall v, P v.
Proof.
  intros Hnull Hbool Hnum Hstr Harr Hobj.
  fix go 1. intros [|b|n|s|l|l].
  - exact Hnull.
  - apply Hbool.
  - apply Hnum.
  - apply Hstr.
  - apply Harr. induction l as [|x l IH]; constructor; [apply go | exact IH].
  - apply Hobj. induction l as [|[k x] l IH]; constructor; [apply go | exact IH].
Qed.

Lemma parse_elements_tail (l : list value) :
  Forall reads_back l -> forallb wf l = true ->
  forall fuel rest,
    (length (elements_tail l) + 1 <= fuel)%nat ->
    parse_elements fuel (elements_tail l ++ 93 :: rest) = Some (l, rest).
Proof.
  induction 1 as [|x l Hx _ IH]; intros Hwf fuel rest Hfuel.
  - destruct fuel as [|fuel]; [cbn in Hfuel; lia|].
    cbn [elements_tail app parse_elements].
    rewrite expect_here by reflexivity. reflexivity.
  - cbn [forallb] in Hwf. apply andb_true_iff in Hwf as [Hwx Hwl].
    destruct fuel as [|fuel]; [cbn in Hfuel; lia|].
    cbn [elements_tail length] in Hfuel. rewrite length_app in Hfuel.
    cbn [elements_tail app parse_elements].
    rewrite expect_other by (reflexivity || discriminate).
    rewrite expect_here by reflexivity. cbn [mbind option_bind].
    rewrite <- app_assoc.
    rewrite (Hx Hwx) by (lia || apply ends_numeral_elements).
    cbn [mbind option_bind]. rewrite IH by (assumption || lia).
    reflexivity.
Qed.

Lemma parse_member_text (kv : jsstring * value) :
  reads_back kv.2 -> wf kv.2 = true ->
  forall fuel rest,
    (length (member_text kv) <= fuel)%nat -> ends_numeral rest ->
    parse_member fuel (member_text kv ++ rest) = Some (kv, rest).
Proof.
  destruct kv as [k x]. cbn [fst snd]. intros Hx Hwx fuel rest Hfuel Hrest.
  unfold member_text, quote in *. cbn [fst snd] in *.
  destruct fuel as [|fuel]; [cbn in Hfuel; lia|].
  cbn [length] in Hfuel. rewrite !length_app in Hfuel. cbn [length] in Hfuel.
  cbn [app parse_member].
  rewrite expect_here by reflexivity. cbn [mbind option_bind].
  rewrite <- !app_assoc. cbn [app].
  rewrite parse_quoted. cbn [mbind option_bind].
  rewrite expect_here by reflexivity. cbn [mbind option_bind].
  rewrite (Hx Hwx) by (lia || assumption). reflexivity.
Qed.

Lemma parse_members_tail (l : list (jsstring * value)) :
  Forall (fun kv => reads_back kv.2) l ->
  forallb (fun kv => wf kv.2) l = true ->
  forall fuel rest,
    (length (members_tail l) + 1 <= fuel)%nat ->
    parse_members fuel (members_tail l ++ 125 :: rest) = Some (l, rest).
Proof.
  induction 1 as [|kv l Hkv _ IH]; intros Hwf fuel rest Hfuel.
  - destruct fuel as [|fuel]; [cbn in Hfuel; lia|].
    cbn [members_tail app parse_members].
    rewrite expect_here by reflexivity. reflexivity.
  - cbn [forallb] in Hwf. apply andb_true_iff in Hwf as [Hwx Hwl].
    destruct fuel as [|fuel]; [cbn in Hfuel; lia|].
    cbn [members_tail length] in Hfuel. rewrite length_app in Hfuel.
    cbn [members_tail app parse_members].
    rewrite expect_other by (reflexivity || discriminate).
    rewrite expect_here by reflexivity. cbn [mbind option_bind].
    rewrite <- app_assoc.
    rewrite (parse_member_text kv Hkv Hwx)
      by (lia || apply ends_numeral_members).
    cbn [mbind option_bind]. rewrite IH by (assumption || lia).
    reflexivity.
Qed.

Lemma get_none_obj_set (k : jsstring) (x : value) (o : list (jsstring * value)) :
  existsb (str_eqb k) (fst <$> o) = false -> obj_set k x o = o ++ [(k, x)].
Proof.
  induction o as [|[k' x'] o IH]; cbn [obj_set fmap list_fmap existsb fst app];
    [reflexivity|].
  intros Hnot. apply orb_false_iff in Hnot as [Hk Ho].
  apply str_eqb_neq in Hk.
  rewrite (proj2 (str_eqb_neq k' k)) by congruence.
  rewrite IH by exact Ho. reflexivity.
Qed.

Lemma existsb_app_false {A} (p : A -> bool) (l1 l2 : list A) :
  existsb p (l1 ++ l2) = false <-> existsb p l1 = false /\ existsb p l2 = false.
Proof. rewrite existsb_app. apply orb_false_iff. Qed.

(** Members with distinct keys are set one after the other. *)
Lemma build_distinct (raw acc : list (jsstring * value)) :
  distinct_keys (fst <$> raw) = true ->
  Forall (fun kv => existsb (str_eqb kv.1) (fst <$> acc) = false) raw ->
  foldl (fun o kv => obj_set kv.1 kv.2 o) acc raw = acc ++ raw.
Proof.
  revert acc. induction raw as [|[k x] raw IH]; intros acc Hd Hfresh.
  - cbn. rewrite app_nil_r. reflexivity.
  - cbn [fmap list_fmap fst distinct_keys] in Hd.
    apply andb_true_iff in Hd as [Hk Hd]. apply negb_true_iff in Hk.
    apply Forall_cons in Hfresh as [Hkacc Hfresh]. cbn [fst] in Hkacc.
    cbn [foldl fst snd]. rewrite get_none_obj_set by exact Hkacc.
    rewrite IH.
    + rewrite <- app_assoc. reflexivity.
    + exact Hd.
    + apply List.Forall_forall. intros [k' x'] Hin. cbn [fst].
      rewrite fmap_app. apply existsb_app_false. split.
      * rewrite List.Forall_forall in Hfresh. apply (Hfresh (k', x') Hin).
      * cbn [fmap list_fmap fst existsb]. rewrite orb_false_r.
        apply str_eqb_neq. intros ->.
        assert (Hex : existsb (str_eqb k) (fst <$> raw) = true).
        { apply existsb_exists. exists k. split; [|apply str_eqb_eq; reflexivity].
          apply in_map_iff. exists (k, x'). auto. }
        congruence.
Qed.

Lemma build_object_distinct (raw : list (jsstring * value)) :
  distinct_keys (fst <$> raw) = true -> build_object raw = JObject raw.
Proof.
  intros Hd. unfold build_object. rewrite build_distinct.
  - reflexivity.
  - exact Hd.
  - apply List.Forall_forall. intros kv _. reflexivity.
Qed.

(** Every well-formed value is read back from its text. *)
Lemma stringify_reads_back (v : value) : reads_back v.
Proof.
  induction v as [|b|n|s|l IH|l IH] using value_induction;
    intros Hwf fuel rest Hfuel Hrest.
  - destruct fuel as [|fuel]; [cbn in Hfuel; lia | vm_compute; reflexivity].
  - destruct fuel as [|fuel]; [destruct b; cbn in Hfuel; lia|].
    destruct b; vm_compute; reflexivity.
  - destruct (number_text_head n) as (c & tl & Hhead & Hc).
    pose proof (parse_number_text n rest Hrest) as Hparse.
    cbn [stringify] in *. rewrite Hhead in *.
    destruct fuel as [|fuel]; [cbn in Hfuel; lia|].
    destruct (starts_numeral_head c Hc) as (Hws & _).
    cbn [app parse_value skip_ws]. rewrite Hws.
    assert (Hno : forall k, In k [110; 116; 102; 34; 91; 123] -> (c =? k) = false).
    { intros k Hk. apply N.eqb_neq. intros ->.
      destruct Hc as [-> | Hd];
        [|unfold is_digit in Hd; apply andb_true_iff in Hd;
          rewrite !N.leb_le in Hd];
        cbn in Hk; lia. }
    rewrite !Hno by (cbn; tauto). exact Hparse.
  - destruct fuel as [|fuel]; [cbn in Hfuel; lia|].
    cbn [stringify]. unfold quote. cbn [app parse_value skip_ws].
    change (is_ws 34) with false. cbn iota.
    change (34 =? 110) with false. change (34 =? 116) with false.
    change (34 =? 102) with false. change (34 =? 34) with true. cbn iota.
    rewrite <- app_assoc. cbn [app]. rewrite parse_quoted. reflexivity.
  - cbn [wf] in Hwf. destruct l as [|x l].
    + destruct fuel as [|fuel]; [cbn in Hfuel; lia | reflexivity].
    + rewrite stringify_array in *.
      apply Forall_cons in IH as [Hx Hl].
      cbn [forallb] in Hwf. apply andb_true_iff in Hwf as [Hwx Hwl].
      destruct fuel as [|fuel]; [cbn in Hfuel; lia|].
      cbn [length] in Hfuel. rewrite !length_app in Hfuel. cbn [length] in Hfuel.
      cbn [app parse_value skip_ws].
      change (is_ws 91) with false. cbn iota.
      change (91 =? 110) with false. change (91 =? 116) with false.
      change (91 =? 102) with false. change (91 =? 34) with false.
      change (91 =? 91) with true. cbn iota.
      rewrite <- !app_assoc. cbn [app].
      rewrite expect_value by auto.
      rewrite (Hx Hwx) by (lia || apply ends_numeral_elements).
      cbn [mbind option_bind].
      rewrite parse_elements_tail by (assumption || lia). reflexivity.
  - cbn [wf] in Hwf. destruct l as [|kv l].
    + destruct fuel as [|fuel]; [cbn in Hfuel; lia | reflexivity].
    + rewrite stringify_object in *.
      apply Forall_cons in IH as [Hx Hl].
      apply andb_true_iff in Hwf as [Hkeys Hwf].
      apply andb_true_iff in Hkeys as [_ Hdistinct].
      cbn [forallb] in Hwf. apply andb_true_iff in Hwf as [Hwx Hwl].
      destruct fuel as [|fuel]; [cbn in Hfuel; lia|].
      cbn [length] in Hfuel. rewrite !length_app in Hfuel. cbn [length] in Hfuel.
      cbn [app parse_value skip_ws].
      change (is_ws 123) with false. cbn iota.
      change (123 =? 110) with false. change (123 =? 116) with false.
      change (123 =? 102) with false. change (123 =? 34) with false.
      change (123 =? 91) with false. change (123 =? 123) with true. cbn iota.
      rewrite <- !app_assoc. cbn [app].
      assert (Hclose : expect 125 (member_text kv ++ members_tail l ++ 125 :: rest)
                       = None).
      { destruct kv as [k y]. unfold member_text, quote. cbn [fst app].
        apply expect_other; [reflexivity | discriminate]. }
      rewrite Hclose.
      rewrite (parse_member_text kv Hx Hwx)
        by (lia || apply ends_numeral_members).
      cbn [mbind option_bind].
      rewrite parse_members_tail by (assumption || lia).
      cbn [mbind option_bind]. rewrite build_object_distinct by exact Hdistinct.
      reflexivity.
Qed.

(** [JSON.parse(JSON.stringify(v))] is [v]. *)
Lemma parse_stringify (v : value) :
  wf v = true -> parse (stringify v) = Some v.
Proof.
  intros Hwf. unfold parse.
  pose proof (stringify_reads_back v Hwf (S (length (stringify v))) []) as H.
  rewrite app_nil_r in H. rewrite H by (cbn; auto; lia). reflexivity.
Qed.

(** ** Persistence of the file list *)

Lemma PDFFile_json_wf (f : Picker.PDFFile) : wf (Picker.PDFFile_to_json f) = true.
Proof. vm_compute. reflexivity. Qed.

Lemma PDFFile_of_to_json (f : Picker.PDFFile) :
  Picker.PDFFile_of_json (Picker.PDFFile_to_json f) = Some f.
Proof.
  destruct f as [n u sz b].
  unfold Picker.PDFFile_of_json, Picker.PDFFile_to_json.
  cbn [Picker.name Picker.uri Picker.size Picker.barcode].
  change (JSON.get (lit "name") _) with (Some (JString n)).
  change (JSON.get (lit "uri") _) with (Some (JString u)).
  change (JSON.get (lit "size") _) with (Some (JNumber (Z.of_N sz))).
  change (JSON.get (lit "barcode") _) with (Some (JString b)).
  cbn [mbind option_bind Picker.as_string Picker.as_size].
  rewrite (proj2 (Z.leb_le 0 (Z.of_N sz))) by lia.
  cbn [mbind option_bind]. rewrite N2Z.id. reflexivity.
Qed.

(** The written list is parsed back, entry by entry, in the same order. *)
Lemma parse_stringify_files (files : list Picker.PDFFile) :
  Picker.parse_files (Picker.stringify_files files) = Some files.
Proof.
  unfold Picker.parse_files, Picker.stringify_files.
  rewrite parse_stringify.
  - cbn [mbind option_bind]. apply mapM_Some.
    apply Forall2_fmap_l, Forall_Forall2_diag, List.Forall_forall.
    intros f _. apply PDFFile_of_to_json.
  - cbn [wf]. apply forallb_forall. intros v Hv.
    apply in_map_iff in Hv as (f & <- & _). apply PDFFile_json_wf.
Qed.

Lemma stringify_files_truthy (files : list Picker.PDFFile) :
  truthy (Some (Picker.stringify_files files)) = true.
Proof. reflexivity. Qed.

(** When every file exists the loop of [loadPDFFiles] keeps them all and
    touches no state. *)
Lemma keepExisting_all w (files : list Picker.PDFFile) :
  Forall (fun f => Picker.getInfoAsync w (Picker.uri f) = Ok true) files ->
  forall validFiles s,
    (Picker.keepExisting w files validFiles s).1
    = (Ok (validFiles ++ files), s).
Proof.
  induction 1 as [|f files Hf _ IH]; intros validFiles s.
  - cbn. rewrite app_nil_r. reflexivity.
  - cbn [Picker.keepExisting]. run_act. rewrite Hf. run_act.
    specialize (IH (validFiles ++ [f]) s).
    destruct (Picker.keepExisting w files (validFiles ++ [f]) s) as [[r s1] t].
    cbn [fst] in *. rewrite <- app_assoc in IH. exact IH.
Qed.

(** C4. Persistence is a serialization round trip. The text written for a
    file list parses back to the same entries in the same order; and writing
    a list under the storage key and then loading it yields that list as the
    file index, and leaves the stored text as written, when every file the
    list refers to still exists. *)
Theorem C4_persistence_round_trip (files : list Picker.PDFFile) :
  Picker.parse_files (Picker.stringify_files files) = Some files
  /\ forall w s,
      Forall (fun f => Picker.getInfoAsync w (Picker.uri f) = Ok true) files ->
      let written :=
        exec (Picker.AsyncStorage_setItem Picker.STORAGE_KEY
                (Picker.stringify_files files)) s in
      let loaded := exec (Picker.loadPDFFiles w) written in
      Picker.pdfFiles loaded = files
      /\ Picker.storage loaded !! Picker.STORAGE_KEY
         = Some (Picker.stringify_files files).
Proof.
  split; [apply parse_stringify_files|].
  intros w s Hexist written loaded. subst loaded written.
  unfold Picker.loadPDFFiles, Picker.AsyncStorage_getItem,
    Picker.AsyncStorage_setItem, Picker.setPdfFiles, Picker.setIsLoading.
  run_act. rewrite lookup_insert_eq.
  rewrite stringify_files_truthy. cbn [default from_option id].
  pose proof (parse_stringify_files files) as Hparse.
  rewrite Hparse. run_act.
  match goal with
  | |- context [Picker.keepExisting w files [] ?st] =>
      pose proof (keepExisting_all w files Hexist [] st) as Hkeep;
      destruct (Picker.keepExisting w files [] st) as [[r s1] t]
  end.
  cbn [fst app] in Hkeep. injection Hkeep as -> ->. run_act.
  rewrite Nat.eqb_refl. cbn [negb]. run_act.
  split; [reflexivity | apply lookup_insert_eq].
Qed.

(** ** The claims on concrete inputs *)

Lemma C1_witness :
  queries (trace (Picker.handleBarCodeScanned (Demo.device android)
                    Demo.payload) Demo.scanning)
  = [lit "ab123456"]
  /\ Saf.handleBarCodeScanned (Demo.saf_device android) Demo.short_payload
       Demo.saf_scanning
     = (Ok tt, Demo.saf_scanning, []).
Proof.
  split.
  - destruct (C1_scan_handler_length_and_key Demo.payload) as [Hpicker _].
    destruct (Hpicker (Demo.device android) Demo.scanning) as (_ & _ & H).
    apply H; reflexivity.
  - destruct (C1_scan_handler_length_and_key Demo.short_payload) as [_ Hsaf].
    destruct (Hsaf (Demo.saf_device android) Demo.saf_scanning) as (H & _).
    apply H. vm_compute. discriminate.
Defined.


Lemma C4_witness :
  Picker.pdfFiles
    (exec (Picker.loadPDFFiles (Demo.device android))
       (exec (Picker.AsyncStorage_setItem Picker.STORAGE_KEY
                (Picker.stringify_files [Demo.manual]))
             (Picker.initial ∅)))
  = [Demo.manual].
Proof.
  destruct (C4_persistence_round_trip [Demo.manual]) as [_ Hload].
  apply (Hload (Demo.device android) (Picker.initial ∅)).
  repeat constructor.
Defined.

Lemma C5_witness :
  launches (trace (Picker.handleBarCodeScanned (Demo.device android)
                     Demo.payload) Demo.scanning)
  = [Picker.uri Demo.manual]
  /\ launches (trace (Saf.handleBarCodeScanned (Demo.saf_device android)
                        Demo.payload) Demo.saf_scanning)
     = [Demo.listed].
Proof.
  destruct C5_android_launches_matched_uri as (Hpicker & Hsaf & _).
  split.
  - apply Hpicker; reflexivity.
  - apply Hsaf; reflexivity.
Defined.


Lemma C8_witness :
  Picker.hasPermission Demo.denied = Some false
  /\ Picker.handlerAttached (Picker.render Demo.denied) = false
  /\ quiet (trace (Picker.dispatch Demo.denying Picker.PressGrantPermission)
                  Demo.denied).
Proof.
  split; [reflexivity|].
  destruct C8_permission_gates_scanning as [Hpicker _].
  destruct (Hpicker Demo.denied) as (Hoff & _ & Hquiet).
  - apply Picker.reach_mount.
  - vm_compute. discriminate.
  - split; [exact Hoff|]. apply Hquiet. reflexivity.
Defined.

Lemma C9_witness :
  Picker.extractBarcodeFromFilename (lit "AB123456.PDF") = Some (lit "AB123456").
Proof.
  destruct C9_barcode_is_alphanumeric_stem as [Hextract _].
  destruct (Hextract (lit "AB123456.PDF")) as [Hsome _].
  apply Hsome. split.
  - left. exists (lit ".PDF"). split; [|reflexivity].
    apply is_dot_pdf_spec. reflexivity.
  - apply test_alnum_spec. reflexivity.
Defined.

Lemma C10_witness :
  NoDup (Picker.uri <$> Picker.pdfFiles
           (exec (Picker.addPDFFiles
                    (Demo.picking [Demo.bare; Demo.renamed]))
                 Demo.scanning)).
Proof.
  destruct C10_unique_uris_preserved as (_ & _ & _ & Hadd).
  apply Hadd.
  - apply (bool_decide_unpack _). vm_compute. exact I.
  - apply (bool_decide_unpack _). vm_compute. exact I.
Defined.

(** ** Where the specification and the program part *)

(** C2 as stated fails: a picked document named [12345] enters the file
    list, and its name does not end in [.pdf], in any letter case. *)
Lemma C2_counterexample :
  Picker.name <$> Picker.pdfFiles Demo.after_bare = [lit "12345"]
  /\ endsWith (lit "12345") (lit ".pdf") = false
  /\ endsWith (Demo.ascii_lower (lit "12345")) (lit ".pdf") = false.
Proof. vm_compute. repeat split; reflexivity. Qed.

(** In the storage-access-framework variant a listed document that is not a
    PDF enters the file list as well. *)
Example saf_relisting_keeps_other_files :
  Saf.pdfFiles (exec (Saf.loadPDFFilesFromDirectory Demo.mixed_folder Demo.folder)
                     (Saf.initial ∅))
  = [Demo.listed; lit "content://tree/notes.txt"].
Proof. reflexivity. Qed.

(** C5 as stated fails: on iOS the lookup finds the file and the file
    exists, and nothing is handed to the launcher. *)
Lemma C5_counterexample :
  Picker.findMatchingFile (Demo.device ios)
    (Picker.pdfFiles Demo.scanning) (take 8 Demo.payload)
  = Some Demo.manual
  /\ Picker.getInfoAsync (Demo.device ios) (Picker.uri Demo.manual)
     = Ok true
  /\ launches (trace (Picker.handleBarCodeScanned (Demo.device ios)
                        Demo.payload) Demo.scanning)
     = [].
Proof. vm_compute. repeat split; reflexivity. Qed.

(** C7 as stated fails: no bound holds for every sequence of add
    operations. *)
Lemma C7_counterexample :
  ~ exists bound : nat,
      forall picks : list Picker.World,
        (length (Picker.pdfFiles (after_adds picks (Picker.initial ∅)))
         <= bound)%nat.
Proof.
  intros [bound Hbound].
  specialize (Hbound [Demo.picking (Demo.numbered <$> seq 0 (S bound))]).
  cbn [after_adds foldl] in Hbound.
  rewrite picker_add_numbered in Hbound. lia.
Qed.

(** C9 as stated fails: a picked file whose name has another shape, but
    whose URI is already in the list, is counted as a duplicate and not as
    invalid. *)
Lemma C9_counterexample :
  Picker.extractBarcodeFromFilename (Picker.fileNameOf Demo.renamed) = None
  /\ Picker.invalidCount (Picker.visitAssets [Demo.manual] [Demo.renamed]) = 0
  /\ Picker.duplicateCount (Picker.visitAssets [Demo.manual] [Demo.renamed]) = 1.
Proof. vm_compute. repeat split; reflexivity. Qed.

(** C10 as stated fails: a pick that holds one document twice puts two
    entries with one URI into the list. *)
Lemma C10_counterexample :
  Picker.uri <$> Picker.pdfFiles Demo.after_twice
  = [Picker.assetUri Demo.bare; Picker.assetUri Demo.bare]
  /\ ~ NoDup (Picker.uri <$> Picker.pdfFiles Demo.after_twice).
Proof.
  assert (Huris : Picker.uri <$> Picker.pdfFiles Demo.after_twice
                  = [Picker.assetUri Demo.bare; Picker.assetUri Demo.bare])
    by (vm_compute; reflexivity).
  split; [exact Huris|]. rewrite Huris. intros Hnd.
  apply NoDup_cons in Hnd as [Hnotin _]. apply Hnotin. left.
Qed.

(** * Further properties of the two applications *)

(** ** Traces, one effect at a time *)

Lemma alerts_cons (e : Effect) (t : list Effect) :
  alerts (e :: t)
  = match e with
    | Alert title _ _ => title :: alerts t
    | _ => alerts t
    end.
Proof. destruct e; reflexivity. Qed.

Lemma launches_cons (e : Effect) (t : list Effect) :
  launches (e :: t)
  = match e with
    | StartActivity _ d _ _ => d :: launches t
    | _ => launches t
    end.
Proof. destruct e; reflexivity. Qed.

(** The alerts and launches of a trace that has been run. *)
Ltac read_trace :=
  rewrite ?app_nil_r;
  repeat (rewrite ?alerts_app, ?launches_app, ?alerts_cons, ?launches_cons;
          cbn iota);
  rewrite ?app_nil_r.

(** ** Loading the persisted list *)

(** The loop of [loadPDFFiles] keeps, in order, the files that exist and
    changes no state. *)
Lemma keepExisting_filter w (files : list Picker.PDFFile) :
  forall validFiles s,
    (Picker.keepExisting w files validFiles s).1
    = (Ok (validFiles ++ List.filter (stillExists w) files), s).
Proof.
  induction files as [|f files IH]; intros validFiles s.
  - cbn. rewrite app_nil_r. reflexivity.
  - cbn [Picker.keepExisting List.filter]. run_act. unfold stillExists at 1.
    destruct (Picker.getInfoAsync w (Picker.uri f)) as [[]|]; run_act.
    + specialize (IH (validFiles ++ [f]) s).
      destruct (Picker.keepExisting w files (validFiles ++ [f]) s) as [[r s1] t].
      cbn [fst] in *. rewrite <- app_assoc in IH. exact IH.
    + specialize (IH validFiles s).
      destruct (Picker.keepExisting w files validFiles s) as [[r s1] t].
      exact IH.
    + specialize (IH validFiles s).
      destruct (Picker.keepExisting w files validFiles s) as [[r s1] t].
      exact IH.
Qed.


Lemma keepExisting_no_alert w (files : list Picker.PDFFile) :
  forall validFiles s, alerts (Picker.keepExisting w files validFiles s).2 = [].
Proof.
  induction files as [|f files IH]; intros validFiles s; [reflexivity|].
  cbn [Picker.keepExisting]. run_act.
  destruct (Picker.getInfoAsync w (Picker.uri f)) as [[]|]; run_act.
  - specialize (IH (validFiles ++ [f]) s).
    destruct (Picker.keepExisting w files (validFiles ++ [f]) s) as [[r s1] t].
    destruct r; exact IH.
  - specialize (IH validFiles s).
    destruct (Picker.keepExisting w files validFiles s) as [[r s1] t].
    destruct r; exact IH.
  - specialize (IH validFiles s).
    destruct (Picker.keepExisting w files validFiles s) as [[r s1] t].
    destruct r; exact IH.
Qed.

(** The whole state after [loadPDFFiles] when the storage key holds text
    that parses to [files]. *)
Lemma picker_load_readable w s text files :
  Picker.storage s !! Picker.STORAGE_KEY = Some text ->
  truthy (Some text) = true ->
  Picker.parse_files text = Some files ->
  exec (Picker.loadPDFFiles w) s
  = Picker.MkState (Picker.hasPermission s) (Picker.scanned s)
      (List.filter (stillExists w) files) false
      (Picker.lastScan s) (Picker.isProcessing s) (Picker.isManaging s)
      (if (length (List.filter (stillExists w) files) =? length files)%nat
       then Picker.storage s
       else <[Picker.STORAGE_KEY :=
                Picker.stringify_files (List.filter (stillExists w) files)]>
              (Picker.storage s))
  /\ outcome (Picker.loadPDFFiles w) s = Ok tt
  /\ alerts (trace (Picker.loadPDFFiles w) s) = [].
Proof.
  intros Hget Htruthy Hparse.
  unfold Picker.loadPDFFiles, Picker.AsyncStorage_getItem,
    Picker.AsyncStorage_setItem, Picker.setPdfFiles, Picker.setIsLoading.
  run_act. rewrite Hget, Htruthy. cbn [default from_option id].
  rewrite Hparse. run_act.
  pose proof (keepExisting_filter w files [] s) as Hkeep.
  pose proof (keepExisting_no_alert w files [] s) as Hquiet.
  destruct (Picker.keepExisting w files [] s) as [[r s1] t].
  cbn [fst snd app] in Hkeep, Hquiet. injection Hkeep as -> ->. run_act.
  destruct (length _ =? length files)%nat; cbn [negb]; run_act;
    read_trace; rewrite ?Hquiet; repeat split; reflexivity.
Qed.





(** The state with the loading flag cleared. *)
Lemma picker_load_unreadable w s :
  match Picker.storage s !! Picker.STORAGE_KEY with
  | Some text => text = [] \/ Picker.parse_files text = None
  | None => True
  end ->
  exec (Picker.loadPDFFiles w) s
  = Picker.MkState (Picker.hasPermission s) (Picker.scanned s)
      (Picker.pdfFiles s) false (Picker.lastScan s) (Picker.isProcessing s)
      (Picker.isManaging s) (Picker.storage s)
  /\ outcome (Picker.loadPDFFiles w) s = Ok tt
  /\ alerts (trace (Picker.loadPDFFiles w) s) = [].
Proof.
  intros Hbad.
  unfold Picker.loadPDFFiles, Picker.AsyncStorage_getItem,
    Picker.AsyncStorage_setItem, Picker.setPdfFiles, Picker.setIsLoading.
  run_act.
  destruct (Picker.storage s !! Picker.STORAGE_KEY) as [text|];
    [|run_act; repeat split].
  destruct Hbad as [-> | Hparse]; [run_act; repeat split|].
  destruct (truthy (Some text)); run_act; [|repeat split].
  cbn [default from_option id]. rewrite Hparse. run_act. repeat split.
Qed.


(** ** Sequencing *)

(** A call that is not awaited ends normally for its caller, in the state
    and with the trace of the call. *)
Lemma detached_run {S} (m : Act S unit) (s : S) :
  detached m s = (Ok tt, exec m s, trace m s).
Proof.
  unfold detached, try_catch, exec, trace.
  destruct (m s) as [[[[]|] s1] t1]; cbn; rewrite ?app_nil_r; reflexivity.
Qed.

Lemma detached_then {S A} (m : Act S unit) (k : Act S A) (s : S) :
  (detached m;; k) s
  = (outcome k (exec m s), exec k (exec m s), trace m s ++ trace k (exec m s)).
Proof.
  change ((detached m;; k) s) with (bind (detached m) (fun _ => k) s).
  unfold bind. rewrite detached_run. unfold outcome, exec, trace.
  destruct (k (m s).1.2) as [[r s2] t2]. reflexivity.
Qed.

Lemma detached_exec {S} (m : Act S unit) (s : S) :
  exec (detached m) s = exec m s.
Proof. unfold exec at 1. rewrite detached_run. reflexivity. Qed.

(** ** What an add and a removal write *)

(** The whole state after [addPDFFiles]: the accepted entries are appended
    and the new list is written, or nothing changes; the managing flag ends
    cleared. *)
Lemma picker_add_state w s :
  let added := Picker.newFiles (Picker.visitAssets (Picker.pdfFiles s) (picked w)) in
  exec (Picker.addPDFFiles w) s
  = Picker.MkState (Picker.hasPermission s) (Picker.scanned s)
      (Picker.pdfFiles s ++ added) (Picker.isLoading s) (Picker.lastScan s)
      (Picker.isProcessing s) false
      (match added with
       | [] => Picker.storage s
       | _ :: _ => <[Picker.STORAGE_KEY :=
                       Picker.stringify_files (Picker.pdfFiles s ++ added)]>
                     (Picker.storage s)
       end)
  /\ outcome (Picker.addPDFFiles w) s = Ok tt.
Proof.
  unfold Picker.addPDFFiles, Picker.setIsManaging, Picker.setPdfFiles,
    Picker.AsyncStorage_setItem, picked.
  run_act.
  destruct (Picker.getDocumentAsync w) as [[|assets]|]; run_act;
    try (cbn; rewrite app_nil_r; split; reflexivity).
  destruct assets as [|a assets]; cbn [length Nat.ltb Nat.leb].
  { run_act. cbn. rewrite app_nil_r. split; reflexivity. }
  run_act.
  destruct (Picker.newFiles (Picker.visitAssets (Picker.pdfFiles s) (a :: assets)))
    as [|f new]; cbn [length Nat.ltb Nat.leb]; run_act.
  - rewrite app_nil_r. split; reflexivity.
  - split; reflexivity.
Qed.

Lemma picker_remove_state target s :
  let updated :=
    List.filter (fun file => negb (str_eqb (Picker.uri file) target))
                (Picker.pdfFiles s) in
  exec (Picker.removePDFFile target) s
  = Picker.MkState (Picker.hasPermission s) (Picker.scanned s) updated
      (Picker.isLoading s) (Picker.lastScan s) (Picker.isProcessing s)
      (match updated with
       | [] => negb (Picker.isManaging s)
       | _ :: _ => Picker.isManaging s
       end)
      (<[Picker.STORAGE_KEY := Picker.stringify_files updated]> (Picker.storage s))
  /\ outcome (Picker.removePDFFile target) s = Ok tt
  /\ alerts (trace (Picker.removePDFFile target) s) = [].
Proof.
  unfold Picker.removePDFFile, Picker.setIsManaging, Picker.setPdfFiles,
    Picker.AsyncStorage_setItem.
  run_act.
  destruct (List.filter _ (Picker.pdfFiles s)) as [|f updated];
    cbn [length Nat.eqb]; run_act; repeat split.
Qed.

Lemma picker_permission_state w s :
  exec (Picker.getCameraPermissions w) s
  = Picker.MkState
      (match Picker.requestCameraPermissionsAsync w with
       | Ok isGranted => Some isGranted
       | Thrown => Picker.hasPermission s
       end)
      (Picker.scanned s) (Picker.pdfFiles s) (Picker.isLoading s)
      (Picker.lastScan s) (Picker.isProcessing s) (Picker.isManaging s)
      (Picker.storage s).
Proof.
  unfold Picker.getCameraPermissions, Picker.setHasPermission. run_act.
  destruct (Picker.requestCameraPermissionsAsync w); run_act;
    [reflexivity | destruct s; reflexivity].
Qed.

(** ** The file index and the storage agree *)


(** The mount effect asks for the camera and then loads the list. *)
Lemma picker_mount_exec w s :
  exec (Picker.dispatch w Picker.Mount) s
  = exec (Picker.loadPDFFiles w) (exec (Picker.getCameraPermissions w) s).
Proof.
  cbn [Picker.dispatch]. unfold exec at 1. rewrite detached_then.
  cbn [fst snd]. apply detached_exec.
Qed.




(** ** Adding picked documents *)

Lemma filter_three_way {A} (p q r : A -> bool) (l : list A) :
  (forall x, In x l ->
             (if p x then 1 else 0) + (if q x then 1 else 0)
             + (if r x then 1 else 0) = 1)%nat ->
  (length (List.filter p l) + length (List.filter q l)
   + length (List.filter r l) = length l)%nat.
Proof.
  induction l as [|x l IH]; intros Hone; [reflexivity|].
  cbn [List.filter]. specialize (IH (fun y Hy => Hone y (or_intror Hy))).
  specialize (Hone x (or_introl eq_refl)).
  destruct (p x), (q x), (r x); cbn [length] in *; lia.
Qed.

(** X5. Every picked asset is accounted for exactly once by the loop of
    [addPDFFiles]: the number of new entries, the duplicate count and the
    invalid count add up to the number of picked assets. *)
Theorem X5_every_asset_counted_once (files : list Picker.PDFFile)
  (assets : list Picker.DocumentPickerAsset) :
  let t := Picker.visitAssets files assets in
  N.of_nat (length (Picker.newFiles t))
  + Picker.duplicateCount t + Picker.invalidCount t
  = N.of_nat (length assets).
Proof.
  intros t. subst t. rewrite visitAssets_spec.
  cbn [Picker.newFiles Picker.duplicateCount Picker.invalidCount].
  rewrite length_fmap.
  pose proof (filter_three_way (accepted files) (alreadyListed files)
                (rejectedAsInvalid files) assets) as Hsum.
  rewrite <- Hsum; [lia|].
  intros a _. unfold accepted, rejectedAsInvalid.
  destruct (alreadyListed files a), (wellNamed a); reflexivity.
Qed.

Lemma filter_none {A} (p : A -> bool) (l : list A) :
  Forall (fun x => p x = false) l -> List.filter p l = [].
Proof.
  induction 1 as [|x l Hx _ IH]; cbn [List.filter]; [reflexivity|].
  rewrite Hx. exact IH.
Qed.

(** Once the accepted assets of a pick are in the list, none of the pick is
    accepted again. *)
Lemma accepted_after_add (files : list Picker.PDFFile)
  (assets : list Picker.DocumentPickerAsset) :
  List.filter
    (accepted (files ++ (entryOf <$> List.filter (accepted files) assets)))
    assets = [].
Proof.
  apply filter_none, List.Forall_forall. intros a Ha.
  unfold accepted at 1. apply andb_false_iff.
  destruct (wellNamed a) eqn:Hname; [left | right; reflexivity].
  apply negb_false_iff. unfold alreadyListed. apply bool_decide_eq_true.
  rewrite fmap_app, entry_uris. apply elem_of_app.
  destruct (alreadyListed files a) eqn:Hlisted.
  - left. apply bool_decide_eq_true in Hlisted. exact Hlisted.
  - right. apply list_elem_of_fmap. exists a. split; [reflexivity|].
    apply list_elem_of_In, filter_In. split; [exact Ha|].
    unfold accepted. rewrite Hlisted, Hname. reflexivity.
Qed.

(** X6. Adding is idempotent: when the document picker returns the same
    assets a second time, the second [addPDFFiles] changes nothing; the
    whole state, file index and storage included, is the state after the
    first. *)
Theorem X6_adding_same_pick_twice w s :
  exec (Picker.addPDFFiles w) (exec (Picker.addPDFFiles w) s)
  = exec (Picker.addPDFFiles w) s.
Proof.
  destruct (picker_add_state w (exec (Picker.addPDFFiles w) s)) as [-> _].
  destruct (picker_add_state w s) as [-> _].
  cbn [Picker.hasPermission Picker.scanned Picker.pdfFiles Picker.isLoading
       Picker.lastScan Picker.isProcessing Picker.storage].
  rewrite !visitAssets_spec. cbn [Picker.newFiles].
  rewrite accepted_after_add. cbn [fmap list_fmap]. rewrite app_nil_r.
  reflexivity.
Qed.



(** ** Removing a file *)

Lemma filter_filter_same {A} (p : A -> bool) (l : list A) :
  List.filter p (List.filter p l) = List.filter p l.
Proof.
  apply filter_all, List.Forall_forall. intros x Hx.
  apply filter_In in Hx. tauto.
Qed.

(** X8. After [removePDFFile] no entry of the file index carries the given
    URI; removing a URI that no entry carries leaves the index as it is; and
    removing the same URI a second time leaves the index as the first
    removal left it. The removal shows no alert and ends normally. *)
Theorem X8_removal_of_uri target s :
  let removed := exec (Picker.removePDFFile target) s in
  (target ∉ Picker.uri <$> Picker.pdfFiles removed)
  /\ (target ∉ Picker.uri <$> Picker.pdfFiles s ->
      Picker.pdfFiles removed = Picker.pdfFiles s)
  /\ Picker.pdfFiles (exec (Picker.removePDFFile target) removed)
     = Picker.pdfFiles removed
  /\ outcome (Picker.removePDFFile target) s = Ok tt
  /\ alerts (trace (Picker.removePDFFile target) s) = [].
Proof.
  intros removed. subst removed.
  destruct (picker_remove_state target s) as (Hstate & Hok & Halerts).
  rewrite !picker_remove_files. split; [|split; [|split; [|split]]].
  - intros Hin. apply list_elem_of_fmap in Hin as (f & -> & Hf).
    apply list_elem_of_In, filter_In in Hf as [_ Hne].
    apply negb_true_iff, str_eqb_neq in Hne. congruence.
  - intros Habsent. apply filter_all, List.Forall_forall. intros f Hf.
    apply negb_true_iff, str_eqb_neq. intros Heq. apply Habsent.
    apply list_elem_of_fmap. exists f. split; [congruence|].
    apply list_elem_of_In, Hf.
  - apply filter_filter_same.
  - exact Hok.
  - exact Halerts.
Qed.

(** X9. The screen after the last file is removed. When a removal empties
    the file index of an application that shows the main screen, the next
    screen is the setup screen, and its add button is rendered exactly when
    the removal was made with the file manager open: a removal made from the
    alert of the camera view, with the manager closed, sets the managing
    flag and the setup screen shows its progress indicator instead of the
    button. *)
Theorem X9_screen_after_last_removal target s :
  Picker.isLoading s = false ->
  Picker.hasPermission s = Some true ->
  List.filter (fun file => negb (str_eqb (Picker.uri file) target))
              (Picker.pdfFiles s) = [] ->
  let removed := exec (Picker.removePDFFile target) s in
  Picker.isManaging removed = negb (Picker.isManaging s)
  /\ Picker.render removed = Picker.SetupScreen (Picker.isManaging s)
  /\ Picker.enabled removed Picker.PressAddFiles = Picker.isManaging s.
Proof.
  intros Hloaded Hgranted Hempty removed. subst removed.
  destruct (picker_remove_state target s) as (Hstate & _).
  rewrite Hempty in Hstate. rewrite Hstate.
  unfold Picker.enabled, Picker.render.
  cbn [Picker.isLoading Picker.hasPermission Picker.pdfFiles Picker.isManaging
       length Nat.eqb].
  rewrite Hloaded, Hgranted, negb_involutive. repeat split.
Qed.

(** X10. A removed file is not opened again: after [removePDFFile] for a
    URI, no scan, whatever its payload and whatever the platform answers,
    hands that URI to the launcher. *)
Theorem X10_removed_file_never_launched target s w payload :
  target ∉ launches (trace (Picker.handleBarCodeScanned w payload)
                           (exec (Picker.removePDFFile target) s)).
Proof.
  set (removed := exec (Picker.removePDFFile target) s).
  intros Hin.
  destruct (picker_handle_cases w payload removed)
    as [[_ Hrun] | [(Hsc & Hpr & Hlen) _]].
  - unfold trace in Hin. rewrite Hrun in Hin. inversion Hin.
  - destruct (picker_scan_summary w payload removed Hsc Hpr Hlen) as [Hl _].
    rewrite Hl in Hin. unfold picker_launched in Hin.
    destruct (Picker.findMatchingFile w (Picker.pdfFiles removed) (take 8 payload))
      as [f|] eqn:Hfind; [|inversion Hin].
    apply find_some in Hfind as [Hf _].
    subst removed. rewrite picker_remove_files in Hf.
    apply filter_In in Hf as [_ Hne].
    apply negb_true_iff, str_eqb_neq in Hne.
    destruct (Picker.getInfoAsync w (Picker.uri f)) as [[]|];
      destruct (Picker.Platform_OS w);
      first [ apply list_elem_of_singleton in Hin; congruence | inversion Hin ].
Qed.

(** ** One scan at a time *)

(** A search changes the processing flag only, and leaves it cleared. *)
Lemma picker_search_state w key s :
  exec (Picker.searchAndOpenPDF w key) s
  = Picker.MkState (Picker.hasPermission s) (Picker.scanned s)
      (Picker.pdfFiles s) (Picker.isLoading s) (Picker.lastScan s)
      (match Picker.pdfFiles s with
       | [] => Picker.isProcessing s
       | _ :: _ => false
       end)
      (Picker.isManaging s) (Picker.storage s).
Proof.
  unfold Picker.searchAndOpenPDF, Picker.openPDFWithIntent,
    Picker.setIsProcessing.
  run_act.
  destruct (Picker.pdfFiles s) as [|f0 files] eqn:Hfiles; cbn [length Nat.eqb].
  { run_act. destruct s; cbn in *; congruence. }
  destruct (Picker.findMatchingFile w (f0 :: files) key) as [f|]; run_act;
    [|rewrite ?Hfiles; reflexivity].
  destruct (Picker.getInfoAsync w (Picker.uri f)) as [[]|]; run_act;
    rewrite ?Hfiles; try reflexivity.
  destruct (Picker.Platform_OS w); run_act.
  all: try (destruct (Picker.startActivityAsync w (Picker.uri f)) as [[]|];
            run_act; rewrite ?Hfiles; reflexivity).
  all: destruct (Picker.getDocumentAsync w) as [[]|]; run_act;
    rewrite ?Hfiles; reflexivity.
Qed.

Lemma saf_search_state w key s :
  exec (Saf.searchAndOpenPDF w key) s
  = Saf.MkState (Saf.hasPermission s) (Saf.scanned s) (Saf.isLoading s)
      (Saf.lastScan s)
      (if negb (Saf.isGranted (Saf.directoryPermission s))
          || (length (Saf.pdfFiles s) =? 0)%nat
       then Saf.isProcessing s else false)
      (Saf.directoryPermission s) (Saf.pdfFiles s) (Saf.isFlashlightOn s)
      (Saf.storage s).
Proof.
  unfold Saf.searchAndOpenPDF, Saf.openPDFWithIntent, Saf.setIsProcessing.
  run_act.
  destruct (negb (Saf.isGranted (Saf.directoryPermission s))
            || (length (Saf.pdfFiles s) =? 0)%nat); run_act.
  { destruct s; reflexivity. }
  destruct (List.filter (Saf.matchesBarcode w key) (Saf.pdfFiles s))
    as [|first rest]; run_act; [reflexivity|].
  destruct (Saf.Platform_OS w); run_act; try reflexivity.
  destruct (Saf.startActivityAsync w first) as [[]|]; run_act; reflexivity.
Qed.

(** The state in which the handler of an accepted scan starts its search. *)
Lemma picker_handle_accepted w payload s :
  Picker.scanned s = false -> Picker.isProcessing s = false ->
  length payload = 14%nat ->
  let started :=
    Picker.MkState (Picker.hasPermission s) true (Picker.pdfFiles s)
      (Picker.isLoading s)
      (Some (Picker.MkScanResult payload (Picker.Date_now w)))
      (Picker.isProcessing s) (Picker.isManaging s) (Picker.storage s) in
  let search := Picker.searchAndOpenPDF w (substring payload 0 8) in
  Picker.handleBarCodeScanned w payload s
  = (Ok tt, exec search started, trace search started ++ [SetTimeout 2000]).
Proof.
  intros Hsc Hpr Hlen started search.
  unfold Picker.handleBarCodeScanned, Picker.setScanned, Picker.setLastScan.
  run_act. rewrite Hsc, Hpr, Hlen. cbn [orb negb Nat.eqb].
  fold started. fold search.
  destruct (search started) as [[[[]|] s2] t]; run_act;
    rewrite ?app_nil_r; reflexivity.
Qed.

Lemma saf_handle_accepted w payload s :
  Saf.scanned s = false -> Saf.isProcessing s = false ->
  length payload = 14%nat ->
  let scan := Saf.MkScanResult payload (Saf.Date_now w) in
  let started :=
    Saf.MkState (Saf.hasPermission s) true (Saf.isLoading s) (Some scan)
      (Saf.isProcessing s) (Saf.directoryPermission s) (Saf.pdfFiles s)
      (Saf.isFlashlightOn s)
      (<[Saf.LAST_SCAN_KEY := Saf.stringify_scan scan]> (Saf.storage s)) in
  let search := Saf.searchAndOpenPDF w (substring payload 0 8) in
  Saf.handleBarCodeScanned w payload s
  = (Ok tt, exec search started,
     SetItem Saf.LAST_SCAN_KEY (Saf.stringify_scan scan)
     :: trace search started ++ [SetTimeout 2000]).
Proof.
  intros Hsc Hpr Hlen scan started search.
  unfold Saf.handleBarCodeScanned, Saf.setScanned, Saf.setLastScan,
    Saf.saveLastScan, Saf.AsyncStorage_setItem.
  run_act. rewrite Hsc, Hpr, Hlen. cbn [orb negb Nat.eqb].
  fold scan. fold started. fold search.
  destruct (search started) as [[[[]|] s2] t]; run_act;
    rewrite ?app_nil_r; reflexivity.
Qed.

(** The state after an accepted scan. *)
Lemma picker_scan_state w payload s :
  Picker.scanned s = false -> Picker.isProcessing s = false ->
  length payload = 14%nat ->
  exec (Picker.handleBarCodeScanned w payload) s
  = Picker.MkState (Picker.hasPermission s) true (Picker.pdfFiles s)
      (Picker.isLoading s)
      (Some (Picker.MkScanResult payload (Picker.Date_now w)))
      false (Picker.isManaging s) (Picker.storage s).
Proof.
  intros Hsc Hpr Hlen. unfold exec at 1.
  rewrite (picker_handle_accepted w payload s Hsc Hpr Hlen).
  cbn [fst snd]. rewrite picker_search_state.
  cbn [Picker.hasPermission Picker.scanned Picker.pdfFiles Picker.isLoading
       Picker.lastScan Picker.isProcessing Picker.isManaging Picker.storage].
  rewrite Hpr. destruct (Picker.pdfFiles s); reflexivity.
Qed.

Lemma saf_scan_state w payload s :
  Saf.scanned s = false -> Saf.isProcessing s = false ->
  length payload = 14%nat ->
  exec (Saf.handleBarCodeScanned w payload) s
  = Saf.MkState (Saf.hasPermission s) true (Saf.isLoading s)
      (Some (Saf.MkScanResult payload (Saf.Date_now w))) false
      (Saf.directoryPermission s) (Saf.pdfFiles s) (Saf.isFlashlightOn s)
      (<[Saf.LAST_SCAN_KEY :=
           Saf.stringify_scan (Saf.MkScanResult payload (Saf.Date_now w))]>
         (Saf.storage s)).
Proof.
  intros Hsc Hpr Hlen. unfold exec at 1.
  rewrite (saf_handle_accepted w payload s Hsc Hpr Hlen).
  cbn [fst snd]. rewrite saf_search_state.
  cbn [Saf.hasPermission Saf.scanned Saf.isLoading Saf.lastScan
       Saf.isProcessing Saf.directoryPermission Saf.pdfFiles
       Saf.isFlashlightOn Saf.storage].
  rewrite Hpr. destruct (_ || _); reflexivity.
Qed.



(** ** From adding a file to opening it *)

(** X13. A file that was added is opened by the scan of its barcode. When
    [addPDFFiles] receives one new asset whose file name has the
    alphanumeric stem [stem], and no entry already in the list has a barcode
    equal to the key without regard to case, then a later accepted scan on
    Android whose first 8 characters equal [stem] without regard to case
    hands the URI of that asset, and nothing else, to the launcher, provided
    the file exists. *)
Theorem X13_added_file_opens_on_scan w1 w2 s asset stem payload :
  Picker.getDocumentAsync w1 = Ok (Picker.Picked [asset]) ->
  Picker.assetUri asset ∉ Picker.uri <$> Picker.pdfFiles s ->
  Picker.extractBarcodeFromFilename (Picker.fileNameOf asset) = Some stem ->
  Picker.toLowerCase w2 stem = Picker.toLowerCase w2 (take 8 payload) ->
  Forall (fun f => Picker.toLowerCase w2 (Picker.barcode f)
                   <> Picker.toLowerCase w2 (take 8 payload))
         (Picker.pdfFiles s) ->
  Picker.scanned s = false -> Picker.isProcessing s = false ->
  length payload = 14%nat ->
  Picker.Platform_OS w2 = android ->
  Picker.getInfoAsync w2 (Picker.assetUri asset) = Ok true ->
  launches (trace (Picker.handleBarCodeScanned w2 payload)
                  (exec (Picker.addPDFFiles w1) s))
  = [Picker.assetUri asset].
Proof.
  intros Hpick Hfresh Hname Hkey Hothers Hsc Hpr Hlen Hos Hexists.
  destruct (picker_add_state w1 s) as [Hstate _].
  assert (Hadded : Picker.newFiles
                     (Picker.visitAssets (Picker.pdfFiles s) (picked w1))
                   = [entryOf asset]).
  { rewrite visitAssets_spec. cbn [Picker.newFiles].
    unfold picked. rewrite Hpick. cbn [List.filter].
    unfold accepted, alreadyListed, wellNamed.
    rewrite bool_decide_eq_false_2 by exact Hfresh. rewrite Hname.
    reflexivity. }
  rewrite Hadded in Hstate.
  set (added := exec (Picker.addPDFFiles w1) s) in *.
  assert (Hsc' : Picker.scanned added = false) by (rewrite Hstate; exact Hsc).
  assert (Hpr' : Picker.isProcessing added = false)
    by (rewrite Hstate; exact Hpr).
  destruct (picker_scan_summary w2 payload added Hsc' Hpr' Hlen) as [-> _].
  unfold picker_launched.
  assert (Hfind : Picker.findMatchingFile w2 (Picker.pdfFiles added)
                    (take 8 payload) = Some (entryOf asset)).
  { rewrite Hstate. cbn [Picker.pdfFiles]. apply find_first.
    exists (Picker.pdfFiles s), []. split; [reflexivity|]. split.
    - apply str_eqb_eq. unfold entryOf. cbn [Picker.barcode].
      rewrite Hname. exact Hkey.
    - eapply Forall_impl; [exact Hothers|]. intros f Hf.
      apply str_eqb_neq, Hf. }
  rewrite Hfind. cbn [entryOf Picker.uri]. rewrite Hexists, Hos. reflexivity.
Qed.

(** ** The file name of a document URI *)

Lemma lastIndexOf_from_absent (pat s : jsstring) (i : Z) :
  ~ occurs_in pat s -> lastIndexOf_from s pat i = (-1)%Z.
Proof.
  revert i. induction s as [|c s IH]; intros i Habsent.
  - cbn [lastIndexOf_from].
    destruct (startsWith [] pat) eqn:Hhere; [|reflexivity].
    exfalso. apply Habsent. exists 0%nat. exact Hhere.
  - cbn [lastIndexOf_from]. rewrite IH.
    + cbn. destruct (startsWith (c :: s) pat) eqn:Hhere; [|reflexivity].
      exfalso. apply Habsent. exists 0%nat. exact Hhere.
    + intros [k Hk]. apply Habsent. exists (S k). exact Hk.
Qed.

(** When the last occurrence of [pat] starts after [before], the index
    found is the length of [before]. *)
Lemma lastIndexOf_from_last (pat before rest : jsstring) (i : Z) :
  (0 <= i)%Z ->
  startsWith rest pat = true ->
  (forall k, startsWith (drop (S k) rest) pat = false) ->
  lastIndexOf_from (before ++ rest) pat i = (i + Z.of_nat (length before))%Z.
Proof.
  revert i. induction before as [|c before IH]; intros i Hi Hhere Hlater.
  - cbn [app length]. destruct rest as [|c rest].
    + cbn [lastIndexOf_from]. rewrite Hhere. lia.
    + cbn [lastIndexOf_from]. rewrite lastIndexOf_from_absent.
      * cbn. rewrite Hhere. lia.
      * intros [k Hk]. specialize (Hlater k). cbn [drop] in Hlater. congruence.
  - cbn [app length lastIndexOf_from].
    rewrite IH by (lia || assumption).
    destruct (Z.eqb_spec (i + 1 + Z.of_nat (length before)) (-1)); lia.
Qed.

Lemma substringFrom_drop (s : jsstring) (n : nat) :
  (n <= length s)%nat -> substringFrom s n = drop n s.
Proof.
  intros Hn. unfold substringFrom, substring.
  rewrite Nat.min_id, (Nat.min_l n) by exact Hn.
  rewrite Nat.min_l, Nat.max_r by exact Hn.
  apply take_ge. rewrite length_drop. lia.
Qed.

Lemma name_after_last_slash (before name : jsstring) :
  ~ occurs_in (lit "%2F") name ->
  Saf.getStringAfterLastSlash (before ++ lit "%2F" ++ name) = name.
Proof.
  intros Habsent. unfold Saf.getStringAfterLastSlash, lastIndexOf.
  rewrite lastIndexOf_from_last.
  - destruct (Z.eqb_spec (0 + Z.of_nat (length before)) (-1)) as [Heq|_];
      [lia|]. cbn [negb].
    replace (Z.to_nat (0 + Z.of_nat (length before) + 3))
      with (length before + 3)%nat by lia.
    rewrite substringFrom_drop
      by (rewrite !length_app; change (length (lit "%2F")) with 3%nat; lia).
    rewrite <- drop_drop, drop_app_length. reflexivity.
  - lia.
  - reflexivity.
  - intros [|[|k]]; try reflexivity.
    destruct (startsWith (drop (S (S (S k))) (lit "%2F" ++ name)) (lit "%2F"))
      eqn:Hocc; [|reflexivity].
    exfalso. apply Habsent. exists k. exact Hocc.
Qed.

(** X14. The file name that [getStringAfterLastSlash] extracts. A URI with
    no encoded slash [%2F] is returned whole; a URI that ends in [%2F]
    followed by a name without [%2F] yields exactly that name, whatever
    precedes, further encoded slashes included. *)
Theorem X14_name_after_last_encoded_slash :
  (forall target,
      ~ occurs_in (lit "%2F") target ->
      Saf.getStringAfterLastSlash target = target)
  /\ (forall before name,
         ~ occurs_in (lit "%2F") name ->
         Saf.getStringAfterLastSlash (before ++ lit "%2F" ++ name) = name).
Proof.
  split.
  - intros target Habsent. unfold Saf.getStringAfterLastSlash, lastIndexOf.
    rewrite lastIndexOf_from_absent by exact Habsent. reflexivity.
  - apply name_after_last_slash.
Qed.

(** ** The folder of the storage-access-framework application *)

(** The whole run of [loadPDFFilesFromDirectory]: the listing replaces the
    list, or the list stays and an alert is shown; the loading flag ends
    cleared. *)
Lemma saf_relist_run w directory s :
  exec (Saf.loadPDFFilesFromDirectory w directory) s
  = Saf.MkState (Saf.hasPermission s) (Saf.scanned s) false (Saf.lastScan s)
      (Saf.isProcessing s) (Saf.directoryPermission s)
      (match Saf.readDirectoryAsync w directory with
       | Ok files => files
       | Thrown => Saf.pdfFiles s
       end)
      (Saf.isFlashlightOn s) (Saf.storage s)
  /\ alerts (trace (Saf.loadPDFFilesFromDirectory w directory) s)
     = match Saf.readDirectoryAsync w directory with
       | Ok _ => []
       | Thrown => ["Error"%string]
       end
  /\ launches (trace (Saf.loadPDFFilesFromDirectory w directory) s) = []
  /\ outcome (Saf.loadPDFFilesFromDirectory w directory) s = Ok tt.
Proof.
  unfold Saf.loadPDFFilesFromDirectory, Saf.setIsLoading, Saf.setPdfFiles.
  run_act.
  destruct (Saf.readDirectoryAsync w directory) as [files|]; run_act;
    repeat split; reflexivity.
Qed.







(** The whole state after [requestDirectoryPermission]. *)
Lemma saf_request_state w s :
  exec (Saf.requestDirectoryPermission w) s
  = match Saf.requestDirectoryPermissionsAsync w with
    | Ok p =>
        if Saf.granted p then
          Saf.MkState (Saf.hasPermission s) (Saf.scanned s) false
            (Saf.lastScan s) (Saf.isProcessing s) (Some p)
            (match Saf.readDirectoryAsync w (Saf.directoryUri p) with
             | Ok files => files
             | Thrown => Saf.pdfFiles s
             end)
            (Saf.isFlashlightOn s)
            (<[Saf.STORAGE_KEY := Saf.stringify_permission p]> (Saf.storage s))
        else s
    | Thrown => s
    end
  /\ alerts (trace (Saf.requestDirectoryPermission w) s)
     = match Saf.requestDirectoryPermissionsAsync w with
       | Ok p =>
           if Saf.granted p then
             match Saf.readDirectoryAsync w (Saf.directoryUri p) with
             | Ok _ => []
             | Thrown => ["Error"%string]
             end
           else ["Permission Required"%string]
       | Thrown => ["Error"%string]
       end.
Proof.
  unfold Saf.requestDirectoryPermission.
  destruct (Saf.requestDirectoryPermissionsAsync w) as [p|] eqn:Hreq.
  2: { unfold Saf.requestDirectoryPermission. run_act. split; reflexivity. }
  destruct (Saf.granted p) eqn:Hgranted.
  2: { run_act. rewrite Hgranted. run_act. split; reflexivity. }
  unfold Saf.setDirectoryPermission, Saf.AsyncStorage_setItem.
  run_act. rewrite Hgranted. run_act.
  match goal with
  | |- context [Saf.loadPDFFilesFromDirectory w ?d ?s0] =>
      destruct (saf_relist_run w d s0) as (Hstate & Halerts & _ & Hout);
      unfold exec in Hstate; unfold trace in Halerts; unfold outcome in Hout;
      destruct (Saf.loadPDFFilesFromDirectory w d s0) as [[r s1] t1]
  end.
  cbn [fst snd] in Hstate, Halerts, Hout. subst r s1. run_act.
  split; [reflexivity|]. read_trace. exact Halerts.
Qed.

(** X15. Refreshing the folder. [loadPDFFilesFromDirectory] replaces the
    list by the listing that the directory read returns; when the read
    fails the list is kept as it was and one alert titled [Error] is shown.
    In both cases the loading flag ends cleared, nothing else of the state
    changes, nothing is written to storage and no document is opened. *)
Theorem X15_folder_refresh w directory s :
  let after := exec (Saf.loadPDFFilesFromDirectory w directory) s in
  let shown := alerts (trace (Saf.loadPDFFilesFromDirectory w directory) s) in
  match Saf.readDirectoryAsync w directory with
  | Ok files => Saf.pdfFiles after = files /\ shown = []
  | Thrown => Saf.pdfFiles after = Saf.pdfFiles s /\ shown = ["Error"%string]
  end
  /\ Saf.isLoading after = false
  /\ Saf.directoryPermission after = Saf.directoryPermission s
  /\ Saf.storage after = Saf.storage s
  /\ Saf.lastScan after = Saf.lastScan s
  /\ Saf.scanned after = Saf.scanned s
  /\ launches (trace (Saf.loadPDFFilesFromDirectory w directory) s) = [].
Proof.
  intros after shown. subst after shown.
  destruct (saf_relist_run w directory s) as (-> & -> & -> & _).
  destruct (Saf.readDirectoryAsync w directory); repeat split; reflexivity.
Qed.

(** X16. A folder request that is refused changes nothing. When the system
    dialog of [requestDirectoryPermission] answers without granting access,
    or fails, the state and the storage are exactly as before, and one
    alert is shown: [Permission Required] when access was not granted,
    [Error] when the request failed. *)
Theorem X16_refused_folder_request w s :
  (forall p, Saf.requestDirectoryPermissionsAsync w = Ok p ->
             Saf.granted p = false ->
             exec (Saf.requestDirectoryPermission w) s = s
             /\ alerts (trace (Saf.requestDirectoryPermission w) s)
                = ["Permission Required"%string])
  /\ (Saf.requestDirectoryPermissionsAsync w = Thrown ->
      exec (Saf.requestDirectoryPermission w) s = s
      /\ alerts (trace (Saf.requestDirectoryPermission w) s)
         = ["Error"%string]).
Proof.
  destruct (saf_request_state w s) as [Hstate Halerts].
  split.
  - intros p Hreq Hgranted. rewrite Hstate, Halerts, Hreq, Hgranted.
    split; reflexivity.
  - intros Hreq. rewrite Hstate, Halerts, Hreq. split; reflexivity.
Qed.

(** ** Starting the storage-access-framework application again *)

Lemma saf_permission_state w s :
  exec (Saf.getCameraPermissions w) s
  = Saf.MkState
      (match Saf.requestCameraPermissionsAsync w with
       | Ok isGranted => Some isGranted
       | Thrown => Saf.hasPermission s
       end)
      (Saf.scanned s) (Saf.isLoading s) (Saf.lastScan s) (Saf.isProcessing s)
      (Saf.directoryPermission s) (Saf.pdfFiles s) (Saf.isFlashlightOn s)
      (Saf.storage s).
Proof.
  unfold Saf.getCameraPermissions, Saf.setHasPermission. run_act.
  destruct (Saf.requestCameraPermissionsAsync w); run_act;
    [reflexivity | destruct s; reflexivity].
Qed.

(** [loadSavedDirectory] changes the folder permission, the list and the
    loading flag only, and leaves the loading flag cleared. *)
Lemma saf_load_saved_frame w s :
  exists permission files,
    exec (Saf.loadSavedDirectory w) s
    = Saf.MkState (Saf.hasPermission s) (Saf.scanned s) false (Saf.lastScan s)
        (Saf.isProcessing s) permission files (Saf.isFlashlightOn s)
        (Saf.storage s).
Proof.
  unfold Saf.loadSavedDirectory, Saf.AsyncStorage_getItem,
    Saf.setDirectoryPermission, Saf.setIsLoading.
  run_act.
  destruct (truthy (Saf.storage s !! Saf.STORAGE_KEY)); run_act;
    [|eexists _, _; reflexivity].
  destruct (Saf.parse_permission _) as [d|]; run_act;
    [|eexists _, _; reflexivity].
  destruct (Saf.granted d); run_act; [|eexists _, _; reflexivity].
  match goal with
  | |- context [Saf.loadPDFFilesFromDirectory w ?d ?s0] =>
      destruct (saf_relist_run w d s0) as (Hstate & _ & _ & Hout);
      unfold exec in Hstate; unfold outcome in Hout;
      destruct (Saf.loadPDFFilesFromDirectory w d s0) as [[r s1] t1]
  end.
  cbn [fst snd] in Hstate, Hout. subst r s1. run_act.
  eexists _, _; reflexivity.
Qed.


(** [loadLastScan] changes at most the last scan. *)
Lemma saf_load_scan_state s :
  exec Saf.loadLastScan s
  = Saf.MkState (Saf.hasPermission s) (Saf.scanned s) (Saf.isLoading s)
      (match Saf.storage s !! Saf.LAST_SCAN_KEY with
       | Some text =>
           if truthy (Some text) then
             match Saf.parse_scan text with
             | Some r => Some r
             | None => Saf.lastScan s
             end
           else Saf.lastScan s
       | None => Saf.lastScan s
       end)
      (Saf.isProcessing s) (Saf.directoryPermission s) (Saf.pdfFiles s)
      (Saf.isFlashlightOn s) (Saf.storage s).
Proof.
  unfold Saf.loadLastScan, Saf.AsyncStorage_getItem, Saf.setLastScan.
  run_act.
  destruct (Saf.storage s !! Saf.LAST_SCAN_KEY) as [text|];
    [|run_act; destruct s; reflexivity].
  destruct (truthy (Some text)); run_act; [|destruct s; reflexivity].
  cbn [default from_option id].
  destruct (Saf.parse_scan text); run_act; [reflexivity|].
  destruct s; reflexivity.
Qed.

(** The mount effect asks for the camera, loads the folder and then the
    last scan. *)
Lemma saf_mount_exec w s :
  exec (Saf.dispatch w Saf.Mount) s
  = exec Saf.loadLastScan
      (exec (Saf.loadSavedDirectory w) (exec (Saf.getCameraPermissions w) s)).
Proof.
  cbn [Saf.dispatch]. unfold exec at 1. rewrite detached_then.
  cbn [fst snd]. unfold exec at 1. rewrite detached_then.
  cbn [fst snd]. apply detached_exec.
Qed.



(** ** The loading flag and the camera permission *)

Lemma picker_load_loaded w s :
  Picker.isLoading (exec (Picker.loadPDFFiles w) s) = false
  /\ Picker.hasPermission (exec (Picker.loadPDFFiles w) s)
     = Picker.hasPermission s.
Proof.
  destruct (Picker.storage s !! Picker.STORAGE_KEY) as [text|] eqn:Hget.
  - destruct text as [|c text].
    + destruct (picker_load_unreadable w s) as (-> & _); [rewrite Hget; auto|].
      split; reflexivity.
    + destruct (Picker.parse_files (c :: text)) as [files|] eqn:Hparse.
      * destruct (picker_load_readable w s (c :: text) files)
          as (-> & _); [assumption | reflexivity | assumption |].
        split; reflexivity.
      * destruct (picker_load_unreadable w s) as (-> & _); [rewrite Hget; auto|].
        split; reflexivity.
  - destruct (picker_load_unreadable w s) as (-> & _); [rewrite Hget; auto|].
    split; reflexivity.
Qed.

Lemma picker_scan_frame w payload s :
  Picker.isLoading (exec (Picker.handleBarCodeScanned w payload) s)
  = Picker.isLoading s
  /\ Picker.hasPermission (exec (Picker.handleBarCodeScanned w payload) s)
     = Picker.hasPermission s.
Proof.
  destruct (picker_handle_cases w payload s)
    as [[_ Hidle] | [(Hsc & Hpr & Hlen) _]].
  - unfold exec. rewrite Hidle. split; reflexivity.
  - rewrite (picker_scan_state w payload s Hsc Hpr Hlen). split; reflexivity.
Qed.

(** No event but the mount effect and the grant button touches the loading
    flag or the camera permission. *)
Lemma picker_step_frame w ev s :
  ev <> Picker.Mount -> ev <> Picker.PressGrantPermission ->
  Picker.isLoading (exec (Picker.dispatch w ev) s) = Picker.isLoading s
  /\ Picker.hasPermission (exec (Picker.dispatch w ev) s)
     = Picker.hasPermission s.
Proof.
  intros Hmount Hgrant.
  destruct ev as [|payload| | | |target|[|target|]|]; cbn [Picker.dispatch];
    try contradiction; rewrite ?detached_exec.
  - apply picker_scan_frame.
  - destruct (picker_add_state w s) as [-> _]. split; reflexivity.
  - run_act. split; reflexivity.
  - destruct (picker_remove_state target s) as (-> & _). split; reflexivity.
  - destruct (picker_add_state w s) as [-> _]. split; reflexivity.
  - destruct (picker_remove_state target s) as (-> & _). split; reflexivity.
  - split; reflexivity.
  - split; reflexivity.
Qed.

Lemma picker_reachable_loaded s :
  Picker.reachable s -> Picker.isLoading s = false.
Proof.
  induction 1 as [disk w | s w ev _ IH Hen].
  - rewrite picker_mount_exec. apply picker_load_loaded.
  - assert (Hev : ev = Picker.Mount \/ ev = Picker.PressGrantPermission
                  \/ (ev <> Picker.Mount /\ ev <> Picker.PressGrantPermission))
      by (destruct ev; auto; right; right; split; discriminate).
    destruct Hev as [-> | [-> | [Hmount Hgrant]]]; [discriminate| |].
    + cbn [Picker.dispatch]. rewrite detached_exec, picker_permission_state.
      exact IH.
    + destruct (picker_step_frame w ev s Hmount Hgrant) as [-> _]. exact IH.
Qed.

Lemma saf_scan_frame w payload s :
  Saf.isLoading (exec (Saf.handleBarCodeScanned w payload) s) = Saf.isLoading s
  /\ Saf.hasPermission (exec (Saf.handleBarCodeScanned w payload) s)
     = Saf.hasPermission s.
Proof.
  destruct (saf_handle_cases w payload s)
    as [[_ Hidle] | [(Hsc & Hpr & Hlen) _]].
  - unfold exec. rewrite Hidle. split; reflexivity.
  - rewrite (saf_scan_state w payload s Hsc Hpr Hlen). split; reflexivity.
Qed.

Lemma saf_refresh_frame w s :
  Saf.isLoading s = false ->
  Saf.isLoading (exec (Saf.refreshFiles w) s) = false
  /\ Saf.hasPermission (exec (Saf.refreshFiles w) s) = Saf.hasPermission s.
Proof.
  intros Hloaded. unfold Saf.refreshFiles.
  destruct (Saf.directoryPermission s) as [d|] eqn:Hd.
  - replace (exec _ s) with (exec (Saf.loadPDFFilesFromDirectory w (Saf.directoryUri d)) s)
      by (unfold exec; run_act; rewrite Hd;
          destruct (Saf.loadPDFFilesFromDirectory w (Saf.directoryUri d) s)
            as [[r s2] t2]; reflexivity).
    destruct (saf_relist_run w (Saf.directoryUri d) s) as (-> & _).
    split; reflexivity.
  - replace (exec _ s) with s by (unfold exec; run_act; rewrite Hd; reflexivity).
    split; [exact Hloaded | reflexivity].
Qed.

Lemma saf_step_frame w ev s :
  ev <> Saf.Mount -> ev <> Saf.PressGrantPermission ->
  Saf.isLoading s = false ->
  Saf.isLoading (exec (Saf.dispatch w ev) s) = false
  /\ Saf.hasPermission (exec (Saf.dispatch w ev) s) = Saf.hasPermission s.
Proof.
  intros Hmount Hgrant Hloaded.
  destruct ev as [|payload| | | | |[|target|]|]; cbn [Saf.dispatch];
    try contradiction; rewrite ?detached_exec.
  - destruct (saf_scan_frame w payload s) as [-> ->].
    split; [exact Hloaded | reflexivity].
  - destruct (saf_request_state w s) as [-> _].
    destruct (Saf.requestDirectoryPermissionsAsync w) as [p|];
      [destruct (Saf.granted p)|]; split; solve [reflexivity | exact Hloaded].
  - apply saf_refresh_frame, Hloaded.
  - unfold Saf.toggleFlashlight, Saf.setIsFlashlightOn. run_act.
    split; [exact Hloaded | reflexivity].
  - split; [exact Hloaded | reflexivity].
  - split; [exact Hloaded | reflexivity].
  - apply saf_refresh_frame, Hloaded.
  - unfold Saf.scanTimeout, Saf.setScanned. run_act.
    split; [exact Hloaded | reflexivity].
Qed.

Lemma saf_mount_loaded w disk :
  Saf.isLoading (exec (Saf.dispatch w Saf.Mount) (Saf.initial disk)) = false
  /\ Saf.hasPermission (exec (Saf.dispatch w Saf.Mount) (Saf.initial disk))
     = match Saf.requestCameraPermissionsAsync w with
       | Ok isGranted => Some isGranted
       | Thrown => None
       end.
Proof.
  rewrite saf_mount_exec, saf_load_scan_state.
  destruct (saf_load_saved_frame w
              (exec (Saf.getCameraPermissions w) (Saf.initial disk)))
    as (permission & files & ->).
  rewrite saf_permission_state. split; reflexivity.
Qed.

Lemma saf_reachable_loaded s : Saf.reachable s -> Saf.isLoading s = false.
Proof.
  induction 1 as [disk w | s w ev _ IH Hen].
  - apply saf_mount_loaded.
  - assert (Hev : ev = Saf.Mount \/ ev = Saf.PressGrantPermission
                  \/ (ev <> Saf.Mount /\ ev <> Saf.PressGrantPermission))
      by (destruct ev; auto; right; right; split; discriminate).
    destruct Hev as [-> | [-> | [Hmount Hgrant]]]; [discriminate| |].
    + cbn [Saf.dispatch]. rewrite detached_exec, saf_permission_state.
      exact IH.
    + apply (saf_step_frame w ev s Hmount Hgrant IH).
Qed.

Lemma picker_load_processing w s :
  Picker.isProcessing (exec (Picker.loadPDFFiles w) s) = Picker.isProcessing s.
Proof.
  destruct (Picker.storage s !! Picker.STORAGE_KEY) as [text|] eqn:Hget.
  - destruct text as [|c text].
    + destruct (picker_load_unreadable w s) as (-> & _); [rewrite Hget; auto|].
      reflexivity.
    + destruct (Picker.parse_files (c :: text)) as [files|] eqn:Hparse.
      * destruct (picker_load_readable w s (c :: text) files)
          as (-> & _); [assumption | reflexivity | assumption |].
        reflexivity.
      * destruct (picker_load_unreadable w s) as (-> & _); [rewrite Hget; auto|].
        reflexivity.
  - destruct (picker_load_unreadable w s) as (-> & _); [rewrite Hget; auto|].
    reflexivity.
Qed.

(** No handler leaves the processing flag set. *)
Lemma picker_reachable_idle s :
  Picker.reachable s -> Picker.isProcessing s = false.
Proof.
  induction 1 as [disk w | s w ev _ IH Hen].
  - rewrite picker_mount_exec, picker_load_processing,
      picker_permission_state. reflexivity.
  - destruct ev as [|payload| | | |target|[|target|]|]; cbn [Picker.dispatch];
      rewrite ?detached_exec.
    + discriminate.
    + destruct (picker_handle_cases w payload s)
        as [[_ Hidle] | [(Hsc & Hpr & Hlen) _]].
      * unfold exec. rewrite Hidle. exact IH.
      * rewrite (picker_scan_state w payload s Hsc Hpr Hlen). reflexivity.
    + rewrite picker_permission_state. exact IH.
    + destruct (picker_add_state w s) as [-> _]. exact IH.
    + run_act. exact IH.
    + destruct (picker_remove_state target s) as (-> & _). exact IH.
    + destruct (picker_add_state w s) as [-> _]. exact IH.
    + destruct (picker_remove_state target s) as (-> & _). exact IH.
    + exact IH.
    + exact IH.
Qed.

Lemma saf_refresh_processing w s :
  Saf.isProcessing (exec (Saf.refreshFiles w) s) = Saf.isProcessing s.
Proof.
  unfold Saf.refreshFiles.
  destruct (Saf.directoryPermission s) as [d|] eqn:Hd.
  - replace (exec _ s)
      with (exec (Saf.loadPDFFilesFromDirectory w (Saf.directoryUri d)) s)
      by (unfold exec; run_act; rewrite Hd;
          destruct (Saf.loadPDFFilesFromDirectory w (Saf.directoryUri d) s)
            as [[r s2] t2]; reflexivity).
    destruct (saf_relist_run w (Saf.directoryUri d) s) as (-> & _).
    reflexivity.
  - replace (exec _ s) with s by (unfold exec; run_act; rewrite Hd; reflexivity).
    reflexivity.
Qed.

Lemma saf_reachable_idle s : Saf.reachable s -> Saf.isProcessing s = false.
Proof.
  induction 1 as [disk w | s w ev _ IH Hen].
  - rewrite saf_mount_exec, saf_load_scan_state.
    destruct (saf_load_saved_frame w
                (exec (Saf.getCameraPermissions w) (Saf.initial disk)))
      as (permission & files & ->).
    rewrite saf_permission_state. reflexivity.
  - destruct ev as [|payload| | | | |[|target|]|]; cbn [Saf.dispatch];
      rewrite ?detached_exec.
    + discriminate.
    + destruct (saf_handle_cases w payload s)
        as [[_ Hidle] | [(Hsc & Hpr & Hlen) _]].
      * unfold exec. rewrite Hidle. exact IH.
      * rewrite (saf_scan_state w payload s Hsc Hpr Hlen). reflexivity.
    + rewrite saf_permission_state. exact IH.
    + destruct (saf_request_state w s) as [-> _].
      destruct (Saf.requestDirectoryPermissionsAsync w) as [p|];
        [destruct (Saf.granted p)|]; exact IH.
    + rewrite saf_refresh_processing. exact IH.
    + unfold Saf.toggleFlashlight, Saf.setIsFlashlightOn. run_act. exact IH.
    + exact IH.
    + exact IH.
    + rewrite saf_refresh_processing. exact IH.
    + unfold Saf.scanTimeout, Saf.setScanned. run_act. exact IH.
Qed.

(** X19. Neither application rests with a flag left set. In every state
    reached by the mount effect followed by any events the screens offer,
    whatever the storage holds and whatever the platform answers or fails
    to answer, the loading flag and the processing flag are cleared, so the
    loading screen is not shown: every handler that raises one of them
    lowers it again in a [finally] block. *)
Theorem X19_flags_lowered_again :
  (forall s, Picker.reachable s ->
             Picker.isLoading s = false
             /\ Picker.isProcessing s = false
             /\ Picker.render s <> Picker.LoadingScreen)
  /\ (forall s, Saf.reachable s ->
                Saf.isLoading s = false
                /\ Saf.isProcessing s = false
                /\ Saf.render s <> Saf.LoadingScreen).
Proof.
  split; intros s Hreach.
  - pose proof (picker_reachable_loaded s Hreach) as Hloaded.
    split; [exact Hloaded|]. split; [apply picker_reachable_idle, Hreach|].
    unfold Picker.render. rewrite Hloaded.
    destruct (Picker.hasPermission s) as [[]|]; try discriminate.
    destruct (length (Picker.pdfFiles s) =? 0)%nat; discriminate.
  - pose proof (saf_reachable_loaded s Hreach) as Hloaded.
    split; [exact Hloaded|]. split; [apply saf_reachable_idle, Hreach|].
    unfold Saf.render. rewrite Hloaded.
    destruct (Saf.hasPermission s) as [[]|]; try discriminate.
    destruct (negb (Saf.isGranted (Saf.directoryPermission s))); discriminate.
Qed.

(** X20. The camera permission of the picker-based application. The mount
    effect records the answer of the permission request. When the request
    fails there is no answer to record, and none is ever recorded: in a
    reachable state without an answer the screen is the one that says the
    permission is being requested, it offers no control, and every event
    that can still occur leaves the state without an answer. *)
Theorem X20_picker_camera_request :
  (forall w disk,
      Picker.hasPermission (exec (Picker.dispatch w Picker.Mount)
                                 (Picker.initial disk))
      = match Picker.requestCameraPermissionsAsync w with
        | Ok isGranted => Some isGranted
        | Thrown => None
        end)
  /\ (forall s,
         Picker.reachable s -> Picker.hasPermission s = None ->
         Picker.render s = Picker.RequestingPermissionScreen
         /\ forall w ev,
             Picker.enabled s ev = true ->
             Picker.hasPermission (exec (Picker.dispatch w ev) s) = None).
Proof.
  split.
  - intros w disk. rewrite picker_mount_exec.
    destruct (picker_load_loaded w
                (exec (Picker.getCameraPermissions w) (Picker.initial disk)))
      as [_ ->].
    rewrite picker_permission_state. reflexivity.
  - intros s Hreach Hnone.
    pose proof (picker_reachable_loaded s Hreach) as Hloaded.
    assert (Hscreen : Picker.render s = Picker.RequestingPermissionScreen)
      by (unfold Picker.render; rewrite Hloaded, Hnone; reflexivity).
    split; [exact Hscreen|]. intros w ev Hen.
    unfold Picker.enabled in Hen. rewrite Hscreen in Hen.
    destruct (picker_step_frame w ev s) as [_ ->];
      [destruct ev; (discriminate Hen || discriminate)
      |destruct ev; (discriminate Hen || discriminate)
      |exact Hnone].
Qed.

(** X21. The camera permission of the storage-access-framework
    application: as in the picker-based one. *)
Theorem X21_saf_camera_request :
  (forall w disk,
      Saf.hasPermission (exec (Saf.dispatch w Saf.Mount) (Saf.initial disk))
      = match Saf.requestCameraPermissionsAsync w with
        | Ok isGranted => Some isGranted
        | Thrown => None
        end)
  /\ (forall s,
         Saf.reachable s -> Saf.hasPermission s = None ->
         Saf.render s = Saf.RequestingPermissionScreen
         /\ forall w ev,
             Saf.enabled s ev = true ->
             Saf.hasPermission (exec (Saf.dispatch w ev) s) = None).
Proof.
  split.
  - intros w disk. apply saf_mount_loaded.
  - intros s Hreach Hnone.
    pose proof (saf_reachable_loaded s Hreach) as Hloaded.
    assert (Hscreen : Saf.render s = Saf.RequestingPermissionScreen)
      by (unfold Saf.render; rewrite Hloaded, Hnone; reflexivity).
    split; [exact Hscreen|]. intros w ev Hen.
    unfold Saf.enabled in Hen. rewrite Hscreen in Hen.
    destruct (saf_step_frame w ev s) as [_ ->];
      [destruct ev; (discriminate Hen || discriminate)
      |destruct ev; (discriminate Hen || discriminate)
      |exact Hloaded
      |exact Hnone].
Qed.

(** ** From choosing a folder to opening a document *)

Lemma filter_first {A} (p : A -> bool) (before after : list A) (x : A) :
  p x = true -> Forall (fun y => p y = false) before ->
  exists rest, List.filter p (before ++ x :: after) = x :: rest.
Proof.
  intros Hx Hbefore. induction Hbefore as [|y before Hy _ IH].
  - cbn [app List.filter]. rewrite Hx. eexists. reflexivity.
  - cbn [app List.filter]. rewrite Hy. exact IH.
Qed.

(** X22. A document of the chosen folder is opened by the scan of its
    barcode. After a granted folder request whose directory read lists a
    document URI ending in [%2F] and a file name that is, without regard to
    case, the first 8 characters of the payload followed by [.pdf], an
    accepted scan of that payload on Android hands exactly that URI to the
    launcher, provided no document listed before it has such a name. *)
Theorem X22_chosen_folder_opens_on_scan
  w1 w2 s p earlier later before name payload :
  Saf.requestDirectoryPermissionsAsync w1 = Ok p ->
  Saf.granted p = true ->
  Saf.readDirectoryAsync w1 (Saf.directoryUri p)
  = Ok (earlier ++ (before ++ lit "%2F" ++ name) :: later) ->
  ~ occurs_in (lit "%2F") name ->
  Saf.toLowerCase w2 name = Saf.toLowerCase w2 (take 8 payload) ++ lit ".pdf" ->
  Forall (fun target => ~ names_key w2 (take 8 payload) target) earlier ->
  Saf.scanned s = false -> Saf.isProcessing s = false ->
  length payload = 14%nat ->
  Saf.Platform_OS w2 = android ->
  launches (trace (Saf.handleBarCodeScanned w2 payload)
                  (exec (Saf.requestDirectoryPermission w1) s))
  = [before ++ lit "%2F" ++ name].
Proof.
  intros Hreq Hgranted Hread Hname Hkey Hearlier Hsc Hpr Hlen Hos.
  destruct (saf_request_state w1 s) as [Hstate _].
  rewrite Hreq, Hgranted, Hread in Hstate.
  set (chosen := exec (Saf.requestDirectoryPermission w1) s) in *.
  assert (Hsc' : Saf.scanned chosen = false) by (rewrite Hstate; exact Hsc).
  assert (Hpr' : Saf.isProcessing chosen = false)
    by (rewrite Hstate; exact Hpr).
  destruct (saf_scan_summary w2 payload chosen Hsc' Hpr' Hlen) as [-> _].
  unfold saf_launched. rewrite Hstate.
  cbn [Saf.directoryPermission Saf.pdfFiles Saf.isGranted].
  rewrite Hgranted.
  destruct (filter_first (Saf.matchesBarcode w2 (take 8 payload))
              earlier later (before ++ lit "%2F" ++ name)) as [rest ->].
  - unfold Saf.matchesBarcode. rewrite name_after_last_slash by exact Hname.
    apply str_eqb_eq. exact Hkey.
  - eapply Forall_impl; [exact Hearlier|]. intros target Hno.
    unfold Saf.matchesBarcode. apply str_eqb_neq. exact Hno.
  - rewrite Hos. reflexivity.
Qed.

(** ** The further properties at concrete inputs *)

(** A search over every index shows that a pattern does not occur. *)
Lemma absent_by_search (pat s : jsstring) :
  forallb (fun k => negb (startsWith (drop k s) pat)) (seq 0 (S (length s)))
  = true ->
  ~ occurs_in pat s.
Proof.
  intros Hsearch [k Hk].
  rewrite forallb_forall in Hsearch.
  destruct (Nat.le_gt_cases k (length s)) as [Hle | Hgt].
  - specialize (Hsearch k). rewrite Hk in Hsearch.
    discriminate Hsearch. apply in_seq. lia.
  - specialize (Hsearch (length s)).
    rewrite drop_ge in Hk by lia. rewrite drop_ge in Hsearch by lia.
    rewrite Hk in Hsearch. discriminate Hsearch. apply in_seq. lia.
Qed.






Lemma X8_witness :
  Picker.pdfFiles (exec (Picker.removePDFFile Tour.elsewhere) Demo.scanning)
  = [Demo.manual].
Proof.
  destruct (X8_removal_of_uri Tour.elsewhere Demo.scanning)
    as (_ & Hsame & _).
  apply Hsame. intros Hin. vm_compute in Hin.
  apply list_elem_of_singleton in Hin. discriminate Hin.
Defined.

Lemma X9_witness :
  Picker.render (exec (Picker.removePDFFile (Picker.uri Demo.manual))
                      Demo.scanning)
  = Picker.SetupScreen false.
Proof.
  apply (X9_screen_after_last_removal (Picker.uri Demo.manual) Demo.scanning);
    reflexivity.
Defined.



Lemma X13_witness :
  launches (trace (Picker.handleBarCodeScanned (Demo.device android)
                     Demo.payload)
                  (exec (Picker.addPDFFiles (Demo.picking [Tour.document]))
                        Tour.mounted))
  = [lit "content://documents/AB123456.pdf"].
Proof.
  apply (X13_added_file_opens_on_scan (Demo.picking [Tour.document])
           (Demo.device android) Tour.mounted Tour.document (lit "AB123456")
           Demo.payload); try reflexivity.
  - intros Hin. vm_compute in Hin. apply elem_of_nil in Hin. exact Hin.
  - constructor.
Defined.

Lemma X14_witness :
  Saf.getStringAfterLastSlash (lit "AB123456.pdf") = lit "AB123456.pdf"
  /\ Saf.getStringAfterLastSlash (Tour.tree ++ lit "%2F" ++ lit "AB123456.pdf")
     = lit "AB123456.pdf".
Proof.
  destruct X14_name_after_last_encoded_slash as [Hwhole Hname].
  split; [apply Hwhole | apply Hname]; apply absent_by_search; reflexivity.
Defined.

Lemma X15_witness :
  Saf.pdfFiles (exec (Saf.loadPDFFilesFromDirectory Tour.unreadable Demo.folder)
                     Demo.saf_scanning)
  = [Demo.listed]
  /\ alerts (trace (Saf.loadPDFFilesFromDirectory Tour.unreadable Demo.folder)
                   Demo.saf_scanning)
     = ["Error"%string].
Proof.
  destruct (X15_folder_refresh Tour.unreadable Demo.folder Demo.saf_scanning)
    as (Hkept & _).
  exact Hkept.
Defined.

Lemma X16_witness :
  exec (Saf.requestDirectoryPermission Tour.refusing) Demo.saf_scanning
  = Demo.saf_scanning
  /\ alerts (trace (Saf.requestDirectoryPermission Tour.refusing)
                   Demo.saf_scanning)
     = ["Permission Required"%string].
Proof.
  destruct (X16_refused_folder_request Tour.refusing Demo.saf_scanning)
    as [Hrefused _].
  apply (Hrefused (Saf.MkDirectoryPermission false [])); reflexivity.
Defined.



Lemma X19_witness :
  Picker.reachable Tour.added /\ Picker.isLoading Tour.added = false.
Proof.
  assert (Hreach : Picker.reachable Tour.added).
  { apply Picker.reach_step; [apply Picker.reach_mount | reflexivity]. }
  split; [exact Hreach|].
  destruct X19_flags_lowered_again as [Hpicker _].
  apply (Hpicker Tour.added Hreach).
Defined.

Lemma X20_witness :
  Picker.hasPermission Tour.stuck = None
  /\ Picker.render Tour.stuck = Picker.RequestingPermissionScreen
  /\ Picker.hasPermission
       (exec (Picker.dispatch (Demo.device android) Picker.TimeoutFired)
             Tour.stuck) = None.
Proof.
  destruct X20_picker_camera_request as [Hmount Hstays].
  assert (Hnone : Picker.hasPermission Tour.stuck = None)
    by apply (Hmount Tour.camera_failing ∅).
  split; [exact Hnone|].
  destruct (Hstays Tour.stuck (Picker.reach_mount ∅ Tour.camera_failing) Hnone)
    as [Hscreen Hstep].
  split; [exact Hscreen|]. apply Hstep. reflexivity.
Defined.

Lemma X21_witness :
  Saf.hasPermission Tour.saf_stuck = None
  /\ Saf.render Tour.saf_stuck = Saf.RequestingPermissionScreen
  /\ Saf.hasPermission
       (exec (Saf.dispatch (Demo.saf_device android) Saf.TimeoutFired)
             Tour.saf_stuck) = None.
Proof.
  destruct X21_saf_camera_request as [Hmount Hstays].
  assert (Hnone : Saf.hasPermission Tour.saf_stuck = None)
    by apply (Hmount Tour.saf_camera_failing ∅).
  split; [exact Hnone|].
  destruct (Hstays Tour.saf_stuck (Saf.reach_mount ∅ Tour.saf_camera_failing)
              Hnone) as [Hscreen Hstep].
  split; [exact Hscreen|]. apply Hstep. reflexivity.
Defined.

Lemma X22_witness :
  launches (trace (Saf.handleBarCodeScanned (Demo.saf_device android)
                     Demo.payload)
                  (exec (Saf.requestDirectoryPermission (Demo.saf_device android))
                        (Saf.initial ∅)))
  = [Demo.listed].
Proof.
  apply (X22_chosen_folder_opens_on_scan (Demo.saf_device android)
           (Demo.saf_device android) (Saf.initial ∅)
           (Saf.MkDirectoryPermission true Demo.folder) [] []
           Tour.tree (lit "AB123456.pdf") Demo.payload); try reflexivity.
  - apply absent_by_search. reflexivity.
  - constructor.
Defined.
